(** * NMR restraint / PDB atom-index mapper: a shallow embedding

  The repository holds two near-duplicate scripts,
  [nmr_pdb_restraint_mapper.py] and [test_general.py].  Both read an MR
  restraint file and a PDB coordinate file, and rewrite every atom
  reference of the MR file as a PDB atom index.  The two scripts differ in
  [convert_atom_name], [parse_pdb_file] and [link_mr_to_pdb]; they share
  [parse_mr_file] and [format_output_line].

  Python strings are modelled as lists of characters with code points
  below 256 (Rocq's [ascii]); the character classes below are those of
  Python 3 on that range.  Files are modelled as the list of their lines,
  each line carrying its line terminator when it has one. *)

From Stdlib Require Import ZArith List String Ascii Bool Lia.
From Stdlib Require Import DecimalString.
From Stdlib Require DecimalFacts DecimalPos.
From stdpp Require Import base option list gmap fin_maps strings.

Import ListNotations.
Open Scope Z_scope.
Open Scope list_scope.

Abbreviation str := (list ascii).

(** A string literal, as a list of characters. *)
Definition L (s : string) : str := list_ascii_of_string s.

(** * Python string primitives *)

Module Py.

Definition dquote : ascii := "034"%char.

Definition code (c : ascii) : N := N_of_ascii c.

Definition in_range (lo hi : N) (c : ascii) : bool :=
  ((lo <=? code c) && (code c <=? hi))%N.

(** [str.isspace] on one character, also the class [\s] of [re]. *)
Definition isspace (c : ascii) : bool :=
  in_range 9 13 c || in_range 28 32 c
  || (code c =? 133)%N || (code c =? 160)%N.

(** [\d] of [re]: the decimal digits. *)
Definition isdecimal (c : ascii) : bool := in_range 48 57 c.

(** [str.isdigit] on one character: the decimal digits and the
    superscript digits of Latin-1. *)
Definition isdigit (c : ascii) : bool :=
  isdecimal c || (code c =? 178)%N || (code c =? 179)%N || (code c =? 185)%N.

(** [\w] of [re]: alphanumeric characters and the underscore. *)
Definition isword (c : ascii) : bool :=
  isdecimal c || in_range 65 90 c || (code c =? 95)%N || in_range 97 122 c
  || (code c =? 170)%N || (code c =? 178)%N || (code c =? 179)%N
  || (code c =? 181)%N || (code c =? 185)%N || (code c =? 186)%N
  || in_range 188 190 c || in_range 192 214 c || in_range 216 246 c
  || in_range 248 255 c.

Definition ascii_eqb (a b : ascii) : bool := Ascii.eqb a b.

(** [c in chars] for a character [c]. *)
Definition mem (c : ascii) (chars : str) : bool := existsb (ascii_eqb c) chars.

(** [s.startswith(p)] *)
Fixpoint startswith (s p : str) {struct p} : bool :=
  match p, s with
  | [], _ => true
  | _ :: _, [] => false
  | b :: p', a :: s' => ascii_eqb a b && startswith s' p'
  end.

(** [s.endswith(p)] *)
Definition endswith (s p : str) : bool := startswith (rev s) (rev p).

(** [s == t] *)
Fixpoint eqb (s t : str) : bool :=
  match s, t with
  | [], [] => true
  | a :: s', b :: t' => ascii_eqb a b && eqb s' t'
  | _, _ => false
  end.

Fixpoint drop_while (f : ascii -> bool) (s : str) : str :=
  match s with
  | [] => []
  | c :: s' => if f c then drop_while f s' else s
  end.

(** [s.lstrip(chars)], [s.rstrip(chars)] and [s.strip(chars)] *)
Definition lstrip_chars (chars s : str) : str :=
  drop_while (fun c => mem c chars) s.
Definition rstrip_chars (chars s : str) : str :=
  rev (lstrip_chars chars (rev s)).
Definition strip_chars (chars s : str) : str :=
  rstrip_chars chars (lstrip_chars chars s).

(** [s.rstrip()] and [s.strip()]: whitespace is removed. *)
Definition rstrip (s : str) : str := rev (drop_while isspace (rev s)).
Definition strip (s : str) : str := rstrip (drop_while isspace s).

(** [s[-1].isdigit()], for a non-empty [s]; the callers test
    non-emptiness first. *)
Definition last_isdigit (s : str) : bool :=
  match rev s with
  | [] => false
  | c :: _ => isdigit c
  end.

(** [s[:-1]] *)
Definition drop_last (s : str) : str := removelast s.

(** [s[i:j]] for constants [0 <= i <= j]. *)
Definition slice (i j : nat) (s : str) : str := firstn (j - i) (skipn i s).

(** [s.replace(a, b)] for single characters [a] and [b]. *)
Definition replace_char (a b : ascii) (s : str) : str :=
  map (fun c => if ascii_eqb c a then b else c) s.

(** [sep.join(parts)] *)
Fixpoint join (sep : str) (parts : list str) : str :=
  match parts with
  | [] => []
  | [p] => p
  | p :: rest => p ++ sep ++ join sep rest
  end.

(** [f"{s:>w}"] and [f"{s:<w}"] for a string [s]. *)
Definition rjust (w : nat) (s : str) : str :=
  repeat " "%char (w - length s) ++ s.
Definition ljust (w : nat) (s : str) : str :=
  s ++ repeat " "%char (w - length s).

(** The whitespace that [int] accepts around a number. *)
Definition int_space (c : ascii) : bool :=
  in_range 9 13 c || (code c =? 32)%N
  || (code c =? 133)%N || (code c =? 160)%N.

Definition digit_value (c : ascii) : Z := Z.of_N (code c) - 48.

(** The digits of an [int] literal: decimal digits, with single
    underscores allowed between two digits. *)
Fixpoint digits_value (acc : Z) (after_digit : bool) (s : str) : option Z :=
  match s with
  | [] => if after_digit then Some acc else None
  | c :: s' =>
      if isdecimal c then digits_value (10 * acc + digit_value c) true s'
      else if ascii_eqb c "_"%char && after_digit
           then digits_value acc false s'
           else None
  end.

(** The interpreter's limit on conversions between [int] and [str] in
    base ten, [sys.int_info.default_max_str_digits] of CPython 3.11 and
    later: a conversion of more digits raises [ValueError].  Neither
    script changes the limit. *)
Definition max_str_digits : Z := 4300.

(** The digits of a literal, sign removed: the digit characters are
    counted, leading zeros included and underscores left out, and a
    literal over the limit is refused. *)
Definition int_digits (s : str) : option Z :=
  if max_str_digits <? Z.of_nat (length (List.filter isdecimal s)) then None
  else digits_value 0 false s.

(** [int(s)]: [None] stands for [ValueError]. *)
Definition int (s : str) : option Z :=
  let s := rev (drop_while int_space (rev (drop_while int_space s))) in
  match s with
  | c :: s' =>
      if ascii_eqb c "+"%char then int_digits s'
      else if ascii_eqb c "-"%char then Z.opp <$> int_digits s'
      else int_digits s
  | [] => None
  end.

(** The digits of [n] in base ten, after a minus sign when [n] is
    negative. *)
Definition decimal (n : Z) : str :=
  L (NilZero.string_of_int (Z.to_int n)).

(** [str(n)] for an integer [n]: [None] stands for [ValueError], raised
    when [n], sign left out, has more digits than the limit. *)
Definition str_of_int (n : Z) : option str :=
  if Z.of_nat (length (decimal (Z.abs n))) <=? max_str_digits
  then Some (decimal n)
  else None.

End Py.

(** * The two regular expressions of the MR parser

  Both patterns are deterministic: at every junction the next piece of
  the pattern starts with a character outside the class of the greedy
  repetition before it, so a greedy left-to-right match is the only
  match and no backtracking can find another. *)

Module Re.

(** Longest prefix of characters of the class [f], and the rest. *)
Fixpoint span (f : ascii -> bool) (s : str) : str * str :=
  match s with
  | [] => ([], [])
  | c :: s' =>
      if f c then let '(a, b) := span f s' in (c :: a, b) else ([], s)
  end.

(** [c+] for a character class: at least one character. *)
Definition many1 (f : ascii -> bool) (s : str) : option (str * str) :=
  match span f s with
  | ([], _) => None
  | (a, b) => Some (a, b)
  end.

(** A literal piece of the pattern. *)
Fixpoint lit (p s : str) {struct p} : option str :=
  match p, s with
  | [], _ => Some s
  | _ :: _, [] => None
  | b :: p', a :: s' => if Py.ascii_eqb a b then lit p' s' else None
  end.

(** The class of the second group: word characters, the apostrophe and
    the double quote. *)
Definition name_char (c : ascii) : bool :=
  Py.isword c || Py.ascii_eqb c "'"%char || Py.ascii_eqb c Py.dquote.

(** One match of the atom-reference pattern at the start of [s]:
    [\(resid\s+(\d+)\s+and\s+name\s+(N+)\s*\)], where [N] is the class
    [name_char].  The result holds the two groups and what follows the
    match. *)
Definition match_atom_ref (s : str) : option ((str * str) * str) :=
  s ← lit (L "(resid") s;
  '(_, s) ← many1 Py.isspace s;
  '(resid, s) ← many1 Py.isdecimal s;
  '(_, s) ← many1 Py.isspace s;
  s ← lit (L "and") s;
  '(_, s) ← many1 Py.isspace s;
  s ← lit (L "name") s;
  '(_, s) ← many1 Py.isspace s;
  '(atom_name, s) ← many1 name_char s;
  let '(_, s) := span Py.isspace s in
  s ← lit (L ")") s;
  Some ((resid, atom_name), s).

(** One match of [\d+\.\d+] at the start of [s]: the matched text and
    what follows. *)
Definition match_float (s : str) : option (str * str) :=
  '(a, s) ← many1 Py.isdecimal s;
  s ← lit (L ".") s;
  '(b, s) ← many1 Py.isdecimal s;
  Some (a ++ L "." ++ b, s).

(** [re.findall]: scan from the left; after a match the scan resumes
    where the match ended ([skip] counts the characters of the current
    match still to pass), after a failure one character further.  The
    matchers above never match the empty string. *)
Fixpoint findall_from {A} (m : str -> option (A * str)) (skip : nat)
    (s : str) : list A :=
  match s with
  | [] => []
  | _ :: s' =>
      match skip with
      | S k => findall_from m k s'
      | O =>
          match m s with
          | Some (x, rest) =>
              x :: findall_from m (length s - length rest - 1) s'
          | None => findall_from m 0 s'
          end
      end
  end.

Definition findall {A} (m : str -> option (A * str)) (s : str) : list A :=
  findall_from m 0 s.

End Re.

(** * The MR parser, shared by the two scripts *)

(** An item of [mr_data]: [('header', header_block)] or
  [('data', (parts, float_values))].  [parts] pairs the residue id, still
  a string of digits, with the converted atom name. *)
Inductive mr_item :=
| MrHeader (header_block : list str)
| MrData (parts : list (str * str)) (float_values : list str).

(** The three local variables of [parse_mr_file]. *)
Record mr_state := MrState {
mr_data : list mr_item;
header_block : list str;
in_header : bool
}.

Module MrFile.
Section Parser.

Variable convert_atom_name : str -> str.

(** The block repeated in the [assign] branch, the [else] branch and
    after the loop: [if header_block: mr_data.append(...); ...]. *)
Definition flush (st : mr_state) : mr_state :=
  match header_block st with
  | [] => st
  | _ :: _ =>
      MrState (mr_data st ++ [MrHeader (header_block st)]) [] false
  end.

(** The body of [for line in file]. *)
Definition step (st : mr_state) (line : str) : mr_state :=
  let line := Py.strip line in
  if Py.startswith line (L "!") then
    let in_header1 :=
      if negb (in_header st) && Py.eqb line (L "!") then true
      else in_header st in
    let header_block1 := header_block st ++ [line] in
    if in_header1 && Py.eqb line (L "!") then
      MrState (mr_data st ++ [MrHeader header_block1]) [] false
    else MrState (mr_data st) header_block1 in_header1
  else if Py.startswith line (L "assign") then
    let st := flush st in
    let parts := Re.findall Re.match_atom_ref line in
    let parts :=
      map (fun '(resid, atom_name) =>
             (resid,
              convert_atom_name (Py.strip_chars [Py.dquote] atom_name)))
          parts in
    let float_values := Re.findall Re.match_float line in
    MrState (mr_data st ++ [MrData parts float_values])
            (header_block st) (in_header st)
  else flush st.

Definition loop (st : mr_state) (lines : list str) : mr_state :=
  fold_left step lines st.

(** [parse_mr_file], on the lines of a file that was opened. *)
Definition parse_mr_file (lines : list str) : list mr_item :=
  mr_data (flush (loop (MrState [] [] false) lines)).

End Parser.
End MrFile.

(** * Floating-point bounds

  [float(value)] followed by the format [<8.3f], computed exactly on
  integers: the decimal literal is rounded to the nearest binary64 value
  (ties to even), and that value is rounded to three decimals (ties to
  even), as the interpreter's conversions do.  The literals covered are
  those of the pattern [\d+\.\d+], the only source of [float_values] in
  the program; any other text gives [None]. *)

Module PyFloat.

(** A non-negative binary64 value: [mant * 2^expo], or infinity. *)
Inductive t :=
| Finite (mant expo : Z)
| Infinity.

(** The integer nearest to [a / b], ties to even, for [0 <= a], [0 < b]. *)
Definition round_half_even (a b : Z) : Z :=
  let q := a / b in
  let r := a mod b in
  if 2 * r <? b then q
  else if b <? 2 * r then q + 1
  else if Z.even q then q else q + 1.

(** [n / d / 2^e] as a fraction. *)
Definition scale2 (n d e : Z) : Z * Z :=
  if 0 <=? e then (n, d * 2 ^ e) else (n * 2 ^ (- e), d).

(** The largest [l] with [2^l <= n / d], for [0 < n], [0 < d]. *)
Definition floor_log2 (n d : Z) : Z :=
  let l := Z.log2 n - Z.log2 d in
  let '(a, b) := scale2 n d l in
  if b <=? a then l else l - 1.

(** The binary64 value nearest to [n / d], for [0 <= n], [0 < d]. *)
Definition of_fraction (n d : Z) : t :=
  if n =? 0 then Finite 0 0
  else
    let e := Z.max (floor_log2 n d - 52) (-1074) in
    let '(a, b) := scale2 n d e in
    let m := round_half_even a b in
    if (971 <? e) || ((971 =? e) && (m =? 2 ^ 53)) then Infinity
    else Finite m e.

Fixpoint digits (acc : Z) (s : str) : Z :=
  match s with
  | [] => acc
  | c :: s' => digits (10 * acc + Py.digit_value c) s'
  end.

(** [float(s)] for a literal [digits.digits]. *)
Definition of_literal (s : str) : option t :=
  '(a, s1) ← Re.many1 Py.isdecimal s;
  s2 ← Re.lit (L ".") s1;
  '(b, s3) ← Re.many1 Py.isdecimal s2;
  match s3 with
  | [] => Some (of_fraction (digits 0 (a ++ b)) (10 ^ Z.of_nat (length b)))
  | _ :: _ => None
  end.

Definition pad3 (n : Z) : str :=
  let d := Py.decimal n in
  repeat "0"%char (3 - length d) ++ d.

(** [f"{x:.3f}"] *)
Definition format_3f (x : t) : str :=
  match x with
  | Infinity => L "inf"
  | Finite m e =>
      let '(a, b) := scale2 (m * 1000) 1 (- e) in
      let r := round_half_even a b in
      Py.decimal (r / 1000) ++ L "." ++ pad3 (r mod 1000)
  end.

End PyFloat.

(** * The output formatter, shared by the two scripts *)

(** The element of the comprehension over [float_values]:
  [f"{float(value):<8.3f}"]; [None] when [value] is not a literal that
  [PyFloat.of_literal] covers. *)
Definition format_bound (value : str) : option str :=
x ← PyFloat.of_literal value;
Some (Py.ljust 8 (PyFloat.format_3f x)).

(** The two comprehensions over [indices], one per mode. *)
Definition format_indices (include_atom_names : bool)
  (indices atom_names : list str) : list str :=
if include_atom_names then
  map (fun '(index, atom_name) =>
         Py.rjust 6 index ++ L "(" ++ atom_name ++ L ")")
      (zip indices atom_names)
else map (Py.rjust 6) indices.

(** [format_output_line] *)
Definition format_output_line (indices atom_names float_values : list str)
  (include_atom_names : bool) : option str :=
let formatted_indices :=
  format_indices include_atom_names indices atom_names in
formatted_floats ← mapM format_bound float_values;
let separator := repeat " "%char 4 in
Some (Py.rstrip
        (Py.join separator
           [Py.join (L " ") formatted_indices;
            Py.join (L " ") formatted_floats])).

(** An item of [linked_data]: a header passed through, or
    [('data', (indices, atom_names, float_values))]. *)
Inductive linked_item :=
| LinkedHeader (header_block : list str)
| LinkedData (indices atom_names float_values : list str).

Definition NA : str := L "N/A".

(** * The loops of [parse_pdb_file] and [link_mr_to_pdb]

    The two scripts have the same loops around different bodies: the body
    of the PDB loop ([pdb_step]), the lookup of one reference ([resolve])
    and the update of the warning tally ([count_warning]) are the
    parameters here. *)

Module Loops.
Section Loops.

Variable pdb_step : gmap (Z * str) Z -> str -> option (gmap (Z * str) Z).
Variable resolve : gmap (Z * str) Z -> Z -> str -> option Z.
Variable count_warning :
  gmap (str * str) nat -> str * str -> gmap (str * str) nat.

(** The loop inside [try]: an exception ([None]) leaves the loop, and the
    handler lets [pdb_data] be returned as it is by then. *)
Fixpoint pdb_loop (pdb_data : gmap (Z * str) Z) (lines : list str)
    : gmap (Z * str) Z :=
  match lines with
  | [] => pdb_data
  | line :: rest =>
      match pdb_step pdb_data line with
      | Some pdb_data' => pdb_loop pdb_data' rest
      | None => pdb_data
      end
  end.

(** [parse_pdb_file], on the lines of a file that was opened. *)
Definition parse_pdb_file (lines : list str) : gmap (Z * str) Z :=
  pdb_loop ∅ lines.

(** The body of [for resid, atom_name in parts]; [None] when
    [int(resid)] raises, or [str] of the index found. *)
Definition link_part (pdb_data : gmap (Z * str) Z)
    (acc : list str * gmap (str * str) nat) (part : str * str)
    : option (list str * gmap (str * str) nat) :=
  let '(indices, warnings) := acc in
  let '(resid, atom_name) := part in
  n ← Py.int resid;
  match resolve pdb_data n atom_name with
  | Some i =>
      index ← Py.str_of_int i;
      Some (indices ++ [index], warnings)
  | None => Some (indices ++ [NA], count_warning warnings (resid, atom_name))
  end.

Fixpoint link_parts (pdb_data : gmap (Z * str) Z)
    (acc : list str * gmap (str * str) nat) (parts : list (str * str))
    : option (list str * gmap (str * str) nat) :=
  match parts with
  | [] => Some acc
  | part :: rest =>
      acc' ← link_part pdb_data acc part;
      link_parts pdb_data acc' rest
  end.

(** The body of [for item in mr_data]. *)
Definition link_item (pdb_data : gmap (Z * str) Z)
    (acc : list linked_item * gmap (str * str) nat) (item : mr_item)
    : option (list linked_item * gmap (str * str) nat) :=
  let '(linked_data, warnings) := acc in
  match item with
  | MrHeader h => Some (linked_data ++ [LinkedHeader h], warnings)
  | MrData parts float_values =>
      '(indices, warnings) ← link_parts pdb_data ([], warnings) parts;
      let atom_names := map snd parts in
      Some (linked_data ++ [LinkedData indices atom_names float_values],
            warnings)
  end.

Fixpoint link_items (pdb_data : gmap (Z * str) Z)
    (acc : list linked_item * gmap (str * str) nat) (items : list mr_item)
    : option (list linked_item * gmap (str * str) nat) :=
  match items with
  | [] => Some acc
  | item :: rest =>
      acc' ← link_item pdb_data acc item;
      link_items pdb_data acc' rest
  end.

(** [link_mr_to_pdb]; [None] when the call raises. *)
Definition link_mr_to_pdb (mr_data : list mr_item)
    (pdb_data : gmap (Z * str) Z)
    : option (list linked_item * gmap (str * str) nat) :=
  link_items pdb_data ([], ∅) mr_data.

End Loops.
End Loops.

(** * nmr_pdb_restraint_mapper.py *)

Module Mapper.

Definition convert_atom_name (atom_name : str) : str :=
  let atom_name := Py.strip_chars [Py.dquote] atom_name in
  let other_cases :=
    if Py.mem "'"%char atom_name && Py.last_isdigit atom_name then
      let base_name := Py.drop_last atom_name in
      if Py.endswith atom_name (L "1") then base_name
      else if Py.endswith atom_name (L "2") then base_name ++ L "'"
      else atom_name
    else atom_name in
  if Py.startswith atom_name (L "H5'") then
    if Py.endswith atom_name (L "1") then L "H5'"
    else if Py.endswith atom_name (L "2") then L "H5''"
    else other_cases
  else other_cases.

Definition parse_mr_file : list str -> list mr_item :=
  MrFile.parse_mr_file convert_atom_name.

(** The body of [for line in file] in [parse_pdb_file]; [None] when an
    [int] conversion raises. *)
Definition pdb_step (pdb_data : gmap (Z * str) Z) (line : str)
    : option (gmap (Z * str) Z) :=
  if Py.startswith line (L "ATOM") then
    atom_index ← Py.int (Py.slice 6 11 line);
    let atom_name := convert_atom_name (Py.strip (Py.slice 12 16 line)) in
    resid ← Py.int (Py.slice 22 26 line);
    Some (<[(resid, atom_name) := atom_index]> pdb_data)
  else Some pdb_data.

Definition parse_pdb_file : list str -> gmap (Z * str) Z :=
  Loops.parse_pdb_file pdb_step.

(** The test [key in pdb_data] and the value [pdb_data[key]] it guards,
    for [key = (int(resid), atom_name)]. *)
Definition resolve (pdb_data : gmap (Z * str) Z) (n : Z) (atom_name : str)
    : option Z :=
  pdb_data !! (n, atom_name).

(** [if key in warnings: warnings[key] += 1 else: warnings[key] = 1] *)
Definition count_warning (warnings : gmap (str * str) nat)
    (key : str * str) : gmap (str * str) nat :=
  match warnings !! key with
  | Some c => <[key := (c + 1)%nat]> warnings
  | None => <[key := 1%nat]> warnings
  end.

Definition link_mr_to_pdb :
    list mr_item -> gmap (Z * str) Z ->
    option (list linked_item * gmap (str * str) nat) :=
  Loops.link_mr_to_pdb resolve count_warning.

End Mapper.

(** * test_general.py *)

Module General.

Definition convert_atom_name (atom_name : str) : str :=
  let atom_name := Py.strip_chars [Py.dquote] atom_name in
  let wildcard :=
    if Py.endswith atom_name (L "#") then Py.drop_last atom_name ++ L "*"
    else atom_name in
  let other_cases :=
    if Py.mem "'"%char atom_name then
      let base_name := Py.rstrip_chars (L "123'") atom_name in
      if Py.endswith atom_name (L "1") || Py.endswith atom_name (L "'")
      then base_name ++ L "'"
      else if Py.endswith atom_name (L "2") || Py.endswith atom_name (L "''")
      then base_name ++ L "''"
      else wildcard
    else wildcard in
  if Py.startswith atom_name (L "H5'") then
    if Py.endswith atom_name (L "1") || Py.eqb atom_name (L "H5'")
    then L "H5'"
    else if Py.endswith atom_name (L "2") || Py.eqb atom_name (L "H5''")
    then L "H5''"
    else other_cases
  else other_cases.

Definition parse_mr_file : list str -> list mr_item :=
  MrFile.parse_mr_file convert_atom_name.

(** The body of [for line in file] in [parse_pdb_file]; [None] when an
    [int] conversion raises. *)
Definition pdb_step (pdb_data : gmap (Z * str) Z) (line : str)
    : option (gmap (Z * str) Z) :=
  if Py.startswith line (L "ATOM") then
    atom_index ← Py.int (Py.slice 6 11 line);
    let atom_name := Py.strip (Py.slice 12 16 line) in
    resid ← Py.int (Py.slice 22 26 line);
    let converted_name := convert_atom_name atom_name in
    let pdb_data := <[(resid, atom_name) := atom_index]> pdb_data in
    let pdb_data :=
      if negb (Py.eqb converted_name atom_name)
      then <[(resid, converted_name) := atom_index]> pdb_data
      else pdb_data in
    let pdb_data :=
      if Py.eqb converted_name (L "H5'") || Py.eqb converted_name (L "H5''")
      then <[(resid, L "H5'*") := atom_index]> pdb_data
      else pdb_data in
    Some pdb_data
  else Some pdb_data.

Definition parse_pdb_file : list str -> gmap (Z * str) Z :=
  Loops.parse_pdb_file pdb_step.

(** The [if] and [elif] tests of the loop body and the value each guards:
    first the key with the converted name, then the key with every [#] of
    the name replaced by [*]. *)
Definition resolve (pdb_data : gmap (Z * str) Z) (n : Z) (atom_name : str)
    : option Z :=
  let key := (n, convert_atom_name atom_name) in
  match pdb_data !! key with
  | Some i => Some i
  | None => pdb_data !! (n, Py.replace_char "#"%char "*"%char atom_name)
  end.

(** [warnings[key] = warnings.get(key, 0) + 1] *)
Definition count_warning (warnings : gmap (str * str) nat)
    (key : str * str) : gmap (str * str) nat :=
  <[key := (default 0%nat (warnings !! key) + 1)%nat]> warnings.

Definition link_mr_to_pdb :
    list mr_item -> gmap (Z * str) Z ->
    option (list linked_item * gmap (str * str) nat) :=
  Loops.link_mr_to_pdb resolve count_warning.

End General.

(** [sum(warnings.values())], as [main] prints it. *)
Definition total_warnings (warnings : gmap (str * str) nat) : nat :=
  map_fold (fun _ c acc => (c + acc)%nat) 0%nat warnings.

(** * Sample inputs *)

Module Sample.

(** PDB coordinate lines: serial in columns 7-11, atom name in columns
    13-16, residue number in columns 23-26. *)
Definition atom_H5'1 : str :=
  L "ATOM      1 H5'1  DC A   5      10.000  10.000  10.000  1.00  0.00".
Definition atom_H5'_bis : str :=
  L "ATOM      2 H5'   DC A   5      11.000  10.000  10.000  1.00  0.00".
Definition atom_H1' : str :=
  L "ATOM      1 H1'   DC A   5      10.000  10.000  10.000  1.00  0.00".
Definition atom_H2'1 : str :=
  L "ATOM      2 H2'1  DC A   5      11.000  10.000  10.000  1.00  0.00".

(** MR restraint lines. *)
Definition assign_H5'1 : str :=
  L "assign (resid 5 and name H5'1) (resid 5 and name H5'2) 3.4 0.5 0.5".
Definition assign_exact : str :=
  L "assign (resid 5 and name H5'1) 3.4".
Definition assign_wildcard : str :=
  L "assign (resid 5 and name H5'*) 3.4".

End Sample.

(** * Vocabulary of the statements *)

Module Index.
Section Writers.

Variable pdb_step : gmap (Z * str) Z -> str -> option (gmap (Z * str) Z).

(** The value that the last line writing [key] gives it, among the lines
    the loop reaches: the loop stops at the first line whose numeric
    fields do not convert. *)
Fixpoint last_writer (lines : list str) (key : Z * str) : option Z :=
  match lines with
  | [] => None
  | line :: rest =>
      match pdb_step ∅ line with
      | None => None
      | Some written =>
          match last_writer rest key with
          | Some v => Some v
          | None => written !! key
          end
      end
  end.

(** The same for the first line writing [key]. *)
Fixpoint first_writer (lines : list str) (key : Z * str) : option Z :=
  match lines with
  | [] => None
  | line :: rest =>
      match pdb_step ∅ line with
      | None => None
      | Some written =>
          match written !! key with
          | Some v => Some v
          | None => first_writer rest key
          end
      end
  end.

End Writers.
End Index.

Module Link.

(** A residue id as the first group of the pattern yields it: one decimal
    digit or more. *)
Definition is_digits (s : str) : bool :=
  match s with
  | [] => false
  | _ :: _ => forallb Py.isdecimal s
  end.

(** An item whose residue ids are all such digit strings. *)
Definition well_formed (item : mr_item) : bool :=
  match item with
  | MrHeader _ => true
  | MrData parts _ => forallb (fun part : str * str => is_digits part.1) parts
  end.

(** A reference whose residue id has no more characters than [int]
    takes digits. *)
Definition short_id (part : str * str) : bool :=
  Z.of_nat (length part.1) <=? Py.max_str_digits.

(** The field of one index string in an output line: the string
    right-justified in width 6, followed in the diagnostic mode by the atom
    name in parentheses. *)
Definition field (include_atom_names : bool) (index atom_name : str) : str :=
  Py.rjust 6 index
  ++ if include_atom_names then L "(" ++ atom_name ++ L ")" else [].

(** A header stays as it is; a data item keeps its number of references,
    their atom names and its bounds. *)
Definition same_shape (item : mr_item) (linked : linked_item) : Prop :=
  match item, linked with
  | MrHeader h, LinkedHeader h' => h' = h
  | MrData parts float_values, LinkedData indices atom_names float_values' =>
      length indices = length parts /\
      atom_names = map snd parts /\
      float_values' = float_values
  | _, _ => False
  end.

(** The references of all data items, in file order. *)
Definition references (mr_data : list mr_item) : list (str * str) :=
  flat_map (fun item => match item with
                        | MrHeader _ => []
                        | MrData parts _ => parts
                        end) mr_data.

(** The number of sentinels in the linked items. *)
Definition sentinels_in (indices : list str) : nat :=
  length (List.filter (fun index => bool_decide (index = NA)) indices).

Definition sentinels (linked_data : list linked_item) : nat :=
  sum_list_with (fun linked => match linked with
                               | LinkedHeader _ => 0%nat
                               | LinkedData indices _ _ => sentinels_in indices
                               end) linked_data.

Section Resolve.

Variable resolve : gmap (Z * str) Z -> Z -> str -> option Z.
Variable pdb_data : gmap (Z * str) Z.

(** A reference whose residue id converts and that no key of the index
    answers. *)
Definition unresolved (part : str * str) : bool :=
  match Py.int part.1 with
  | Some n =>
      match resolve pdb_data n part.2 with
      | Some _ => false
      | None => true
      end
  | None => false
  end.

(** The number of unresolved occurrences of [key] among [parts]. *)
Definition occurrences (key : str * str) (parts : list (str * str)) : nat :=
  length (List.filter (fun part => bool_decide (part = key) && unresolved part)
                      parts).

(** A reference that the loop body gets through without an exception:
    [int] takes its residue id and, when a key of the index answers it,
    [str] takes the index found. *)
Definition convertible (part : str * str) : bool :=
  match Py.int part.1 with
  | Some n =>
      match resolve pdb_data n part.2 with
      | Some i => bool_decide (is_Some (Py.str_of_int i))
      | None => true
      end
  | None => false
  end.

(** The index string that stands for a reference: the index found, as a
    string, or the sentinel. *)
Definition index_of (part : str * str) (index : str) : Prop :=
  exists n, Py.int part.1 = Some n /\
            match resolve pdb_data n part.2 with
            | Some i => Py.str_of_int i = Some index
            | None => index = NA
            end.

Definition linked_as (item : mr_item) (linked : linked_item) : Prop :=
  match item, linked with
  | MrHeader h, LinkedHeader h' => h' = h
  | MrData parts float_values, LinkedData indices atom_names float_values' =>
      Forall2 index_of parts indices /\
      atom_names = map snd parts /\
      float_values' = float_values
  | _, _ => False
  end.

End Resolve.
End Link.

(** The two scripts of the repository. *)
Inductive script := NmrPdbRestraintMapper | TestGeneral.

Definition convert_atom_name_of (which : script) : str -> str :=
  match which with
  | NmrPdbRestraintMapper => Mapper.convert_atom_name
  | TestGeneral => General.convert_atom_name
  end.

Definition resolve_of (which : script)
    : gmap (Z * str) Z -> Z -> str -> option Z :=
  match which with
  | NmrPdbRestraintMapper => Mapper.resolve
  | TestGeneral => General.resolve
  end.

Definition link_mr_to_pdb_of (which : script)
    : list mr_item -> gmap (Z * str) Z ->
      option (list linked_item * gmap (str * str) nat) :=
  match which with
  | NmrPdbRestraintMapper => Mapper.link_mr_to_pdb
  | TestGeneral => General.link_mr_to_pdb
  end.

(** A string that neither starts nor ends with a double quote. *)
Definition head_ok (s : str) : bool :=
  match s with
  | [] => true
  | c :: _ => negb (Py.mem c [Py.dquote])
  end.

Definition clean (s : str) : bool := head_ok s && head_ok (rev s).

(** The names on which the normaliser of a script is not claimed to be
    idempotent, after surrounding double quotes are removed: names with an
    apostrophe that do not start with H5' and that end, for the mapper
    script, with 1 preceded by 1, 2 or a double quote and, for
    test_general.py, with 2, unless removing the trailing characters
    1, 2, 3 and apostrophe leaves H5. *)
Definition exceptional (which : script) (atom_name : str) : bool :=
  let s := Py.strip_chars [Py.dquote] atom_name in
  Py.mem "'"%char s && negb (Py.startswith s (L "H5'")) &&
  match which with
  | NmrPdbRestraintMapper =>
      Py.endswith s (L "11") || Py.endswith s (L "21")
      || Py.endswith s [Py.dquote; "1"%char]
  | TestGeneral =>
      Py.endswith s (L "2")
      && negb (Py.eqb (Py.rstrip_chars (L "123'") s) (L "H5"))
  end.

Definition pdb_step_of (which : script)
    : gmap (Z * str) Z -> str -> option (gmap (Z * str) Z) :=
  match which with
  | NmrPdbRestraintMapper => Mapper.pdb_step
  | TestGeneral => General.pdb_step
  end.

Definition parse_pdb_file_of (which : script)
    : list str -> gmap (Z * str) Z :=
  Loops.parse_pdb_file (pdb_step_of which).

Definition parse_mr_file_of (which : script) : list str -> list mr_item :=
  MrFile.parse_mr_file (convert_atom_name_of which).

(** * The entry point, shared by the two scripts

    [main] of either script, without its file paths and its messages: a
    file is the list of its lines, or [None] when it cannot be opened, in
    which case the parsers print a message and return their empty result.
    The list of the five most frequent warnings, whose order follows the
    insertion order of the dictionary, is not part of the model. *)

Module Main.

(** What the loop over [linked_data] writes for one item, each line
    followed by a line feed: the lines of a header with every [!] replaced
    by [#], or the formatted data line.  [None] when formatting raises. *)
Definition item_lines (include_atom_names : bool) (item : linked_item)
    : option (list str) :=
  match item with
  | LinkedHeader h => Some (map (Py.replace_char "!"%char "#"%char) h)
  | LinkedData indices atom_names float_values =>
      output_line ←
        format_output_line indices atom_names float_values include_atom_names;
      Some [output_line]
  end.

(** The loop inside [try]: the lines written, and whether the loop came to
    its end; an exception leaves the lines written before it in the file. *)
Fixpoint write_items (include_atom_names : bool) (linked_data : list linked_item)
    : list str * bool :=
  match linked_data with
  | [] => ([], true)
  | item :: rest =>
      match item_lines include_atom_names item with
      | None => ([], false)
      | Some lines =>
          let '(written, complete) := write_items include_atom_names rest in
          (lines ++ written, complete)
      end
  end.

(** How a run ends: with one of the two messages about missing data, with
    the exception that [link_mr_to_pdb] lets through, or after the loop
    that writes.  [Written] holds the lines written, whether the loop came
    to its end, and the two totals of the summary, which is printed only
    when it did. *)
Inductive outcome :=
| NoMrData
| NoPdbData
| LinkRaised
| Written (lines : list str) (complete : bool)
          (total_warnings unique_warnings : nat).

Definition lines_of (file : option (list str)) : list str :=
  match file with
  | Some lines => lines
  | None => []
  end.

Definition main (which : script) (include_atom_names : bool)
    (mr_file pdb_file : option (list str)) : outcome :=
  let mr_data := parse_mr_file_of which (lines_of mr_file) in
  match mr_data with
  | [] => NoMrData
  | _ :: _ =>
      let pdb_data := parse_pdb_file_of which (lines_of pdb_file) in
      if decide (pdb_data = ∅) then NoPdbData
      else
        match link_mr_to_pdb_of which mr_data pdb_data with
        | None => LinkRaised
        | Some (linked_data, warnings) =>
            let '(lines, complete) :=
              write_items include_atom_names linked_data in
            Written lines complete (total_warnings warnings) (size warnings)
        end
  end.

End Main.

(** * Vocabulary of the further statements *)

Module Trace.

(** What one line of the MR file contributes: a header line, a data line
    with its references and bounds, or nothing. *)
Inductive event :=
| HeaderLine (line : str)
| DataLine (parts : list (str * str)) (float_values : list str).

Definition classify (convert_atom_name : str -> str) (line : str)
    : option event :=
  let line := Py.strip line in
  if Py.startswith line (L "!") then Some (HeaderLine line)
  else if Py.startswith line (L "assign") then
    Some (DataLine
            (map (fun '(resid, atom_name) =>
                    (resid,
                     convert_atom_name (Py.strip_chars [Py.dquote] atom_name)))
                 (Re.findall Re.match_atom_ref line))
            (Re.findall Re.match_float line))
  else None.

(** The items of [mr_data], block structure forgotten. *)
Definition item_events (item : mr_item) : list event :=
  match item with
  | MrHeader h => map HeaderLine h
  | MrData parts float_values => [DataLine parts float_values]
  end.

Definition flatten (mr_data : list mr_item) : list event :=
  flat_map item_events mr_data.

(** The references of a data line. *)
Definition event_references (e : event) : list (str * str) :=
  match e with
  | HeaderLine _ => []
  | DataLine parts _ => parts
  end.

Definition not_bare (line : str) : bool := negb (Py.eqb line (L "!")).

(** A header block as the parser builds it: not empty, and with no bare
    delimiter before its last line. *)
Definition block_ok (h : list str) : bool :=
  match rev h with
  | [] => false
  | _ :: before => forallb not_bare before
  end.

Definition item_ok (item : mr_item) : bool :=
  match item with
  | MrHeader h => block_ok h
  | MrData _ _ => true
  end.

(** The output line that stands for an event, given the index. *)
Definition translates (resolve : gmap (Z * str) Z -> Z -> str -> option Z)
    (pdb_data : gmap (Z * str) Z) (include_atom_names : bool)
    (e : event) (out : str) : Prop :=
  match e with
  | HeaderLine line => out = Py.replace_char "!"%char "#"%char line
  | DataLine parts float_values =>
      exists indices,
        Forall2 (Link.index_of resolve pdb_data) parts indices /\
        format_output_line indices (map snd parts) float_values
                           include_atom_names = Some out
  end.

(** A tally without zero counts. *)
Definition positive (warnings : gmap (str * str) nat) : Prop :=
  map_Forall (fun _ c => (0 < c)%nat) warnings.

End Trace.

(** The lines of a PDB file that the index builder looks at. *)
Definition is_atom_line (line : str) : bool := Py.startswith line (L "ATOM").

(** The atom names under which a coordinate line with the trimmed name
    [atom_name] is written into the index of a script. *)
Definition written_names (which : script) (atom_name : str) : list str :=
  match which with
  | NmrPdbRestraintMapper => [Mapper.convert_atom_name atom_name]
  | TestGeneral =>
      let converted_name := General.convert_atom_name atom_name in
      atom_name :: converted_name ::
      (if Py.eqb converted_name (L "H5'") || Py.eqb converted_name (L "H5''")
       then [L "H5'*"] else [])
  end.

(** The three fields of a coordinate line, when both numbers convert. *)
Definition atom_fields (line : str) : option (Z * str * Z) :=
  if is_atom_line line then
    atom_index ← Py.int (Py.slice 6 11 line);
    resid ← Py.int (Py.slice 22 26 line);
    Some (atom_index, Py.strip (Py.slice 12 16 line), resid)
  else None.

(** * Properties of the string primitives *)

Lemma drop_while_stops (f : ascii -> bool) (s : str) :
  match Py.drop_while f s with
  | [] => True
  | c :: _ => f c = false
  end.
Proof.
  induction s as [|c s IH]; simpl; [exact I|].
  destruct (f c) eqn:E; [exact IH | exact E].
Qed.



Lemma ljust_length (w : nat) (s : str) :
  length (Py.ljust w s) = Nat.max w (length s).
Proof.
  unfold Py.ljust. rewrite length_app, repeat_length. lia.
Qed.

(** * The formatter *)


(** * The normaliser merges unrelated names *)

(** C9. In test_general.py the distinct names H1' and H2'1 are both
    converted to H', so the two coordinate lines of one residue that carry
    them write the same key of the index, which keeps the index of the
    second line. *)
Theorem general_normalizer_collision :
  L "H1'" <> L "H2'1" /\
  General.convert_atom_name (L "H1'") = L "H'" /\
  General.convert_atom_name (L "H2'1") = L "H'" /\
  General.parse_pdb_file [Sample.atom_H1'] !! (5, L "H'") = Some 1 /\
  General.parse_pdb_file [Sample.atom_H2'1] !! (5, L "H'") = Some 2 /\
  General.parse_pdb_file [Sample.atom_H1'; Sample.atom_H2'1] !! (5, L "H'")
  = Some 2.
Proof.
  repeat split; try (vm_compute; reflexivity).
  intros H. discriminate H.
Qed.

(** * The header state of the MR parser *)

Lemma step_in_header_false (convert : str -> str) (st : mr_state) (line : str) :
  in_header st = false -> in_header (MrFile.step convert st line) = false.
Proof.
  intros Hst. unfold MrFile.step, MrFile.flush.
  destruct (Py.startswith (Py.strip line) (L "!")).
  - rewrite Hst. simpl.
    destruct (Py.eqb (Py.strip line) _); reflexivity.
  - destruct (Py.startswith (Py.strip line) (L "assign"));
      destruct (header_block st); simpl; auto.
Qed.

Lemma loop_in_header_false (convert : str -> str) (lines : list str) :
  forall st, in_header st = false ->
             in_header (MrFile.loop convert st lines) = false.
Proof.
  unfold MrFile.loop.
  induction lines as [|line lines IH]; intros st Hst; simpl; [exact Hst|].
  apply IH, step_in_header_false, Hst.
Qed.

(** C5, as the code behaves.  Every bare delimiter line read outside a
    header sets [in_header] and flushes in the same step, the opening one
    included, so [in_header] is false again after every line, and the
    block delimiter, comment, delimiter is parsed as two header blocks. *)
Theorem bare_delimiter_always_flushes :
  (forall (convert : str -> str) (data : list mr_item) (block : list str),
     MrFile.step convert (MrState data block false) (L "!")
     = MrState (data ++ [MrHeader (block ++ [L "!"])]) [] false) /\
  (forall (convert : str -> str) (lines : list str),
     in_header (MrFile.loop convert (MrState [] [] false) lines) = false) /\
  (forall convert : str -> str,
     MrFile.parse_mr_file convert [L "!"; L "! comment"; L "!"]
     = [MrHeader [L "!"]; MrHeader [L "! comment"; L "!"]]).
Proof.
  split; [|split].
  - intros convert data block. reflexivity.
  - intros convert lines. apply loop_in_header_false. reflexivity.
  - intros convert. reflexivity.
Qed.

(** * The round trip through parser, index and linker *)

(** C1, as the code behaves.  With the coordinate line of atom 1, named
    H5'1 in residue 5, a reference to H5'1 is linked to index 1.  The
    wildcard reference H5'* is not matched by the pattern of the parser,
    whose name class has no asterisk: the reference is dropped, although
    the index holds the key H5'* and the linker, handed that reference,
    finds it. *)
Theorem wildcard_reference_dropped :
  let pdb_data := General.parse_pdb_file [Sample.atom_H5'1] in
  pdb_data !! (5, L "H5'*") = Some 1 /\
  General.link_mr_to_pdb
    (General.parse_mr_file [Sample.assign_exact]) pdb_data
  = Some ([LinkedData [L "1"] [L "H5'"] [L "3.4"]], ∅) /\
  Re.name_char "*"%char = false /\
  General.parse_mr_file [Sample.assign_wildcard] = [MrData [] [L "3.4"]] /\
  General.link_mr_to_pdb
    (General.parse_mr_file [Sample.assign_wildcard]) pdb_data
  = Some ([LinkedData [] [] [L "3.4"]], ∅) /\
  General.link_mr_to_pdb [MrData [(L "5", L "H5'*")] [L "3.4"]] pdb_data
  = Some ([LinkedData [L "1"] [L "H5'*"] [L "3.4"]], ∅).
Proof.
  repeat split; vm_compute; reflexivity.
Qed.

(** * The index builder *)

Lemma py_eqb_eq (s t : str) : Py.eqb s t = true <-> s = t.
Proof.
  revert t. induction s as [|a s IH]; intros [|b t]; simpl;
    try (split; [discriminate | discriminate]); [tauto|].
  unfold Py.ascii_eqb. rewrite andb_true_iff, Ascii.eqb_eq, IH.
  split; [intros [-> ->]; reflexivity | intros [= -> ->]; auto].
Qed.

Lemma py_eqb_neq (s t : str) : Py.eqb s t = false <-> s <> t.
Proof.
  rewrite <- py_eqb_eq. destruct (Py.eqb s t); split; congruence.
Qed.

Section LastWriter.

Variable pdb_step : gmap (Z * str) Z -> str -> option (gmap (Z * str) Z).

(** Each line writes its keys over the index, whatever the index holds. *)
Hypothesis pdb_step_writes : forall pdb_data line,
  pdb_step pdb_data line = (fun written => written ∪ pdb_data) <$> pdb_step ∅ line.

Lemma pdb_loop_last_writer (lines : list str) :
  forall pdb_data key,
    Loops.pdb_loop pdb_step pdb_data lines !! key =
    match Index.last_writer pdb_step lines key with
    | Some v => Some v
    | None => pdb_data !! key
    end.
Proof.
  induction lines as [|line rest IH]; intros pdb_data key; simpl; [reflexivity|].
  rewrite pdb_step_writes.
  destruct (pdb_step ∅ line) as [written|]; simpl; [|reflexivity].
  rewrite IH.
  destruct (Index.last_writer pdb_step rest key); [reflexivity|].
  rewrite lookup_union.
  destruct (written !! key), (pdb_data !! key); reflexivity.
Qed.

Lemma parse_pdb_file_last_writer (lines : list str) (key : Z * str) :
  Loops.parse_pdb_file pdb_step lines !! key
  = Index.last_writer pdb_step lines key.
Proof.
  unfold Loops.parse_pdb_file. rewrite pdb_loop_last_writer.
  destruct (Index.last_writer pdb_step lines key); [reflexivity|].
  apply lookup_empty.
Qed.

End LastWriter.

Lemma mapper_pdb_step_writes (pdb_data : gmap (Z * str) Z) (line : str) :
  Mapper.pdb_step pdb_data line
  = (fun written => written ∪ pdb_data) <$> Mapper.pdb_step ∅ line.
Proof.
  unfold Mapper.pdb_step.
  destruct (Py.startswith line (L "ATOM")); simpl.
  - destruct (Py.int (Py.slice 6 11 line)) as [atom_index|]; simpl; [|reflexivity].
    destruct (Py.int (Py.slice 22 26 line)) as [resid|]; simpl; [|reflexivity].
    f_equal. rewrite <- insert_union_l. f_equal. symmetry. apply (left_id ∅ _).
  - f_equal. symmetry. apply (left_id ∅ _).
Qed.

Lemma general_pdb_step_writes (pdb_data : gmap (Z * str) Z) (line : str) :
  General.pdb_step pdb_data line
  = (fun written => written ∪ pdb_data) <$> General.pdb_step ∅ line.
Proof.
  unfold General.pdb_step.
  destruct (Py.startswith line (L "ATOM")); simpl.
  - destruct (Py.int (Py.slice 6 11 line)) as [atom_index|]; simpl; [|reflexivity].
    destruct (Py.int (Py.slice 22 26 line)) as [resid|]; simpl; [|reflexivity].
    f_equal.
    repeat match goal with |- context [if ?b then _ else _] => destruct b end;
      rewrite <- ?insert_union_l; rewrite (left_id ∅ _); reflexivity.
  - f_equal. symmetry. apply (left_id ∅ _).
Qed.

(** C2, as the code behaves.  Both index builders assign with
    [pdb_data[key] = atom_index], which overwrites: every key of the index
    maps to the atom index of the last coordinate line that wrote it. *)
Theorem index_last_writer_wins :
  forall (lines : list str) (key : Z * str),
    Mapper.parse_pdb_file lines !! key
    = Index.last_writer Mapper.pdb_step lines key /\
    General.parse_pdb_file lines !! key
    = Index.last_writer General.pdb_step lines key.
Proof.
  intros lines key. split.
  - apply parse_pdb_file_last_writer, mapper_pdb_step_writes.
  - apply parse_pdb_file_last_writer, general_pdb_step_writes.
Qed.

(** C2 fails as stated: two coordinate lines of residue 5 write the key
    H5'; the first carries index 1, and the index built from both holds
    2. *)
Lemma index_first_writer_loses :
  let lines := [Sample.atom_H5'1; Sample.atom_H5'_bis] in
  let key := (5, L "H5'") in
  Index.first_writer General.pdb_step lines key = Some 1 /\
  General.parse_pdb_file lines !! key = Some 2 /\
  General.parse_pdb_file lines !! key
  <> Index.first_writer General.pdb_step lines key /\
  Index.first_writer Mapper.pdb_step lines key = Some 1 /\
  Mapper.parse_pdb_file lines !! key = Some 2.
Proof.
  repeat split; try (vm_compute; reflexivity).
  vm_compute. intros H. discriminate H.
Qed.

(** C4, as the code behaves.  For a coordinate line whose fields convert,
    test_general.py writes the raw name and the converted name, and the
    wildcard key H5'* only when the converted name is H5' or H5''; a
    reference to H5'* then resolves to the index of that line.  For every
    other converted name no further key is written.  The mapper script
    writes the converted name alone. *)
Theorem wildcard_entry_only_for_H5 :
  forall (pdb_data : gmap (Z * str) Z) (line : str) (atom_index resid : Z),
    Py.startswith line (L "ATOM") = true ->
    Py.int (Py.slice 6 11 line) = Some atom_index ->
    Py.int (Py.slice 22 26 line) = Some resid ->
    let atom_name := Py.strip (Py.slice 12 16 line) in
    let converted_name := General.convert_atom_name atom_name in
    let named :=
      <[(resid, converted_name) := atom_index]>
        (<[(resid, atom_name) := atom_index]> pdb_data) in
    let with_wildcard := <[(resid, L "H5'*") := atom_index]> named in
    (converted_name = L "H5'" \/ converted_name = L "H5''" ->
     General.pdb_step pdb_data line = Some with_wildcard /\
     General.resolve with_wildcard resid (L "H5'*") = Some atom_index) /\
    (converted_name <> L "H5'" -> converted_name <> L "H5''" ->
     General.pdb_step pdb_data line = Some named) /\
    Mapper.pdb_step pdb_data line
    = Some (<[(resid, Mapper.convert_atom_name atom_name) := atom_index]>
              pdb_data).
Proof.
  intros pdb_data line atom_index resid Hatom Hidx Hres
         atom_name converted_name named with_wildcard.
  assert (Hnamed :
            (if negb (Py.eqb converted_name atom_name)
             then <[(resid, converted_name) := atom_index]>
                    (<[(resid, atom_name) := atom_index]> pdb_data)
             else <[(resid, atom_name) := atom_index]> pdb_data) = named).
  { unfold named. destruct (Py.eqb converted_name atom_name) eqn:E; simpl.
    - apply py_eqb_eq in E. rewrite E. symmetry. apply insert_insert_eq.
    - reflexivity. }
  assert (Hstep :
            General.pdb_step pdb_data line =
            Some (if Py.eqb converted_name (L "H5'")
                     || Py.eqb converted_name (L "H5''")
                  then with_wildcard else named)).
  { unfold General.pdb_step. rewrite Hatom, Hidx.
    cbn [mbind option_bind]. rewrite Hres. cbn [mbind option_bind].
    fold atom_name. fold converted_name. rewrite Hnamed. reflexivity. }
  split; [|split].
  - intros Hfam. split.
    + rewrite Hstep. destruct Hfam as [-> | ->]; reflexivity.
    + unfold General.resolve.
      change (General.convert_atom_name (L "H5'*")) with (L "H5'*").
      unfold with_wildcard. rewrite lookup_insert_eq. reflexivity.
  - intros H1 H2. rewrite Hstep.
    apply py_eqb_neq in H1, H2. rewrite H1, H2. reflexivity.
  - unfold Mapper.pdb_step. rewrite Hatom, Hidx.
    cbn [mbind option_bind]. rewrite Hres. reflexivity.
Qed.

Lemma wildcard_entry_only_for_H5_witness :
  General.parse_pdb_file [Sample.atom_H5'1] !! (5, L "H5'*") = Some 1.
Proof.
  destruct (wildcard_entry_only_for_H5 ∅ Sample.atom_H5'1 1 5
              eq_refl eq_refl eq_refl) as [H _].
  destruct (H (or_introl eq_refl)) as [Hstep _].
  change (General.parse_pdb_file [Sample.atom_H5'1])
    with (match General.pdb_step ∅ Sample.atom_H5'1 with
          | Some pdb_data => pdb_data
          | None => ∅
          end).
  rewrite Hstep. apply lookup_insert_eq.
Defined.

(** C4 fails as stated: the coordinate line of H2'1 in residue 5 has the
    singly primed converted name H', and the index built from it holds the
    raw and the converted name only, no key ending with an asterisk; the
    mapper script holds one key. *)
Lemma no_wildcard_entry_outside_H5 :
  General.convert_atom_name (L "H2'1") = L "H'" /\
  General.parse_pdb_file [Sample.atom_H2'1]
  = {[ (5, L "H2'1") := 2; (5, L "H'") := 2 ]} /\
  forallb (fun '((_, name), _) => negb (Py.endswith name (L "*")))
          (map_to_list (General.parse_pdb_file [Sample.atom_H2'1])) = true /\
  Mapper.parse_pdb_file [Sample.atom_H2'1] = {[ (5, L "H2'") := 2 ]}.
Proof.
  repeat split; vm_compute; reflexivity.
Qed.

(** * The linker *)

Lemma decimal_char (c : ascii) :
  Py.isdecimal c = true ->
  Py.int_space c = false /\
  Py.ascii_eqb c "+"%char = false /\ Py.ascii_eqb c "-"%char = false.
Proof.
  destruct c as [[|] [|] [|] [|] [|] [|] [|] [|]]; vm_compute;
    intros H; try discriminate H; auto.
Qed.

Lemma digits_value_total (s : str) :
  forallb Py.isdecimal s = true ->
  forall acc after_digit,
    s <> [] \/ after_digit = true ->
    is_Some (Py.digits_value acc after_digit s).
Proof.
  induction s as [|c s IH]; intros Hall acc after_digit Hne; simpl.
  - destruct Hne as [Hne | ->]; [congruence | eauto].
  - simpl in Hall. apply andb_true_iff in Hall as [Hc Hall].
    rewrite Hc. apply IH; auto.
Qed.

Lemma drop_while_head (f : ascii -> bool) (c : ascii) (s : str) :
  f c = false -> Py.drop_while f (c :: s) = c :: s.
Proof. intros H. simpl. rewrite H. reflexivity. Qed.

Lemma filter_all {A} (f : A -> bool) (l : list A) :
  forallb f l = true -> List.filter f l = l.
Proof.
  induction l as [|x l IH]; simpl; [reflexivity|].
  intros H. apply andb_true_iff in H as [Hx Hl].
  rewrite Hx, (IH Hl). reflexivity.
Qed.

(** On a residue id that the pattern yields, [int] has nothing to strip
    and no sign to read. *)
Lemma int_of_digits_eq (s : str) :
  Link.is_digits s = true -> Py.int s = Py.int_digits s.
Proof.
  unfold Link.is_digits. destruct s as [|c s]; [discriminate|].
  intros Hall. unfold Py.int.
  assert (Hc : Py.isdecimal c = true).
  { simpl in Hall. apply andb_true_iff in Hall. tauto. }
  destruct (decimal_char c Hc) as (Hsp & Hplus & Hminus).
  rewrite (drop_while_head _ _ _ Hsp).
  assert (Hrev : Py.drop_while Py.int_space (rev (c :: s)) = rev (c :: s)).
  { destruct (rev (c :: s)) as [|d r] eqn:E; [reflexivity|].
    apply drop_while_head.
    assert (Hd : In d (c :: s)).
    { apply in_rev. rewrite E. left. reflexivity. }
    rewrite forallb_forall in Hall.
    apply decimal_char, Hall, Hd. }
  rewrite Hrev, rev_involutive, Hplus, Hminus. reflexivity.
Qed.

(** [int] accepts a residue id that the pattern yields exactly when the
    id is within the limit on the number of digits. *)
Lemma int_of_digits (s : str) :
  Link.is_digits s = true ->
  (is_Some (Py.int s) <-> Z.of_nat (length s) <= Py.max_str_digits).
Proof.
  intros Hd. rewrite (int_of_digits_eq s Hd).
  unfold Link.is_digits in Hd. destruct s as [|c s]; [discriminate|].
  unfold Py.int_digits. rewrite (filter_all _ _ Hd).
  destruct (Py.max_str_digits <? Z.of_nat (length (c :: s))) eqn:E.
  - apply Z.ltb_lt in E. split; [intros [n Hn]; discriminate Hn | lia].
  - apply Z.ltb_ge in E. split; [intros _; exact E|]. intros _.
    apply digits_value_total; [exact Hd | left; discriminate].
Qed.

Lemma decimal_not_NA (i : Z) : Py.decimal i <> NA.
Proof.
  unfold Py.decimal, NA.
  destruct (Z.to_int i) as [d|d]; [|discriminate].
  destruct d; discriminate.
Qed.

Lemma str_of_int_not_NA (i : Z) (index : str) :
  Py.str_of_int i = Some index -> index <> NA.
Proof.
  unfold Py.str_of_int.
  destruct (Z.of_nat (length (Py.decimal (Z.abs i))) <=? Py.max_str_digits);
    [|discriminate].
  intros [= <-]. apply decimal_not_NA.
Qed.

Section Linking.

Variable resolve : gmap (Z * str) Z -> Z -> str -> option Z.
Variable count_warning :
  gmap (str * str) nat -> str * str -> gmap (str * str) nat.
Variable pdb_data : gmap (Z * str) Z.

(** Counting a warning adds one to the count of its key. *)
Hypothesis count_warning_spec : forall warnings key,
  count_warning warnings key
  = <[key := S (default 0%nat (warnings !! key))]> warnings.

Lemma total_warnings_count (warnings : gmap (str * str) nat) (key : str * str) :
  total_warnings (count_warning warnings key) = S (total_warnings warnings).
Proof.
  rewrite count_warning_spec. unfold total_warnings.
  destruct (warnings !! key) as [c|] eqn:E; simpl.
  - rewrite <- (insert_delete_eq warnings key (S c)).
    rewrite map_fold_insert_L; [| intros; lia | apply lookup_delete_eq].
    rewrite (map_fold_delete_L _ _ key c warnings); [lia | intros; lia | exact E].
  - rewrite map_fold_insert_L; [lia | intros; lia | exact E].
Qed.

Lemma lookup_count_warning (warnings : gmap (str * str) nat) (key key' : str * str) :
  default 0%nat (count_warning warnings key !! key')
  = (default 0%nat (warnings !! key')
     + if bool_decide (key = key') then 1 else 0)%nat.
Proof.
  rewrite count_warning_spec. case_bool_decide as E.
  - subst key'. rewrite lookup_insert_eq. simpl. lia.
  - rewrite lookup_insert_ne by exact E. lia.
Qed.

Lemma sentinels_in_app (a b : list str) :
  Link.sentinels_in (a ++ b) = (Link.sentinels_in a + Link.sentinels_in b)%nat.
Proof. unfold Link.sentinels_in. rewrite List.filter_app, length_app. reflexivity. Qed.

Lemma occurrences_cons (key part : str * str) (parts : list (str * str)) :
  Link.occurrences resolve pdb_data key (part :: parts)
  = ((if bool_decide (part = key) && Link.unresolved resolve pdb_data part
      then 1 else 0)
     + Link.occurrences resolve pdb_data key parts)%nat.
Proof.
  unfold Link.occurrences. simpl.
  destruct (bool_decide (part = key) && Link.unresolved resolve pdb_data part);
    reflexivity.
Qed.

Lemma occurrences_app (key : str * str) (a b : list (str * str)) :
  Link.occurrences resolve pdb_data key (a ++ b)
  = (Link.occurrences resolve pdb_data key a
     + Link.occurrences resolve pdb_data key b)%nat.
Proof. unfold Link.occurrences. rewrite List.filter_app, length_app. reflexivity. Qed.

(** The loop body raises exactly on a reference that is not
    convertible. *)
Lemma link_part_returns acc part :
  is_Some (Loops.link_part resolve count_warning pdb_data acc part)
  <-> Link.convertible resolve pdb_data part = true.
Proof.
  destruct acc as [indices warnings], part as [resid atom_name].
  unfold Loops.link_part, Link.convertible. cbn [fst snd].
  destruct (Py.int resid) as [n|]; cbn [mbind option_bind];
    [|split; [intros [x Hx]; discriminate Hx | discriminate]].
  destruct (resolve pdb_data n atom_name) as [i|];
    [|split; [reflexivity | eauto]].
  destruct (Py.str_of_int i) as [index|]; cbn [mbind option_bind].
  - rewrite bool_decide_eq_true. split; eauto.
  - rewrite bool_decide_eq_true.
    split; intros [x Hx]; discriminate Hx.
Qed.

(** One reference: one index string more, and one warning more exactly
    when the string is the sentinel. *)
Lemma link_part_spec indices warnings part indices' warnings' :
  Loops.link_part resolve count_warning pdb_data (indices, warnings) part
  = Some (indices', warnings') ->
  exists index,
    indices' = indices ++ [index] /\
    Link.index_of resolve pdb_data part index /\
    (forall key,
       default 0%nat (warnings' !! key)
       = (default 0%nat (warnings !! key)
          + Link.occurrences resolve pdb_data key [part])%nat) /\
    total_warnings warnings'
    = (total_warnings warnings + Link.sentinels_in [index])%nat.
Proof.
  destruct part as [resid atom_name]. unfold Loops.link_part.
  destruct (Py.int resid) as [n|] eqn:En; [|discriminate].
  cbn [mbind option_bind].
  destruct (resolve pdb_data n atom_name) as [i|] eqn:Er.
  - destruct (Py.str_of_int i) as [index|] eqn:Ei;
      cbn [mbind option_bind]; [|discriminate].
    intros [= <- <-].
    exists index. split; [reflexivity|]. split; [|split].
    + exists n. cbn [fst snd]. rewrite Er. auto.
    + intros key. unfold Link.occurrences, Link.unresolved.
      cbn [List.filter fst snd].
      rewrite En, Er, andb_false_r. simpl. lia.
    + unfold Link.sentinels_in. cbn [List.filter].
      rewrite bool_decide_eq_false_2 by (eapply str_of_int_not_NA, Ei).
      simpl. lia.
  - intros [= <- <-]. exists NA. split; [reflexivity|]. split; [|split].
    + exists n. cbn [fst snd]. rewrite Er. auto.
    + intros key. rewrite lookup_count_warning.
      unfold Link.occurrences, Link.unresolved.
      cbn [List.filter fst snd].
      rewrite En, Er, andb_true_r.
      destruct (bool_decide ((resid, atom_name) = key)); reflexivity.
    + rewrite total_warnings_count. unfold Link.sentinels_in.
      cbn [List.filter].
      rewrite bool_decide_eq_true_2 by reflexivity. simpl. lia.
Qed.

Lemma link_parts_spec parts :
  forall indices warnings indices' warnings',
    Loops.link_parts resolve count_warning pdb_data (indices, warnings) parts
    = Some (indices', warnings') ->
    exists new,
      indices' = indices ++ new /\
      Forall2 (Link.index_of resolve pdb_data) parts new /\
      (forall key,
         default 0%nat (warnings' !! key)
         = (default 0%nat (warnings !! key)
            + Link.occurrences resolve pdb_data key parts)%nat) /\
      total_warnings warnings'
      = (total_warnings warnings + Link.sentinels_in new)%nat.
Proof.
  induction parts as [|part parts IH]; intros indices warnings indices' warnings' H.
  - simpl in H. injection H as <- <-. exists []. rewrite app_nil_r.
    repeat split; [constructor | intros; unfold Link.occurrences; simpl; lia
                  | unfold Link.sentinels_in; simpl; lia].
  - cbn [Loops.link_parts] in H.
    destruct (Loops.link_part resolve count_warning pdb_data
                (indices, warnings) part) as [[indices1 warnings1]|] eqn:E1;
      cbn [mbind option_bind] in H; [|discriminate].
    apply link_part_spec in E1 as (index & -> & Hidx & Hkey1 & Htot1).
    apply IH in H as (new & -> & Hall & Hkey & Htot).
    exists (index :: new). rewrite <- app_assoc. split; [reflexivity|].
    split; [constructor; assumption|]. split.
    + intros key. rewrite Hkey, Hkey1, (occurrences_cons key part parts).
      unfold Link.occurrences at 1. simpl.
      destruct (bool_decide (part = key) && Link.unresolved resolve pdb_data part);
        simpl; lia.
    + rewrite Htot, Htot1.
      change (index :: new) with ([index] ++ new).
      rewrite sentinels_in_app. lia.
Qed.

Lemma sentinels_app (a b : list linked_item) :
  Link.sentinels (a ++ b) = (Link.sentinels a + Link.sentinels b)%nat.
Proof. unfold Link.sentinels. apply sum_list_with_app. Qed.

Lemma link_item_spec linked warnings item linked' warnings' :
  Loops.link_item resolve count_warning pdb_data (linked, warnings) item
  = Some (linked', warnings') ->
  exists new,
    linked' = linked ++ [new] /\
    Link.linked_as resolve pdb_data item new /\
    (forall key,
       default 0%nat (warnings' !! key)
       = (default 0%nat (warnings !! key)
          + Link.occurrences resolve pdb_data key (Link.references [item]))%nat) /\
    total_warnings warnings'
    = (total_warnings warnings + Link.sentinels [new])%nat.
Proof.
  destruct item as [h | parts float_values]; unfold Loops.link_item.
  - intros [= <- <-]. exists (LinkedHeader h).
    repeat split; [intros; unfold Link.occurrences; simpl; lia
                  | unfold Link.sentinels; simpl; lia].
  - destruct (Loops.link_parts resolve count_warning pdb_data
                ([], warnings) parts) as [[indices warnings1]|] eqn:E;
      cbn [mbind option_bind]; [|discriminate].
    intros [= <- <-].
    apply link_parts_spec in E as (new & -> & Hall & Hkey & Htot).
    exists (LinkedData new (map snd parts) float_values).
    split; [reflexivity|]. split; [|split].
    + simpl. auto.
    + intros key. rewrite Hkey. simpl. rewrite app_nil_r. reflexivity.
    + rewrite Htot. unfold Link.sentinels. simpl. lia.
Qed.

Lemma link_items_spec items :
  forall linked warnings linked' warnings',
    Loops.link_items resolve count_warning pdb_data (linked, warnings) items
    = Some (linked', warnings') ->
    exists new,
      linked' = linked ++ new /\
      Forall2 (Link.linked_as resolve pdb_data) items new /\
      (forall key,
         default 0%nat (warnings' !! key)
         = (default 0%nat (warnings !! key)
            + Link.occurrences resolve pdb_data key (Link.references items))%nat) /\
      total_warnings warnings'
      = (total_warnings warnings + Link.sentinels new)%nat.
Proof.
  induction items as [|item items IH]; intros linked warnings linked' warnings' H.
  - simpl in H. injection H as <- <-. exists []. rewrite app_nil_r.
    repeat split; [constructor | intros; unfold Link.occurrences; simpl; lia
                  | unfold Link.sentinels; simpl; lia].
  - cbn [Loops.link_items] in H.
    destruct (Loops.link_item resolve count_warning pdb_data
                (linked, warnings) item) as [[linked1 warnings1]|] eqn:E1;
      cbn [mbind option_bind] in H; [|discriminate].
    apply link_item_spec in E1 as (new1 & -> & Has1 & Hkey1 & Htot1).
    apply IH in H as (new & -> & Hall & Hkey & Htot).
    exists (new1 :: new). rewrite <- app_assoc. split; [reflexivity|].
    split; [constructor; assumption|]. split.
    + intros key. rewrite Hkey, Hkey1.
      assert (Link.references (item :: items)
              = Link.references [item] ++ Link.references items) as ->.
      { unfold Link.references. simpl. rewrite app_nil_r. reflexivity. }
      rewrite occurrences_app. lia.
    + rewrite Htot, Htot1.
      change (new1 :: new) with ([new1] ++ new).
      rewrite sentinels_app. lia.
Qed.

Lemma link_mr_to_pdb_spec mr_data linked warnings :
  Loops.link_mr_to_pdb resolve count_warning mr_data pdb_data
  = Some (linked, warnings) ->
  Forall2 (Link.linked_as resolve pdb_data) mr_data linked /\
  (forall key,
     default 0%nat (warnings !! key)
     = Link.occurrences resolve pdb_data key (Link.references mr_data)) /\
  total_warnings warnings = Link.sentinels linked.
Proof.
  intros H. apply link_items_spec in H as (new & -> & Hall & Hkey & Htot).
  simpl. split; [exact Hall|]. split.
  - intros key. rewrite Hkey, lookup_empty. reflexivity.
  - rewrite Htot. unfold total_warnings. rewrite map_fold_empty. reflexivity.
Qed.

End Linking.

Section LinkingReturns.

Variable resolve : gmap (Z * str) Z -> Z -> str -> option Z.
Variable count_warning :
  gmap (str * str) nat -> str * str -> gmap (str * str) nat.
Variable pdb_data : gmap (Z * str) Z.

Lemma link_parts_returns parts :
  forall acc,
    is_Some (Loops.link_parts resolve count_warning pdb_data acc parts)
    <-> forallb (Link.convertible resolve pdb_data) parts = true.
Proof.
  induction parts as [|part parts IH]; intros acc.
  - simpl. split; eauto.
  - cbn [Loops.link_parts forallb]. rewrite andb_true_iff.
    rewrite <- (link_part_returns resolve count_warning pdb_data acc part).
    destruct (Loops.link_part resolve count_warning pdb_data acc part)
      as [acc'|]; cbn [mbind option_bind].
    + rewrite IH. split; [intros H; split; eauto | tauto].
    + split; [intros [x Hx]; discriminate Hx|].
      intros [[x Hx] _]. discriminate Hx.
Qed.

Lemma link_items_returns items :
  forall acc,
    is_Some (Loops.link_items resolve count_warning pdb_data acc items)
    <-> forallb (Link.convertible resolve pdb_data) (Link.references items)
        = true.
Proof.
  induction items as [|item items IH]; intros [linked warnings].
  - simpl. split; eauto.
  - assert (Link.references (item :: items)
            = Link.references [item] ++ Link.references items) as ->.
    { unfold Link.references. simpl. rewrite app_nil_r. reflexivity. }
    rewrite forallb_app, andb_true_iff. cbn [Loops.link_items].
    destruct item as [h | parts float_values]; cbn [Loops.link_item].
    + cbn [mbind option_bind]. rewrite IH. simpl. tauto.
    + assert (Link.references [MrData parts float_values] = parts) as ->.
      { unfold Link.references. simpl. apply app_nil_r. }
      rewrite <- (link_parts_returns parts ([], warnings)).
      destruct (Loops.link_parts resolve count_warning pdb_data
                  ([], warnings) parts) as [[indices warnings1]|];
        cbn [mbind option_bind].
      * rewrite IH. split; [intros H; split; eauto | tauto].
      * split; [intros [x Hx]; discriminate Hx|].
        intros [[x Hx] _]. discriminate Hx.
Qed.

Lemma linked_as_same_shape item linked :
  Link.linked_as resolve pdb_data item linked -> Link.same_shape item linked.
Proof.
  destruct item, linked; simpl; try tauto.
  intros (Hall & -> & ->). split; [|auto].
  symmetry. eapply Forall2_length, Hall.
Qed.

End LinkingReturns.

Lemma mapper_count_warning_spec warnings key :
  Mapper.count_warning warnings key
  = <[key := S (default 0%nat (warnings !! key))]> warnings.
Proof.
  unfold Mapper.count_warning.
  destruct (warnings !! key) as [c|]; simpl; f_equal; lia.
Qed.

Lemma general_count_warning_spec warnings key :
  General.count_warning warnings key
  = <[key := S (default 0%nat (warnings !! key))]> warnings.
Proof. unfold General.count_warning. f_equal. lia. Qed.

(** The linker of either script meets the specification of the shared
    loops. *)
Lemma link_mr_to_pdb_of_spec which mr_data pdb_data linked warnings :
  link_mr_to_pdb_of which mr_data pdb_data = Some (linked, warnings) ->
  Forall2 (Link.linked_as (resolve_of which) pdb_data) mr_data linked /\
  (forall key,
     default 0%nat (warnings !! key)
     = Link.occurrences (resolve_of which) pdb_data key
         (Link.references mr_data)) /\
  total_warnings warnings = Link.sentinels linked.
Proof.
  destruct which; simpl.
  - apply link_mr_to_pdb_spec, mapper_count_warning_spec.
  - apply link_mr_to_pdb_spec, general_count_warning_spec.
Qed.

(** The linker of either script raises exactly when some reference is
    not convertible. *)
Lemma link_mr_to_pdb_of_returns which mr_data pdb_data :
  is_Some (link_mr_to_pdb_of which mr_data pdb_data)
  <-> forallb (Link.convertible (resolve_of which) pdb_data)
              (Link.references mr_data) = true.
Proof. destruct which; simpl; apply link_items_returns. Qed.

(** C6. On records whose references are all convertible, the linker of
    either script returns, and in what it returns every reference has its
    index string at its own position, the sentinel exactly when no key of
    the index answers it; the tally of a key is the number of unresolved
    occurrences of that key; and the sum of the tally is the number of
    sentinels in the linked items. *)
Theorem unresolved_references_tallied :
  forall (which : script) (mr_data : list mr_item)
         (pdb_data : gmap (Z * str) Z),
    forallb (Link.convertible (resolve_of which) pdb_data)
            (Link.references mr_data) = true ->
    exists linked warnings,
      link_mr_to_pdb_of which mr_data pdb_data = Some (linked, warnings) /\
      Forall2 (Link.linked_as (resolve_of which) pdb_data) mr_data linked /\
      (forall key,
         default 0%nat (warnings !! key)
         = Link.occurrences (resolve_of which) pdb_data key
             (Link.references mr_data)) /\
      total_warnings warnings = Link.sentinels linked.
Proof.
  intros which mr_data pdb_data Hconv.
  apply link_mr_to_pdb_of_returns in Hconv as [[linked warnings] H].
  exists linked, warnings. split; [exact H|].
  apply link_mr_to_pdb_of_spec, H.
Qed.

Lemma unresolved_references_tallied_witness :
  let lines := [Sample.assign_H5'1; Sample.assign_H5'1] in
  let linked :=
    [LinkedData [L "1"; NA] [L "H5'"; L "H5''"] [L "3.4"; L "0.5"; L "0.5"];
     LinkedData [L "1"; NA] [L "H5'"; L "H5''"] [L "3.4"; L "0.5"; L "0.5"]] in
  (exists warnings,
     link_mr_to_pdb_of NmrPdbRestraintMapper (Mapper.parse_mr_file lines)
       (Mapper.parse_pdb_file [Sample.atom_H5'1]) = Some (linked, warnings) /\
     default 0%nat (warnings !! (L "5", L "H5''")) = 2%nat /\
     total_warnings warnings = 2%nat) /\
  (exists warnings,
     link_mr_to_pdb_of TestGeneral (General.parse_mr_file lines)
       (General.parse_pdb_file [Sample.atom_H5'1]) = Some (linked, warnings) /\
     default 0%nat (warnings !! (L "5", L "H5''")) = 2%nat /\
     total_warnings warnings = 2%nat).
Proof.
  intros lines linked. split.
  - destruct (unresolved_references_tallied NmrPdbRestraintMapper
                (Mapper.parse_mr_file lines)
                (Mapper.parse_pdb_file [Sample.atom_H5'1]))
      as (linked' & warnings & H & _ & Hkey & Htot);
      [vm_compute; reflexivity|].
    assert (Hl : linked' = linked).
    { assert (E : fst <$> link_mr_to_pdb_of NmrPdbRestraintMapper
                            (Mapper.parse_mr_file lines)
                            (Mapper.parse_pdb_file [Sample.atom_H5'1])
                  = Some linked) by (vm_compute; reflexivity).
      rewrite H in E. injection E as E. exact E. }
    subst linked'. exists warnings. split; [exact H|]. split.
    + rewrite Hkey. vm_compute. reflexivity.
    + rewrite Htot. vm_compute. reflexivity.
  - destruct (unresolved_references_tallied TestGeneral
                (General.parse_mr_file lines)
                (General.parse_pdb_file [Sample.atom_H5'1]))
      as (linked' & warnings & H & _ & Hkey & Htot);
      [vm_compute; reflexivity|].
    assert (Hl : linked' = linked).
    { assert (E : fst <$> link_mr_to_pdb_of TestGeneral
                            (General.parse_mr_file lines)
                            (General.parse_pdb_file [Sample.atom_H5'1])
                  = Some linked) by (vm_compute; reflexivity).
      rewrite H in E. injection E as E. exact E. }
    subst linked'. exists warnings. split; [exact H|]. split.
    + rewrite Hkey. vm_compute. reflexivity.
    + rewrite Htot. vm_compute. reflexivity.
Defined.

(** C7. The linker of either script returns exactly when every reference
    is convertible, and whatever it returns has the length of the input,
    every header unchanged at its position, and every data item replaced
    at its position by a data item with as many index strings as it has
    references, the same atom names and the same bounds. *)
Theorem link_preserves_order_and_shape :
  forall (which : script) (mr_data : list mr_item)
         (pdb_data : gmap (Z * str) Z),
    (is_Some (link_mr_to_pdb_of which mr_data pdb_data)
     <-> forallb (Link.convertible (resolve_of which) pdb_data)
                 (Link.references mr_data) = true) /\
    (forall linked warnings,
       link_mr_to_pdb_of which mr_data pdb_data = Some (linked, warnings) ->
       length linked = length mr_data /\
       Forall2 Link.same_shape mr_data linked).
Proof.
  intros which mr_data pdb_data.
  split; [apply link_mr_to_pdb_of_returns|].
  intros linked warnings H.
  apply link_mr_to_pdb_of_spec in H as (Hall & _ & _).
  split.
  - symmetry. eapply Forall2_length, Hall.
  - eapply Forall2_impl; [exact Hall|].
    intros item l. apply linked_as_same_shape.
Qed.

Lemma link_preserves_order_and_shape_witness :
  let mr_data :=
    [MrHeader [L "!"]; MrData [(L "5", L "H5'"); (L "7", L "N1")] [L "3.4"]] in
  (exists linked warnings,
     link_mr_to_pdb_of NmrPdbRestraintMapper mr_data
       (Mapper.parse_pdb_file [Sample.atom_H5'1]) = Some (linked, warnings) /\
     length linked = 2%nat /\ Forall2 Link.same_shape mr_data linked) /\
  (exists linked warnings,
     link_mr_to_pdb_of TestGeneral mr_data
       (General.parse_pdb_file [Sample.atom_H5'1]) = Some (linked, warnings) /\
     length linked = 2%nat /\ Forall2 Link.same_shape mr_data linked).
Proof.
  intros mr_data. split.
  - destruct (link_preserves_order_and_shape NmrPdbRestraintMapper mr_data
                (Mapper.parse_pdb_file [Sample.atom_H5'1])) as [Hret Hshape].
    destruct (proj2 Hret) as [[linked warnings] H]; [vm_compute; reflexivity|].
    exists linked, warnings. split; [exact H|]. exact (Hshape _ _ H).
  - destruct (link_preserves_order_and_shape TestGeneral mr_data
                (General.parse_pdb_file [Sample.atom_H5'1])) as [Hret Hshape].
    destruct (proj2 Hret) as [[linked warnings] H]; [vm_compute; reflexivity|].
    exists linked, warnings. split; [exact H|]. exact (Hshape _ _ H).
Defined.

(** * The sentinel in the output line *)

Lemma zip_with_field_false (indices atom_names : list str) :
  length atom_names = length indices ->
  zip_with (Link.field false) indices atom_names = map (Py.rjust 6) indices.
Proof.
  revert atom_names.
  induction indices as [|index indices IH]; intros [|name names] Hlen;
    simpl in Hlen; try discriminate Hlen; [reflexivity|].
  cbn [zip_with map]. rewrite IH by lia.
  unfold Link.field. rewrite app_nil_r. reflexivity.
Qed.

Lemma zip_with_field_true (indices atom_names : list str) :
  zip_with (Link.field true) indices atom_names
  = map (fun '(index, atom_name) =>
           Py.rjust 6 index ++ L "(" ++ atom_name ++ L ")")
        (zip indices atom_names).
Proof.
  revert atom_names.
  induction indices as [|index indices IH]; intros [|name names];
    try reflexivity.
  cbn [zip_with map]. unfold zip in IH. rewrite <- IH. reflexivity.
Qed.

(** The output line in terms of the fields of its index strings. *)
Lemma format_output_line_fields indices atom_names float_values include :
  length atom_names = length indices ->
  format_output_line indices atom_names float_values include
  = (bounds ← mapM format_bound float_values;
     Some (Py.rstrip
             (Py.join (L " ") (zip_with (Link.field include) indices atom_names)
              ++ L "    " ++ Py.join (L " ") bounds))).
Proof.
  intros Hlen. unfold format_output_line, format_indices.
  destruct include.
  - rewrite zip_with_field_true. reflexivity.
  - rewrite (zip_with_field_false _ _ Hlen). reflexivity.
Qed.

(** C10. The formatter has no case for the sentinel.  Whatever strings
    stand in [indices], resolved indices or N/A, the line is made of their
    fields in order, joined by single spaces, before the separator and the
    bounds; the field of a string is the string right-justified in width
    6, followed in the diagnostic mode by the atom name of the same
    position in parentheses, which for the sentinel gives three spaces and
    N/A, then the name in parentheses.  And the sentinel does reach the
    formatter: a data item whose references are convertible is linked by
    either script to index strings that are N/A exactly at the unresolved
    references, and the line formatted from them is the one above. *)
Theorem sentinel_formatted_like_index :
  (forall (indices atom_names float_values : list str)
          (include_atom_names : bool),
     length atom_names = length indices ->
     format_output_line indices atom_names float_values include_atom_names
     = (bounds ← mapM format_bound float_values;
        Some (Py.rstrip
                (Py.join (L " ")
                   (zip_with (Link.field include_atom_names)
                             indices atom_names)
                 ++ L "    " ++ Py.join (L " ") bounds)))) /\
  (forall atom_name : str,
     Link.field false NA atom_name = L "   N/A" /\
     Link.field true NA atom_name = L "   N/A(" ++ atom_name ++ L ")") /\
  (forall (which : script) (pdb_data : gmap (Z * str) Z)
          (parts : list (str * str)) (float_values bounds : list str)
          (include_atom_names : bool),
     forallb (Link.convertible (resolve_of which) pdb_data) parts = true ->
     mapM format_bound float_values = Some bounds ->
     exists indices warnings,
       link_mr_to_pdb_of which [MrData parts float_values] pdb_data
       = Some ([LinkedData indices (map snd parts) float_values], warnings) /\
       Forall2 (fun part index =>
                  index = NA
                  <-> Link.unresolved (resolve_of which) pdb_data part = true)
               parts indices /\
       format_output_line indices (map snd parts) float_values
                          include_atom_names
       = Some (Py.rstrip
                 (Py.join (L " ")
                    (zip_with (Link.field include_atom_names)
                              indices (map snd parts))
                  ++ L "    " ++ Py.join (L " ") bounds))).
Proof.
  split; [|split].
  - intros. apply format_output_line_fields. assumption.
  - intros atom_name. split; reflexivity.
  - intros which pdb_data parts float_values bounds include Hconv Hb.
    assert (Hrefs : Link.references [MrData parts float_values] = parts).
    { unfold Link.references. simpl. apply app_nil_r. }
    rewrite <- Hrefs in Hconv.
    apply link_mr_to_pdb_of_returns in Hconv as [[linked warnings] H].
    pose proof H as Hspec.
    apply link_mr_to_pdb_of_spec in Hspec as (Hall & _ & _).
    inversion Hall as [|item l items ls Has Hrest]; subst.
    inversion Hrest; subst.
    destruct l as [h | indices names fv]; simpl in Has; [contradiction|].
    destruct Has as (Hidx & -> & ->).
    exists indices, warnings. split; [exact H|]. split.
    + eapply Forall2_impl; [exact Hidx|].
      intros [resid atom_name] index (n & Hn & Hi).
      unfold Link.unresolved. cbn [fst snd] in *. rewrite Hn.
      destruct (resolve_of which pdb_data n atom_name) as [i|].
      * split; [|discriminate].
        intros ->. exfalso. eapply str_of_int_not_NA; eauto.
      * split; auto.
    + rewrite format_output_line_fields.
      * rewrite Hb. reflexivity.
      * rewrite length_map. eapply Forall2_length, Hidx.
Qed.

Lemma sentinel_formatted_like_index_witness :
  format_output_line [L "1"; NA] [L "H5'"; L "H5''"] [L "3.4"] false
  = Some (L "     1    N/A    3.400") /\
  format_output_line [L "1"; NA] [L "H5'"; L "H5''"] [L "3.4"] true
  = Some (L "     1(H5')    N/A(H5'')    3.400") /\
  (exists indices warnings,
     link_mr_to_pdb_of NmrPdbRestraintMapper
       [MrData [(L "5", L "H5'"); (L "5", L "H5''")] [L "3.4"]]
       (Mapper.parse_pdb_file [Sample.atom_H5'1])
     = Some ([LinkedData indices [L "H5'"; L "H5''"] [L "3.4"]], warnings) /\
     format_output_line indices [L "H5'"; L "H5''"] [L "3.4"] true
     = Some (L "     1(H5')    N/A(H5'')    3.400")) /\
  (exists indices warnings,
     link_mr_to_pdb_of TestGeneral
       [MrData [(L "5", L "H5'"); (L "5", L "H5''")] [L "3.4"]]
       (General.parse_pdb_file [Sample.atom_H5'1])
     = Some ([LinkedData indices [L "H5'"; L "H5''"] [L "3.4"]], warnings) /\
     format_output_line indices [L "H5'"; L "H5''"] [L "3.4"] true
     = Some (L "     1(H5')    N/A(H5'')    3.400")).
Proof.
  destruct sentinel_formatted_like_index as (Hline & _ & Hlink).
  split; [|split; [|split]].
  - rewrite Hline by reflexivity. vm_compute. reflexivity.
  - rewrite Hline by reflexivity. vm_compute. reflexivity.
  - destruct (Hlink NmrPdbRestraintMapper
                (Mapper.parse_pdb_file [Sample.atom_H5'1])
                [(L "5", L "H5'"); (L "5", L "H5''")] [L "3.4"]
                [L "3.400   "] true)
      as (indices & warnings & H & _ & _);
      [vm_compute; reflexivity | vm_compute; reflexivity|].
    exists indices, warnings. split; [exact H|].
    assert (E : fst <$> link_mr_to_pdb_of NmrPdbRestraintMapper
                  [MrData [(L "5", L "H5'"); (L "5", L "H5''")] [L "3.4"]]
                  (Mapper.parse_pdb_file [Sample.atom_H5'1])
                = Some [LinkedData [L "1"; NA] [L "H5'"; L "H5''"] [L "3.4"]])
      by (vm_compute; reflexivity).
    rewrite H in E. injection E as ->. vm_compute. reflexivity.
  - destruct (Hlink TestGeneral
                (General.parse_pdb_file [Sample.atom_H5'1])
                [(L "5", L "H5'"); (L "5", L "H5''")] [L "3.4"]
                [L "3.400   "] true)
      as (indices & warnings & H & _ & _);
      [vm_compute; reflexivity | vm_compute; reflexivity|].
    exists indices, warnings. split; [exact H|].
    assert (E : fst <$> link_mr_to_pdb_of TestGeneral
                  [MrData [(L "5", L "H5'"); (L "5", L "H5''")] [L "3.4"]]
                  (General.parse_pdb_file [Sample.atom_H5'1])
                = Some [LinkedData [L "1"; NA] [L "H5'"; L "H5''"] [L "3.4"]])
      by (vm_compute; reflexivity).
    rewrite H in E. injection E as ->. vm_compute. reflexivity.
Defined.

(** * What the parser hands to the linker *)

Lemma span_all (f : ascii -> bool) (s a b : str) :
  Re.span f s = (a, b) -> forallb f a = true /\ s = a ++ b.
Proof.
  revert a b. induction s as [|c s IH]; intros a b; simpl.
  - intros [= <- <-]. auto.
  - destruct (f c) eqn:Ec.
    + destruct (Re.span f s) as [a' b'] eqn:Es. intros [= <- <-].
      destruct (IH a' b' eq_refl) as [Ha ->]. simpl. rewrite Ec. auto.
    + intros [= <- <-]. auto.
Qed.

Lemma many1_all (f : ascii -> bool) (s a b : str) :
  Re.many1 f s = Some (a, b) ->
  a <> [] /\ forallb f a = true /\ s = a ++ b.
Proof.
  unfold Re.many1. destruct (Re.span f s) as [a' b'] eqn:Es.
  apply span_all in Es as [Ha ->].
  destruct a' as [|c a']; [discriminate|].
  intros [= <- <-]. split; [discriminate | auto].
Qed.

(** The two groups of a match: digits, and characters of the name class. *)
Lemma match_atom_ref_groups (s : str) resid atom_name rest :
  Re.match_atom_ref s = Some ((resid, atom_name), rest) ->
  Link.is_digits resid = true /\ forallb Re.name_char atom_name = true.
Proof.
  unfold Re.match_atom_ref. intros H.
  repeat match type of H with
         | (match ?x with _ => _ end) = _ =>
             destruct x as [?|] eqn:?; [|discriminate H]
         | mbind _ ?x = _ =>
             destruct x as [?|] eqn:?; cbn [mbind option_bind] in H;
             [|discriminate H]
         | (let '(_, _) := ?x in _) = _ => destruct x as [? ?] eqn:?
         end.
  injection H as <- <- <-.
  match goal with
  | H1 : Re.many1 Py.isdecimal _ = Some (_, _),
    H2 : Re.many1 Re.name_char _ = Some (_, _) |- _ =>
      apply many1_all in H1 as (Hne & Hall & _);
      apply many1_all in H2 as (_ & Hall2 & _)
  end.
  split; [|exact Hall2].
  unfold Link.is_digits.
  match goal with |- match ?r with _ => _ end = _ => destruct r end;
    [congruence | exact Hall].
Qed.

Lemma findall_from_Forall {A} (P : A -> Prop) (m : str -> option (A * str)) :
  (forall s x rest, m s = Some (x, rest) -> P x) ->
  forall s skip, Forall P (Re.findall_from m skip s).
Proof.
  intros Hm. induction s as [|c s IH]; intros skip; simpl; [constructor|].
  destruct skip as [|k]; [|apply IH].
  destruct (m (c :: s)) as [[x rest]|] eqn:E; [|apply IH].
  constructor; [eapply Hm, E | apply IH].
Qed.

Lemma step_well_formed (convert : str -> str) (st : mr_state) (line : str) :
  Forall (fun item => Link.well_formed item = true) (mr_data st) ->
  Forall (fun item => Link.well_formed item = true)
         (mr_data (MrFile.step convert st line)).
Proof.
  intros Hst. unfold MrFile.step, MrFile.flush.
  repeat match goal with
         | |- context [if ?b then _ else _] => destruct b
         | |- context [match header_block st with _ => _ end] =>
             destruct (header_block st)
         end;
    cbn [mr_data]; rewrite ?Forall_app; repeat split;
    try exact Hst; try (repeat constructor; fail).
  all: constructor; [|constructor]; cbn [Link.well_formed].
  all: rewrite forallb_forall; intros [resid name] Hin.
  all: apply in_map_iff in Hin as ([resid0 name0] & [= <- <-] & Hin).
  all: assert (HF : Forall (fun p : str * str => Link.is_digits p.1 = true)
                      (Re.findall Re.match_atom_ref (Py.strip line)))
    by (apply findall_from_Forall; intros s [r n] rest Hm;
        apply match_atom_ref_groups in Hm; tauto).
  all: rewrite Forall_forall in HF.
  all: apply (HF (resid0, name0)), list_elem_of_In, Hin.
Qed.

(** The residue ids of every item that [parse_mr_file] returns are digit
    strings. *)
Lemma parse_mr_file_well_formed (convert : str -> str) (lines : list str) :
  Forall (fun item => Link.well_formed item = true)
         (MrFile.parse_mr_file convert lines).
Proof.
  unfold MrFile.parse_mr_file, MrFile.loop.
  assert (H : forall st,
             Forall (fun item => Link.well_formed item = true) (mr_data st) ->
             Forall (fun item => Link.well_formed item = true)
                    (mr_data (fold_left (MrFile.step convert) lines st))).
  { induction lines as [|line lines IH]; intros st Hst; simpl; [exact Hst|].
    apply IH, step_well_formed, Hst. }
  specialize (H (MrState [] [] false) (List.Forall_nil _)).
  unfold MrFile.flush.
  destruct (header_block _); cbn [mr_data]; [exact H|].
  rewrite Forall_app. split; [exact H | repeat constructor].
Qed.

Lemma well_formed_references (mr_data : list mr_item) :
  Forall (fun item => Link.well_formed item = true) mr_data ->
  Forall (fun part : str * str => Link.is_digits part.1 = true)
         (Link.references mr_data).
Proof.
  induction 1 as [|item items Hitem _ IH]; [constructor|].
  unfold Link.references. cbn [flat_map]. apply Forall_app. split; [|exact IH].
  destruct item as [h | parts float_values]; [constructor|].
  cbn [Link.well_formed] in Hitem. rewrite forallb_forall in Hitem.
  apply Forall_forall. intros part Hin. apply Hitem, list_elem_of_In, Hin.
Qed.

(** An index found is a value of the index. *)
Lemma resolve_of_lookup (which : script) (pdb_data : gmap (Z * str) Z)
    (n : Z) (atom_name : str) (i : Z) :
  resolve_of which pdb_data n atom_name = Some i ->
  exists key, pdb_data !! key = Some i.
Proof.
  destruct which; cbn [resolve_of]; unfold Mapper.resolve, General.resolve.
  - eauto.
  - destruct (pdb_data !! (n, General.convert_atom_name atom_name)) eqn:E.
    + intros [= <-]. eauto.
    + eauto.
Qed.

(** With an index whose values [str] takes, a reference whose residue id
    is a digit string is convertible exactly when the id is within the
    limit of [int]. *)
Lemma convertible_of_digits (which : script) (pdb_data : gmap (Z * str) Z)
    (part : str * str) :
  (forall key i, pdb_data !! key = Some i -> is_Some (Py.str_of_int i)) ->
  Link.is_digits part.1 = true ->
  Link.convertible (resolve_of which) pdb_data part = Link.short_id part.
Proof.
  intros Hprint Hd. unfold Link.convertible, Link.short_id.
  pose proof (int_of_digits _ Hd) as Hint.
  destruct (Py.int part.1) as [n|].
  - assert (Hle : Z.of_nat (length part.1) <= Py.max_str_digits)
      by (apply Hint; eauto).
    apply Z.leb_le in Hle. rewrite Hle.
    destruct (resolve_of which pdb_data n part.2) as [i|] eqn:Er;
      [|reflexivity].
    apply resolve_of_lookup in Er as [key Hkey].
    apply bool_decide_eq_true, (Hprint key), Hkey.
  - symmetry. apply Z.leb_gt.
    destruct (Z_lt_le_dec Py.max_str_digits (Z.of_nat (length part.1)))
      as [Hlt|Hle]; [exact Hlt|].
    apply Hint in Hle as [n Hn]. discriminate Hn.
Qed.

(** Linking what was parsed, with an index whose values [str] takes,
    raises exactly when a residue id is over the limit of [int]. *)
Lemma link_of_parsed_returns (which : script) (lines : list str)
    (pdb_data : gmap (Z * str) Z) :
  (forall key i, pdb_data !! key = Some i -> is_Some (Py.str_of_int i)) ->
  is_Some (link_mr_to_pdb_of which (parse_mr_file_of which lines) pdb_data)
  <-> forallb Link.short_id (Link.references (parse_mr_file_of which lines))
      = true.
Proof.
  intros Hprint. rewrite link_mr_to_pdb_of_returns.
  pose proof (well_formed_references _
                (parse_mr_file_well_formed (convert_atom_name_of which) lines))
    as Hd.
  fold (parse_mr_file_of which lines) in Hd.
  induction Hd as [|part parts Hpart _ IH]; [reflexivity|].
  cbn [forallb]. rewrite (convertible_of_digits _ _ _ Hprint Hpart).
  rewrite !andb_true_iff, IH. reflexivity.
Qed.

(** * The normaliser applied twice *)

Lemma drop_while_suffix (f : ascii -> bool) (s : str) :
  exists p, s = p ++ Py.drop_while f s.
Proof.
  induction s as [|c s [p IH]]; simpl.
  - exists []. reflexivity.
  - destruct (f c).
    + exists (c :: p). simpl. rewrite <- IH. reflexivity.
    + exists []. reflexivity.
Qed.

Lemma drop_while_fix (f : ascii -> bool) (s : str) :
  match s with [] => True | c :: _ => f c = false end ->
  Py.drop_while f s = s.
Proof. destruct s as [|c s]; simpl; [auto | intros ->; reflexivity]. Qed.

Lemma drop_while_idem (f : ascii -> bool) (s : str) :
  Py.drop_while f (Py.drop_while f s) = Py.drop_while f s.
Proof. apply drop_while_fix, drop_while_stops. Qed.

(** [rstrip_chars] returns a prefix that it leaves unchanged. *)
Lemma rstrip_chars_prefix (chars s : str) :
  exists tail, s = Py.rstrip_chars chars s ++ tail.
Proof.
  unfold Py.rstrip_chars, Py.lstrip_chars.
  destruct (drop_while_suffix (fun c => Py.mem c chars) (rev s)) as [p Hp].
  exists (rev p). rewrite <- rev_app_distr, <- Hp, rev_involutive. reflexivity.
Qed.

Lemma rstrip_chars_idem (chars s : str) :
  Py.rstrip_chars chars (Py.rstrip_chars chars s) = Py.rstrip_chars chars s.
Proof.
  unfold Py.rstrip_chars, Py.lstrip_chars.
  rewrite rev_involutive, drop_while_idem. reflexivity.
Qed.

Lemma rstrip_chars_snoc (chars t : str) (c : ascii) :
  Py.rstrip_chars chars (t ++ [c])
  = if Py.mem c chars then Py.rstrip_chars chars t else t ++ [c].
Proof.
  unfold Py.rstrip_chars, Py.lstrip_chars. rewrite rev_app_distr. simpl.
  destruct (Py.mem c chars); [reflexivity|].
  simpl. rewrite rev_involutive. reflexivity.
Qed.

Lemma endswith_snoc1 (t : str) (c d : ascii) :
  Py.endswith (t ++ [c]) [d] = Py.ascii_eqb c d.
Proof.
  unfold Py.endswith. rewrite rev_app_distr. simpl. apply andb_true_r.
Qed.

Lemma endswith_snoc2 (t : str) (c d1 d2 : ascii) :
  Py.endswith (t ++ [c]) [d1; d2] = Py.ascii_eqb c d2 && Py.endswith t [d1].
Proof. unfold Py.endswith. rewrite rev_app_distr. reflexivity. Qed.

Lemma last_isdigit_snoc (t : str) (c : ascii) :
  Py.last_isdigit (t ++ [c]) = Py.isdigit c.
Proof. unfold Py.last_isdigit. rewrite rev_app_distr. reflexivity. Qed.

Lemma drop_last_snoc (t : str) (c : ascii) : Py.drop_last (t ++ [c]) = t.
Proof. apply removelast_last. Qed.

Lemma mem_snoc (a c : ascii) (t : str) :
  Py.mem a (t ++ [c]) = Py.mem a t || Py.ascii_eqb a c.
Proof. unfold Py.mem. rewrite existsb_app. simpl. rewrite orb_false_r. reflexivity. Qed.

Lemma startswith_app (t u p : str) :
  Py.startswith t p = true -> Py.startswith (t ++ u) p = true.
Proof.
  revert t. induction p as [|b p IH]; intros [|a t]; simpl; try congruence.
  intros H. apply andb_true_iff in H as [-> H]. simpl. apply IH, H.
Qed.

Lemma ascii_eqb_eq (a b : ascii) : Py.ascii_eqb a b = true <-> a = b.
Proof. apply Ascii.eqb_eq. Qed.

Lemma strip_chars_clean (s : str) :
  clean s = true -> Py.strip_chars [Py.dquote] s = s.
Proof.
  unfold clean, Py.strip_chars, Py.rstrip_chars, Py.lstrip_chars.
  intros H. apply andb_true_iff in H as [Hh Hl].
  rewrite (drop_while_fix _ s).
  - rewrite (drop_while_fix _ (rev s)); [apply rev_involutive|].
    destruct (rev s); [exact I|]. simpl in Hl. apply negb_true_iff, Hl.
  - destruct s; [exact I|]. simpl in Hh. apply negb_true_iff, Hh.
Qed.

Lemma head_ok_drop_while (s : str) :
  head_ok (Py.drop_while (fun c => Py.mem c [Py.dquote]) s) = true.
Proof.
  pose proof (drop_while_stops (fun c => Py.mem c [Py.dquote]) s) as H.
  unfold head_ok. destruct (Py.drop_while _ s); [reflexivity|].
  rewrite H. reflexivity.
Qed.

Lemma head_ok_prefix (p q : str) :
  head_ok (p ++ q) = true -> head_ok p = true.
Proof. destruct p; simpl; auto. Qed.

Lemma clean_strip_chars (x : str) : clean (Py.strip_chars [Py.dquote] x) = true.
Proof.
  unfold clean, Py.strip_chars, Py.rstrip_chars, Py.lstrip_chars.
  rewrite rev_involutive. apply andb_true_iff. split.
  - set (y := Py.drop_while _ x).
    destruct (drop_while_suffix (fun c => Py.mem c [Py.dquote]) (rev y))
      as [p Hp].
    apply (head_ok_prefix _ (rev p)).
    rewrite <- rev_app_distr, <- Hp, rev_involutive.
    apply head_ok_drop_while.
  - apply head_ok_drop_while.
Qed.

Lemma clean_snoc (t : str) (c q : ascii) :
  clean (t ++ [c]) = true -> Py.mem q [Py.dquote] = false ->
  clean (t ++ [q]) = true.
Proof.
  unfold clean. rewrite !rev_app_distr. simpl. intros H Hq.
  apply andb_true_iff in H as [Hh _]. rewrite Hq. simpl. rewrite andb_true_r.
  destruct t; simpl in *; [rewrite Hq; reflexivity | exact Hh].
Qed.

Lemma snoc_cases (s : str) : s = [] \/ exists t c, s = t ++ [c].
Proof.
  destruct (rev s) as [|c r] eqn:E.
  - left. apply (f_equal (@rev ascii)) in E. rewrite rev_involutive in E. exact E.
  - right. exists (rev r), c.
    apply (f_equal (@rev ascii)) in E. rewrite rev_involutive in E. exact E.
Qed.

Lemma mem_nonempty (a : ascii) (t : str) :
  Py.mem a t = true -> exists t' c, t = t' ++ [c].
Proof.
  destruct (snoc_cases t) as [-> | H]; [discriminate | auto].
Qed.

Lemma clean_prefix_snoc (t' : str) (c' c : ascii) :
  clean ((t' ++ [c']) ++ [c]) = true ->
  Py.ascii_eqb c' Py.dquote = false ->
  clean (t' ++ [c']) = true.
Proof.
  unfold clean. intros H Hq. apply andb_true_iff in H as [Hh _].
  apply head_ok_prefix in Hh. rewrite Hh, rev_app_distr. simpl.
  rewrite Hq. reflexivity.
Qed.

Ltac snoc_norm :=
  unfold L; cbn [list_ascii_of_string];
  rewrite ?endswith_snoc2, ?endswith_snoc1, ?last_isdigit_snoc,
    ?drop_last_snoc, ?mem_snoc.

Ltac snoc_norm_in H :=
  unfold L in H; cbn [list_ascii_of_string] in H;
  rewrite ?endswith_snoc2, ?endswith_snoc1, ?last_isdigit_snoc,
    ?drop_last_snoc, ?mem_snoc in H.

(** The mapper normaliser, on a name without surrounding quotes. *)
Lemma mapper_idempotent_clean (s : str) :
  clean s = true ->
  exceptional NmrPdbRestraintMapper s = false ->
  Mapper.convert_atom_name (Mapper.convert_atom_name s)
  = Mapper.convert_atom_name s.
Proof.
  intros Hclean Hex.
  unfold exceptional in Hex. rewrite (strip_chars_clean s Hclean) in Hex.
  cbv zeta in Hex.
  destruct (snoc_cases s) as [-> | (t & c & ->)]; [reflexivity|].
  cut (forall r, Mapper.convert_atom_name (t ++ [c]) = r ->
                 Mapper.convert_atom_name r = r).
  { intros H. rewrite (H _ eq_refl) at 1. reflexivity. }
  intros r Hr. pose proof Hr as Hr0.
  unfold Mapper.convert_atom_name in Hr.
  rewrite (strip_chars_clean _ Hclean) in Hr. cbv zeta in Hr.
  snoc_norm_in Hr. snoc_norm_in Hex.
  destruct (Py.ascii_eqb c "1"%char) eqn:E1.
  - apply ascii_eqb_eq in E1. subst c.
    change (Py.isdigit "1"%char) with true in Hr.
    change (Py.ascii_eqb "'"%char "1"%char) with false in Hr, Hex.
    change (Py.ascii_eqb "1"%char "1"%char) with true in Hex.
    rewrite orb_false_r, andb_true_r in Hr. rewrite orb_false_r in Hex.
    destruct (Py.startswith (t ++ ["1"%char]) ["H"%char; "5"%char; "'"%char])
      eqn:Hs; [destruct Hr; reflexivity|].
    destruct (Py.mem "'"%char t) eqn:Hm; [|destruct Hr; exact Hr0].
    destruct Hr. simpl in Hex.
    destruct (mem_nonempty _ _ Hm) as (t' & c' & ->).
    snoc_norm_in Hex.
    apply orb_false_iff in Hex as [Hex Hq].
    apply orb_false_iff in Hex as [H1 H2].
    assert (Hclean' : clean (t' ++ [c']) = true)
      by (eapply clean_prefix_snoc; eauto).
    unfold Mapper.convert_atom_name.
    rewrite (strip_chars_clean _ Hclean'). cbv zeta. snoc_norm.
    rewrite H1, H2.
    assert (Py.startswith (t' ++ [c']) ["H"%char; "5"%char; "'"%char] = false)
      as ->.
    { destruct (Py.startswith (t' ++ [c']) _) eqn:Hs'; [|reflexivity].
      apply (startswith_app _ ["1"%char]) in Hs'. congruence. }
    destruct ((_ || _) && _); reflexivity.
  - destruct (Py.ascii_eqb c "2"%char) eqn:E2.
    + apply ascii_eqb_eq in E2. subst c.
      change (Py.isdigit "2"%char) with true in Hr.
      change (Py.ascii_eqb "'"%char "2"%char) with false in Hr.
      rewrite orb_false_r, andb_true_r in Hr.
      destruct (Py.startswith (t ++ ["2"%char]) _) eqn:Hs;
        [destruct Hr; reflexivity|].
      destruct (Py.mem "'"%char t) eqn:Hm; [|destruct Hr; exact Hr0].
      destruct Hr.
      assert (Hclean' : clean (t ++ ["'"%char]) = true)
        by (eapply clean_snoc; eauto).
      unfold Mapper.convert_atom_name.
      rewrite (strip_chars_clean _ Hclean'). cbv zeta. snoc_norm.
      change (Py.ascii_eqb "'"%char "1"%char) with false.
      change (Py.ascii_eqb "'"%char "2"%char) with false.
      change (Py.isdigit "'"%char) with false.
      rewrite andb_false_r.
      destruct (Py.startswith (t ++ ["'"%char]) _); reflexivity.
    + assert (r = t ++ [c]) as ->; [|exact Hr0].
      destruct (Py.startswith _ _), ((_ || _) && _) in Hr; congruence.
Qed.

Lemma mapper_convert_strip (x : str) :
  Mapper.convert_atom_name (Py.strip_chars [Py.dquote] x)
  = Mapper.convert_atom_name x.
Proof.
  unfold Mapper.convert_atom_name.
  rewrite (strip_chars_clean _ (clean_strip_chars x)). reflexivity.
Qed.

Ltac ground_bool b :=
  let v := eval vm_compute in b in
  match v with
  | true => change b with true in *
  | false => change b with false in *
  end.

Ltac ground_bools :=
  repeat match goal with
         | |- context [Py.ascii_eqb ?a ?b] => ground_bool (Py.ascii_eqb a b)
         | |- context [Py.mem ?a ?l] => ground_bool (Py.mem a l)
         | |- context [Py.isdigit ?a] => ground_bool (Py.isdigit a)
         | H : context [Py.ascii_eqb ?a ?b] |- _ =>
             ground_bool (Py.ascii_eqb a b)
         | H : context [Py.mem ?a ?l] |- _ => ground_bool (Py.mem a l)
         | H : context [Py.isdigit ?a] |- _ => ground_bool (Py.isdigit a)
         end;
  cbn [orb andb negb] in *;
  rewrite ?orb_false_r, ?orb_true_r, ?andb_false_r, ?andb_true_r in *.

Lemma head_ok_rev_snoc (t : str) (q : ascii) :
  head_ok (rev (t ++ [q])) = negb (Py.mem q [Py.dquote]).
Proof. rewrite rev_app_distr. reflexivity. Qed.

Lemma clean_rstrip_snoc (chars s : str) (q : ascii) :
  clean s = true -> Py.mem q [Py.dquote] = false ->
  clean (Py.rstrip_chars chars s ++ [q]) = true.
Proof.
  intros H Hq. unfold clean in *. apply andb_true_iff in H as [Hh _].
  rewrite head_ok_rev_snoc, Hq, andb_true_r.
  destruct (rstrip_chars_prefix chars s) as [tail Ht].
  destruct (Py.rstrip_chars chars s) as [|b base].
  - unfold head_ok. cbn [app]. rewrite Hq. reflexivity.
  - rewrite Ht in Hh. exact Hh.
Qed.

Ltac finish_eqb :=
  repeat match goal with
         | |- context [if Py.startswith ?a ?b then _ else _] =>
             destruct (Py.startswith a b)
         | |- context [if Py.eqb ?a ?b then _ else _] =>
             let E := fresh "E" in
             destruct (Py.eqb a b) eqn:E;
             [apply py_eqb_eq in E; rewrite <- E |]
         | |- context [if ?b then _ else _] => destruct b
         end;
  try reflexivity.

(** The two results of test_general.py that are built from a name: the
    stripped name followed by an apostrophe, and the name with its final
    hash replaced by an asterisk.  Both are left as they are. *)
Lemma general_fixes_primed (s : str) :
  clean s = true ->
  General.convert_atom_name (Py.rstrip_chars (L "123'") s ++ ["'"%char])
  = Py.rstrip_chars (L "123'") s ++ ["'"%char].
Proof.
  intros Hclean.
  assert (Hr : clean (Py.rstrip_chars (L "123'") s ++ ["'"%char]) = true)
    by (apply clean_rstrip_snoc; auto).
  unfold General.convert_atom_name. rewrite (strip_chars_clean _ Hr).
  cbv zeta. snoc_norm. rewrite rstrip_chars_snoc. ground_bools.
  rewrite rstrip_chars_idem. finish_eqb.
Qed.

Lemma general_fixes_wildcard (t : str) (c : ascii) :
  clean (t ++ [c]) = true ->
  General.convert_atom_name (t ++ ["*"%char]) = t ++ ["*"%char].
Proof.
  intros Hclean.
  assert (Hr : clean (t ++ ["*"%char]) = true)
    by (eapply clean_snoc; eauto).
  unfold General.convert_atom_name. rewrite (strip_chars_clean _ Hr).
  cbv zeta. snoc_norm. rewrite rstrip_chars_snoc. ground_bools.
  finish_eqb.
Qed.

(** The normaliser of test_general.py, on a name without surrounding
    quotes. *)
Lemma general_idempotent_clean (s : str) :
  clean s = true ->
  exceptional TestGeneral s = false ->
  General.convert_atom_name (General.convert_atom_name s)
  = General.convert_atom_name s.
Proof.
  intros Hclean Hex.
  unfold exceptional in Hex. rewrite (strip_chars_clean s Hclean) in Hex.
  cbv zeta in Hex.
  destruct (snoc_cases s) as [-> | (t & c & ->)]; [reflexivity|].
  cut (forall r, General.convert_atom_name (t ++ [c]) = r ->
                 General.convert_atom_name r = r).
  { intros H. rewrite (H _ eq_refl) at 1. reflexivity. }
  intros r Hr. pose proof Hr as Hr0.
  unfold General.convert_atom_name in Hr.
  rewrite (strip_chars_clean _ Hclean) in Hr. cbv zeta in Hr.
  pose proof (general_fixes_primed _ Hclean) as Hprimed.
  pose proof (general_fixes_wildcard _ _ Hclean) as Hwild.
  snoc_norm_in Hr. snoc_norm_in Hex. unfold L in Hprimed.
  cbn [list_ascii_of_string] in Hprimed.
  set (base := Py.rstrip_chars _ (t ++ [c])) in *.
  revert Hex Hr.
  assert (Hleaf : forall r',
             (r' = r -> General.convert_atom_name r' = r') ->
             r' = r -> General.convert_atom_name r = r)
    by (intros r' H E; rewrite <- E; auto).
  destruct (Py.startswith (t ++ [c]) _);
    destruct (Py.ascii_eqb c "1"%char);
    destruct (Py.eqb (t ++ [c]) ["H"%char; "5"%char; "'"%char]);
    cbn [orb andb negb];
    try (intros _; apply Hleaf; reflexivity);
    destruct (Py.ascii_eqb c "2"%char);
    destruct (Py.eqb (t ++ [c]) ["H"%char; "5"%char; "'"%char; "'"%char]);
    cbn [orb andb negb];
    try (intros _; apply Hleaf; reflexivity);
    destruct (Py.mem "'"%char t);
    destruct (Py.ascii_eqb "'"%char c);
    destruct (Py.ascii_eqb c "'"%char);
    cbn [orb andb negb];
    try (intros _; apply Hleaf; intros _; exact Hprimed);
    destruct (Py.ascii_eqb c "#"%char);
    cbn [orb andb negb];
    try (intros _; apply Hleaf; intros _; exact Hwild);
    try (intros _; apply Hleaf; intros E; rewrite Hr0; symmetry; exact E);
    destruct (Py.endswith t ["'"%char]);
    cbn [orb andb negb];
    try (intros _; apply Hleaf; intros _; exact Hwild);
    try (intros _; apply Hleaf; intros E; rewrite Hr0; symmetry; exact E);
    destruct (Py.eqb base ["H"%char; "5"%char]) eqn:Eb;
    cbn [orb andb negb];
    try (intros Hex; discriminate Hex);
    apply py_eqb_eq in Eb; rewrite Eb;
    intros _; apply Hleaf; reflexivity.
Qed.

Lemma general_convert_strip (x : str) :
  General.convert_atom_name (Py.strip_chars [Py.dquote] x)
  = General.convert_atom_name x.
Proof.
  unfold General.convert_atom_name.
  rewrite (strip_chars_clean _ (clean_strip_chars x)). reflexivity.
Qed.

Lemma exceptional_strip (which : script) (x : str) :
  exceptional which (Py.strip_chars [Py.dquote] x) = exceptional which x.
Proof.
  unfold exceptional.
  rewrite (strip_chars_clean _ (clean_strip_chars x)). reflexivity.
Qed.

(** C3, as the code behaves.  In both scripts the normaliser applied
    twice gives what it gives applied once, on every name outside the
    exceptional ones of the script. *)
Theorem convert_atom_name_idempotent_outside :
  forall (which : script) (x : str),
    exceptional which x = false ->
    convert_atom_name_of which (convert_atom_name_of which x)
    = convert_atom_name_of which x.
Proof.
  intros which x Hex. rewrite <- exceptional_strip in Hex.
  destruct which; simpl.
  - rewrite <- (mapper_convert_strip x).
    apply mapper_idempotent_clean; [apply clean_strip_chars | exact Hex].
  - rewrite <- (general_convert_strip x).
    apply general_idempotent_clean; [apply clean_strip_chars | exact Hex].
Qed.

Lemma convert_atom_name_idempotent_outside_witness :
  General.convert_atom_name (General.convert_atom_name (L "H2'1"))
  = General.convert_atom_name (L "H2'1") /\
  Mapper.convert_atom_name (Mapper.convert_atom_name (L "H2'2"))
  = Mapper.convert_atom_name (L "H2'2").
Proof.
  split.
  - exact (convert_atom_name_idempotent_outside TestGeneral (L "H2'1") eq_refl).
  - exact (convert_atom_name_idempotent_outside
             NmrPdbRestraintMapper (L "H2'2") eq_refl).
Defined.

(** C3 fails as stated: the mapper script takes H2'11 to H2'1 and H2'1
    to H2'; test_general.py takes H2'2 to H'' and H'' to H'. *)
Lemma convert_atom_name_not_idempotent :
  Mapper.convert_atom_name (L "H2'11") = L "H2'1" /\
  Mapper.convert_atom_name (L "H2'1") = L "H2'" /\
  Mapper.convert_atom_name (Mapper.convert_atom_name (L "H2'11"))
  <> Mapper.convert_atom_name (L "H2'11") /\
  General.convert_atom_name (L "H2'2") = L "H''" /\
  General.convert_atom_name (L "H''") = L "H'" /\
  General.convert_atom_name (General.convert_atom_name (L "H2'2"))
  <> General.convert_atom_name (L "H2'2").
Proof.
  repeat split; try (vm_compute; reflexivity);
    vm_compute; intros H; discriminate H.
Qed.

(** * Further properties of the index builder *)

(** What a line writes into the empty index: nothing when it is no
    coordinate line, the keys of [written_names] when its numbers convert;
    otherwise the step raises. *)
Lemma pdb_step_of_empty (which : script) (line : str) :
  pdb_step_of which ∅ line =
  if is_atom_line line then
    match atom_fields line with
    | Some (atom_index, atom_name, resid) =>
        Some (list_to_map
                (map (fun name => ((resid, name), atom_index))
                     (rev (written_names which atom_name))))
    | None => None
    end
  else Some ∅.
Proof.
  unfold atom_fields, is_atom_line.
  destruct which; cbn [pdb_step_of written_names];
    unfold Mapper.pdb_step, General.pdb_step;
    destruct (Py.startswith line (L "ATOM")); try reflexivity;
    destruct (Py.int (Py.slice 6 11 line)) as [atom_index|];
    cbn [mbind option_bind]; try reflexivity;
    destruct (Py.int (Py.slice 22 26 line)) as [resid|];
    cbn [mbind option_bind]; try reflexivity.
  f_equal. cbv zeta.
  set (atom_name := Py.strip (Py.slice 12 16 line)).
  set (converted := General.convert_atom_name atom_name).
  assert (Hnamed :
            (if negb (Py.eqb converted atom_name)
             then <[(resid, converted) := atom_index]>
                    (<[(resid, atom_name) := atom_index]> ∅)
             else <[(resid, atom_name) := atom_index]> ∅)
            = <[(resid, converted) := atom_index]>
                (<[(resid, atom_name) := atom_index]>
                   (∅ : gmap (Z * str) Z))).
  { destruct (Py.eqb converted atom_name) eqn:E; simpl; [|reflexivity].
    apply py_eqb_eq in E. rewrite E. symmetry. apply insert_insert_eq. }
  rewrite Hnamed.
  destruct (Py.eqb converted (L "H5'") || Py.eqb converted (L "H5''"));
    reflexivity.
Qed.

Lemma pdb_step_of_writes (which : script) (pdb_data : gmap (Z * str) Z)
    (line : str) :
  pdb_step_of which pdb_data line
  = (fun written => written ∪ pdb_data) <$> pdb_step_of which ∅ line.
Proof.
  destruct which; [apply mapper_pdb_step_writes | apply general_pdb_step_writes].
Qed.

Lemma pdb_step_of_skip (which : script) (pdb_data : gmap (Z * str) Z)
    (line : str) :
  is_atom_line line = false -> pdb_step_of which pdb_data line = Some pdb_data.
Proof.
  intros H. rewrite pdb_step_of_writes, pdb_step_of_empty, H. simpl.
  f_equal. apply (left_id ∅ _).
Qed.

(** The keys a line writes, looked up one by one. *)
Lemma pdb_step_of_lookup (which : script) (line : str) written resid name :
  pdb_step_of which ∅ line = Some written ->
  written !! (resid, name) =
  match atom_fields line with
  | Some (atom_index, atom_name, resid') =>
      if decide (resid' = resid /\ name ∈ written_names which atom_name)
      then Some atom_index else None
  | None => None
  end.
Proof.
  rewrite pdb_step_of_empty. unfold atom_fields.
  destruct (is_atom_line line).
  2:{ intros [= <-]. rewrite lookup_empty. reflexivity. }
  destruct (Py.int (Py.slice 6 11 line)) as [atom_index|];
    cbn [mbind option_bind]; [|discriminate].
  destruct (Py.int (Py.slice 22 26 line)) as [resid'|];
    cbn [mbind option_bind]; [|discriminate].
  intros [= <-].
  set (names := written_names which _).
  assert (Hrev : forall n, n ∈ names <-> n ∈ rev names)
    by (intros n; rewrite !list_elem_of_In; apply in_rev).
  case_decide as Hd.
  - destruct Hd as [-> Hn]. apply Hrev in Hn. clear Hrev.
    induction (rev names) as [|n ns IH]; [apply elem_of_nil in Hn; tauto|].
    cbn [map]. rewrite list_to_map_cons.
    destruct (decide (n = name)) as [->|Hne].
    + apply lookup_insert_eq.
    + rewrite lookup_insert_ne by congruence. apply IH.
      apply elem_of_cons in Hn as [->|Hn]; [congruence | exact Hn].
  - assert (Hn : ~ (resid' = resid /\ name ∈ rev names))
      by (rewrite <- Hrev; exact Hd).
    clear Hd Hrev. induction (rev names) as [|n ns IH].
    + apply lookup_empty.
    + cbn [map]. rewrite list_to_map_cons.
      rewrite lookup_insert_ne.
      * apply IH. intros [-> Hin]. apply Hn. split; [reflexivity|].
        apply elem_of_cons. right. exact Hin.
      * intros [= -> ->]. apply Hn. split; [reflexivity|].
        apply elem_of_cons. left. reflexivity.
Qed.

(** X1. Lines that do not start with ATOM play no part: the index built
    from a file is the index built from its coordinate lines alone. *)
Theorem index_ignores_other_lines :
  forall (which : script) (lines : list str),
    parse_pdb_file_of which (List.filter is_atom_line lines)
    = parse_pdb_file_of which lines.
Proof.
  intros which lines. unfold parse_pdb_file_of, Loops.parse_pdb_file.
  generalize (∅ : gmap (Z * str) Z).
  induction lines as [|line lines IH]; intros pdb_data; [reflexivity|].
  cbn [List.filter]. destruct (is_atom_line line) eqn:E.
  - cbn [Loops.pdb_loop].
    destruct (pdb_step_of which pdb_data line); [apply IH | reflexivity].
  - cbn [Loops.pdb_loop]. rewrite (pdb_step_of_skip _ _ _ E). apply IH.
Qed.

(** X2. A coordinate line whose serial or residue number does not
    convert ends the reading: the index is the one built from the lines
    before it, whatever follows. *)
Theorem index_stops_at_malformed_line :
  forall (which : script) (before after : list str) (line : str),
    is_atom_line line = true ->
    Py.int (Py.slice 6 11 line) = None \/ Py.int (Py.slice 22 26 line) = None ->
    parse_pdb_file_of which (before ++ line :: after)
    = parse_pdb_file_of which before.
Proof.
  intros which before after line Hatom Hbad.
  assert (Hnone : forall pdb_data, pdb_step_of which pdb_data line = None).
  { intros pdb_data. rewrite pdb_step_of_writes, pdb_step_of_empty, Hatom.
    unfold atom_fields. rewrite Hatom.
    destruct Hbad as [-> | Hres]; [reflexivity|].
    destruct (Py.int (Py.slice 6 11 line)); cbn [mbind option_bind];
      [rewrite Hres|]; reflexivity. }
  unfold parse_pdb_file_of, Loops.parse_pdb_file.
  generalize (∅ : gmap (Z * str) Z).
  induction before as [|l before IH]; intros pdb_data; simpl.
  - rewrite Hnone. reflexivity.
  - destruct (pdb_step_of which pdb_data l); [apply IH | reflexivity].
Qed.

Lemma index_stops_at_malformed_line_witness :
  parse_pdb_file_of TestGeneral
    ([Sample.atom_H1'] ++ L "ATOM" :: [Sample.atom_H2'1])
  = parse_pdb_file_of TestGeneral [Sample.atom_H1'].
Proof.
  apply (index_stops_at_malformed_line TestGeneral); [reflexivity|].
  left. reflexivity.
Defined.

Lemma last_writer_from_line (which : script) (lines : list str) key v :
  Index.last_writer (pdb_step_of which) lines key = Some v ->
  exists line written,
    In line lines /\ pdb_step_of which ∅ line = Some written /\
    written !! key = Some v.
Proof.
  induction lines as [|line lines IH]; simpl; [discriminate|].
  destruct (pdb_step_of which ∅ line) as [written|] eqn:E; [|discriminate].
  destruct (Index.last_writer (pdb_step_of which) lines key) as [v'|] eqn:El.
  - intros [= ->]. destruct (IH eq_refl) as (l & w & Hin & Hw & Hl).
    exists l, w. auto.
  - intros H. exists line, written. auto.
Qed.

(** X3. Every entry of the index was written by a coordinate line of the
    file: its value is the serial of that line, its residue the residue of
    that line, and its name one of the names under which the script writes
    the atom name of that line. *)
Theorem index_entries_come_from_lines :
  forall (which : script) (lines : list str) (resid atom_index : Z)
         (name : str),
    parse_pdb_file_of which lines !! (resid, name) = Some atom_index ->
    exists line atom_name,
      In line lines /\
      atom_fields line = Some (atom_index, atom_name, resid) /\
      In name (written_names which atom_name).
Proof.
  intros which lines resid atom_index name H.
  unfold parse_pdb_file_of in H.
  rewrite (parse_pdb_file_last_writer _ (pdb_step_of_writes which)) in H.
  apply last_writer_from_line in H as (line & written & Hin & Hw & Hl).
  rewrite (pdb_step_of_lookup _ _ _ _ _ Hw) in Hl.
  destruct (atom_fields line) as [[[i n] r]|] eqn:Ef; [|discriminate].
  case_decide as Hd; [|discriminate]. destruct Hd as [-> Hn].
  injection Hl as ->. exists line, n.
  split; [exact Hin|]. split; [exact Ef|]. apply list_elem_of_In, Hn.
Qed.

Lemma index_entries_come_from_lines_witness :
  exists line atom_name,
    In line [Sample.atom_H1'; Sample.atom_H2'1] /\
    atom_fields line = Some (2, atom_name, 5) /\
    In (L "H'") (written_names TestGeneral atom_name).
Proof.
  apply (index_entries_come_from_lines TestGeneral
           [Sample.atom_H1'; Sample.atom_H2'1] 5 2 (L "H'")).
  vm_compute. reflexivity.
Defined.

Lemma last_writer_app (which : script) (before rest : list str) key :
  Forall (fun line => is_Some (pdb_step_of which ∅ line)) before ->
  Index.last_writer (pdb_step_of which) (before ++ rest) key =
  match Index.last_writer (pdb_step_of which) rest key with
  | Some v => Some v
  | None => Index.last_writer (pdb_step_of which) before key
  end.
Proof.
  induction before as [|line before IH]; intros Hok; simpl.
  - destruct (Index.last_writer _ rest key); reflexivity.
  - inversion Hok as [|? ? [written Hw] Hbefore]; subst.
    rewrite Hw, (IH Hbefore).
    destruct (Index.last_writer _ rest key); reflexivity.
Qed.

Lemma atom_fields_step (which : script) (line : str) atom_index atom_name resid :
  atom_fields line = Some (atom_index, atom_name, resid) ->
  exists written,
    pdb_step_of which ∅ line = Some written /\
    forall name, In name (written_names which atom_name) ->
                 written !! (resid, name) = Some atom_index.
Proof.
  intros Hf.
  assert (Hatom : is_atom_line line = true).
  { unfold atom_fields in Hf. destruct (is_atom_line line); [reflexivity|].
    discriminate. }
  pose proof (pdb_step_of_empty which line) as Hstep.
  rewrite Hatom, Hf in Hstep.
  eexists. split; [exact Hstep|].
  intros name Hin.
  rewrite (pdb_step_of_lookup _ _ _ resid name Hstep), Hf.
  rewrite decide_True; [reflexivity|].
  split; [reflexivity | apply list_elem_of_In, Hin].
Qed.

(** X4. A coordinate line that is read stays in the index: when no line
    before it ends the reading, every name under which the script writes
    its atom is a key of the final index for its residue, and holds the
    serial of the line itself when the line is the last of the file. *)
Theorem index_keeps_every_line :
  forall (which : script) (before after : list str) (line : str)
         (atom_index resid : Z) (atom_name name : str),
    Forall (fun l => is_Some (pdb_step_of which ∅ l)) before ->
    atom_fields line = Some (atom_index, atom_name, resid) ->
    In name (written_names which atom_name) ->
    is_Some (parse_pdb_file_of which (before ++ line :: after)
               !! (resid, name)) /\
    parse_pdb_file_of which (before ++ [line]) !! (resid, name)
    = Some atom_index.
Proof.
  intros which before after line atom_index resid atom_name name
         Hbefore Hf Hin.
  destruct (atom_fields_step which _ _ _ _ Hf) as (written & Hstep & Hw).
  specialize (Hw name Hin).
  unfold parse_pdb_file_of.
  rewrite !(parse_pdb_file_last_writer _ (pdb_step_of_writes which)).
  rewrite !(last_writer_app _ _ _ _ Hbefore). simpl. rewrite Hstep, Hw.
  split; [|reflexivity].
  destruct (Index.last_writer _ after _); eauto.
Qed.

Lemma index_keeps_every_line_witness :
  is_Some (parse_pdb_file_of TestGeneral
             ([Sample.atom_H1'] ++ Sample.atom_H5'1 :: [Sample.atom_H2'1])
             !! (5, L "H5'*")) /\
  parse_pdb_file_of TestGeneral ([Sample.atom_H1'] ++ [Sample.atom_H5'1])
    !! (5, L "H5'*") = Some 1.
Proof.
  apply (index_keeps_every_line TestGeneral [Sample.atom_H1'] [Sample.atom_H2'1]
           Sample.atom_H5'1 1 5 (L "H5'1") (L "H5'*")).
  - constructor; [|constructor].
    destruct (atom_fields_step TestGeneral Sample.atom_H1' 1 (L "H1'") 5
                eq_refl) as (written & Hw & _).
    exists written. exact Hw.
  - reflexivity.
  - vm_compute. auto.
Defined.

Lemma hd_error_filter (f : str -> bool) (lines : list str) (line : str) :
  hd_error (List.filter f lines) = Some line -> f line = true.
Proof.
  induction lines as [|l lines IH]; simpl; [discriminate|].
  destruct (f l) eqn:E; [|exact IH]. simpl. intros [= <-]. exact E.
Qed.

Lemma pdb_loop_keeps (which : script) (lines : list str) pdb_data key v :
  pdb_data !! key = Some v ->
  is_Some (Loops.pdb_loop (pdb_step_of which) pdb_data lines !! key).
Proof.
  intros H.
  rewrite (pdb_loop_last_writer _ (pdb_step_of_writes which)), H.
  destruct (Index.last_writer _ lines key); eauto.
Qed.

(** X5. The index is empty, and the run is given up for want of PDB
    data, exactly when the file has no coordinate line or its first
    coordinate line has a serial or residue number that does not
    convert. *)
Theorem index_empty_iff :
  forall (which : script) (lines : list str),
    parse_pdb_file_of which lines = ∅ <->
    (forall line, hd_error (List.filter is_atom_line lines) = Some line ->
                  atom_fields line = None).
Proof.
  intros which lines. rewrite <- index_ignores_other_lines.
  pose proof (hd_error_filter is_atom_line lines) as Hhd.
  destruct (List.filter is_atom_line lines) as [|line rest]; simpl.
  - split; [intros _ l H; discriminate H | reflexivity].
  - specialize (Hhd line eq_refl).
    unfold parse_pdb_file_of, Loops.parse_pdb_file. cbn [Loops.pdb_loop].
    rewrite pdb_step_of_empty, Hhd.
    destruct (atom_fields line) as [[[i n] r]|] eqn:Ef.
    + split.
      * intros Hempty. exfalso.
        assert (Hkey : exists name, In name (written_names which n))
          by (destruct which; simpl; eauto).
        destruct Hkey as [name Hname].
        destruct (atom_fields_step which _ _ _ _ Ef) as (w & Hstep & Hw).
        rewrite pdb_step_of_empty, Hhd, Ef in Hstep. injection Hstep as <-.
        destruct (pdb_loop_keeps which rest _ _ _ (Hw name Hname)) as [v Hv].
        rewrite Hempty, lookup_empty in Hv. discriminate.
      * intros H. specialize (H line eq_refl). congruence.
    + split; [intros _ l [= <-]; exact Ef | reflexivity].
Qed.

(** * Further properties of linking *)

Lemma general_idempotent_outside (x : str) :
  exceptional TestGeneral x = false ->
  General.convert_atom_name (General.convert_atom_name x)
  = General.convert_atom_name x.
Proof.
  intros Hex. rewrite <- exceptional_strip in Hex.
  rewrite <- (general_convert_strip x).
  apply general_idempotent_clean; [apply clean_strip_chars | exact Hex].
Qed.

(** X6. Reading a coordinate line and resolving a reference to it agree:
    after a line with serial [atom_index], residue [resid] and trimmed
    name [atom_name] is read into any index, a reference in that residue
    whose stored name is the converted [atom_name] resolves to
    [atom_index]; in test_general.py provided [atom_name] is none of the
    exceptional names, on which the linker converts once more. *)
Theorem line_then_reference_resolves :
  forall (which : script) (pdb_data : gmap (Z * str) Z) (line : str)
         (atom_index resid : Z) (atom_name : str),
    atom_fields line = Some (atom_index, atom_name, resid) ->
    (which = TestGeneral -> exceptional which atom_name = false) ->
    exists pdb_data',
      pdb_step_of which pdb_data line = Some pdb_data' /\
      resolve_of which pdb_data' resid (convert_atom_name_of which atom_name)
      = Some atom_index.
Proof.
  intros which pdb_data line atom_index resid atom_name Hf Hex.
  destruct (atom_fields_step which _ _ _ _ Hf) as (written & Hstep & Hw).
  exists (written ∪ pdb_data). split.
  - rewrite pdb_step_of_writes, Hstep. reflexivity.
  - destruct which; cbn [resolve_of convert_atom_name_of].
    + unfold Mapper.resolve. apply lookup_union_Some_l, Hw. simpl. auto.
    + unfold General.resolve.
      rewrite (general_idempotent_outside _ (Hex eq_refl)).
      rewrite (lookup_union_Some_l _ _ _ atom_index); [reflexivity|].
      apply Hw. simpl. auto.
Qed.

Lemma line_then_reference_resolves_witness :
  exists pdb_data',
    pdb_step_of TestGeneral ∅ Sample.atom_H2'1 = Some pdb_data' /\
    resolve_of TestGeneral pdb_data' 5
      (convert_atom_name_of TestGeneral (L "H2'1")) = Some 2.
Proof.
  apply (line_then_reference_resolves TestGeneral ∅ Sample.atom_H2'1 2 5
           (L "H2'1")).
  - reflexivity.
  - intros _. reflexivity.
Defined.

Lemma general_double_primed (b : str) :
  head_ok b = true ->
  Py.rstrip_chars (L "123'") b = b ->
  b <> L "H5" ->
  General.convert_atom_name (b ++ L "''") = b ++ L "'".
Proof.
  intros Hhead Hbase Hne.
  unfold L in *. cbn [list_ascii_of_string] in *.
  change (b ++ ["'"%char; "'"%char]) with (b ++ ["'"%char] ++ ["'"%char]).
  rewrite app_assoc.
  assert (Hclean : clean ((b ++ ["'"%char]) ++ ["'"%char]) = true).
  { unfold clean. rewrite head_ok_rev_snoc. rewrite <- app_assoc.
    destruct b; [reflexivity|]. simpl in *. rewrite Hhead. reflexivity. }
  unfold General.convert_atom_name.
  rewrite (strip_chars_clean _ Hclean). cbv zeta. snoc_norm.
  rewrite !rstrip_chars_snoc. ground_bools. rewrite Hbase.
  destruct (Py.startswith _ _); [|reflexivity].
  destruct (Py.eqb _ ["H"%char; "5"%char; "'"%char]) eqn:E1.
  { apply py_eqb_eq in E1. apply (f_equal (@rev ascii)) in E1.
    rewrite !rev_app_distr in E1. simpl in E1. discriminate E1. }
  destruct (Py.eqb _ ["H"%char; "5"%char; "'"%char; "'"%char]) eqn:E2;
    [|reflexivity].
  apply py_eqb_eq in E2. exfalso. apply Hne.
  rewrite <- app_assoc in E2.
  change ["H"%char; "5"%char; "'"%char; "'"%char]
    with (["H"%char; "5"%char] ++ ["'"%char] ++ ["'"%char]) in E2.
  apply app_inv_tail in E2. exact E2.
Qed.

(** X7. In test_general.py the linker converts the stored name once
    more, and the conversion takes a doubly primed name to the singly
    primed one: a reference whose stored name is [b''] is given the index
    that the key [b'] holds, the index of the other proton of the pair,
    whenever the index has that key.  Here [b] does not start with a
    double quote, does not end with 1, 2, 3 or an apostrophe, and is not
    H5. *)
Theorem general_double_primed_takes_single_primed :
  forall (pdb_data : gmap (Z * str) Z) (resid atom_index : Z) (b : str),
    head_ok b = true ->
    Py.rstrip_chars (L "123'") b = b ->
    b <> L "H5" ->
    pdb_data !! (resid, b ++ L "'") = Some atom_index ->
    General.resolve pdb_data resid (b ++ L "''") = Some atom_index.
Proof.
  intros pdb_data resid atom_index b Hhead Hbase Hne Hkey.
  unfold General.resolve.
  rewrite (general_double_primed b Hhead Hbase Hne), Hkey. reflexivity.
Qed.

Lemma general_double_primed_takes_single_primed_witness :
  General.link_mr_to_pdb
    (General.parse_mr_file [L "assign (resid 5 and name H2'2) 3.4"])
    (General.parse_pdb_file
       [Sample.atom_H2'1;
        L "ATOM      3 H2'2  DC A   5      12.000  10.000  10.000"])
  = Some ([LinkedData [L "2"] [L "H''"] [L "3.4"]], ∅) /\
  General.resolve
    (General.parse_pdb_file
       [Sample.atom_H2'1;
        L "ATOM      3 H2'2  DC A   5      12.000  10.000  10.000"])
    5 (L "H" ++ L "''") = Some 2.
Proof.
  split; [vm_compute; reflexivity|].
  apply general_double_primed_takes_single_primed.
  - reflexivity.
  - reflexivity.
  - discriminate.
  - vm_compute. reflexivity.
Defined.

(** * Further properties of the MR parser *)

(** What the state of the loop holds, block structure forgotten: the
    events of the items, then the lines of the pending block. *)
Lemma flush_events (st : mr_state) :
  Trace.flatten (mr_data (MrFile.flush st))
  ++ map Trace.HeaderLine (header_block (MrFile.flush st))
  = Trace.flatten (mr_data st) ++ map Trace.HeaderLine (header_block st).
Proof.
  unfold MrFile.flush. destruct (header_block st) as [|l h] eqn:E.
  - rewrite E. reflexivity.
  - cbn [mr_data header_block]. unfold Trace.flatten.
    rewrite flat_map_app. simpl. rewrite !app_nil_r. reflexivity.
Qed.

Lemma step_events (convert : str -> str) (st : mr_state) (line : str) :
  Trace.flatten (mr_data (MrFile.step convert st line))
  ++ map Trace.HeaderLine (header_block (MrFile.step convert st line))
  = (Trace.flatten (mr_data st) ++ map Trace.HeaderLine (header_block st))
    ++ match Trace.classify convert line with
       | Some e => [e]
       | None => []
       end.
Proof.
  unfold MrFile.step, Trace.classify. cbv zeta.
  destruct (Py.startswith (Py.strip line) (L "!")).
  - destruct (_ && _); cbn [mr_data header_block]; unfold Trace.flatten;
      rewrite ?flat_map_app; simpl;
      rewrite ?List.map_app, ?app_nil_r, <- ?app_assoc; reflexivity.
  - destruct (Py.startswith (Py.strip line) (L "assign")).
    + pose proof (flush_events st) as HF.
      assert (header_block (MrFile.flush st) = []) as Hnil.
      { unfold MrFile.flush. destruct (header_block st) eqn:E; [exact E|].
        reflexivity. }
      rewrite Hnil in HF. simpl in HF. rewrite app_nil_r in HF.
      cbn [mr_data header_block]. rewrite Hnil.
      unfold Trace.flatten in *. rewrite flat_map_app, HF. simpl.
      rewrite !app_nil_r. reflexivity.
    + rewrite app_nil_r. apply flush_events.
Qed.

Lemma loop_events (convert : str -> str) (lines : list str) :
  forall st,
    Trace.flatten (mr_data (MrFile.loop convert st lines))
    ++ map Trace.HeaderLine (header_block (MrFile.loop convert st lines))
    = (Trace.flatten (mr_data st) ++ map Trace.HeaderLine (header_block st))
      ++ omap (Trace.classify convert) lines.
Proof.
  unfold MrFile.loop.
  induction lines as [|line lines IH]; intros st; simpl.
  - rewrite app_nil_r. reflexivity.
  - rewrite IH, step_events, <- app_assoc. f_equal.
    destruct (Trace.classify convert line); reflexivity.
Qed.

Lemma parse_mr_file_events (convert : str -> str) (lines : list str) :
  Trace.flatten (MrFile.parse_mr_file convert lines)
  = omap (Trace.classify convert) lines.
Proof.
  unfold MrFile.parse_mr_file.
  set (st := MrFile.loop convert _ lines).
  pose proof (flush_events st) as H.
  assert (header_block (MrFile.flush st) = []) as Hnil.
  { unfold MrFile.flush. destruct (header_block st) eqn:E; [exact E|].
    reflexivity. }
  rewrite Hnil, app_nil_r in H. rewrite H. unfold st.
  rewrite loop_events. reflexivity.
Qed.

(** X8. The parser loses, repeats and reorders nothing: the header lines
    of its blocks and its data items, read in order, are the lines of the
    file that, trimmed, start with the delimiter or with the keyword, each
    header line trimmed and each data line with its references and
    bounds; every other line leaves no trace. *)
Theorem parser_keeps_every_line :
  forall (which : script) (lines : list str),
    Trace.flatten (parse_mr_file_of which lines)
    = omap (Trace.classify (convert_atom_name_of which)) lines.
Proof. intros which lines. apply parse_mr_file_events. Qed.

Lemma forallb_rev_eq {A} (f : A -> bool) (l : list A) :
  forallb f (rev l) = forallb f l.
Proof.
  induction l as [|x l IH]; [reflexivity|].
  simpl. rewrite forallb_app, IH. simpl. rewrite andb_true_r. apply andb_comm.
Qed.

Lemma block_ok_pending (h : list str) :
  h <> [] -> forallb Trace.not_bare h = true -> Trace.block_ok h = true.
Proof.
  intros Hne Hall. unfold Trace.block_ok.
  rewrite <- forallb_rev_eq in Hall.
  destruct (rev h) as [|x before] eqn:E.
  - apply (f_equal (@rev str)) in E. rewrite rev_involutive in E. contradiction.
  - simpl in Hall. apply andb_true_iff in Hall. tauto.
Qed.

Lemma block_ok_closed (h : list str) (line : str) :
  forallb Trace.not_bare h = true -> Trace.block_ok (h ++ [line]) = true.
Proof.
  intros Hall. unfold Trace.block_ok. rewrite rev_app_distr. simpl.
  rewrite forallb_rev_eq. exact Hall.
Qed.

Lemma step_blocks (convert : str -> str) (st : mr_state) (line : str) :
  Forall (fun item => Trace.item_ok item = true) (mr_data st) /\
  forallb Trace.not_bare (header_block st) = true ->
  Forall (fun item => Trace.item_ok item = true)
         (mr_data (MrFile.step convert st line)) /\
  forallb Trace.not_bare (header_block (MrFile.step convert st line)) = true.
Proof.
  intros [Hdata Hpending].
  assert (Hflush :
            Forall (fun item => Trace.item_ok item = true)
                   (mr_data (MrFile.flush st)) /\
            forallb Trace.not_bare (header_block (MrFile.flush st)) = true).
  { unfold MrFile.flush. destruct (header_block st) as [|l h] eqn:E.
    - rewrite E. auto.
    - cbn [mr_data header_block]. split; [|reflexivity].
      apply Forall_app. split; [exact Hdata|]. constructor; [|constructor].
      apply block_ok_pending; [discriminate | exact Hpending]. }
  unfold MrFile.step. cbv zeta.
  destruct (Py.startswith (Py.strip line) (L "!")).
  - destruct (Py.eqb (Py.strip line) (L "!")) eqn:Ebare.
    + assert ((if negb (in_header st) && true then true else in_header st)
              && true = true) as ->
        by (destruct (in_header st); reflexivity).
      cbn [mr_data header_block]. split; [|reflexivity].
      apply Forall_app. split; [exact Hdata|]. constructor; [|constructor].
      apply block_ok_closed, Hpending.
    + rewrite andb_false_r. cbn [mr_data header_block].
      split; [exact Hdata|].
      rewrite forallb_app, Hpending. simpl. unfold Trace.not_bare.
      rewrite Ebare. reflexivity.
  - destruct (Py.startswith (Py.strip line) (L "assign")); [|exact Hflush].
    destruct Hflush as [Hd Hp]. cbn [mr_data header_block].
    split; [|exact Hp].
    apply Forall_app. split; [exact Hd|]. repeat constructor.
Qed.

Lemma parse_mr_file_blocks (convert : str -> str) (lines : list str) :
  Forall (fun item => Trace.item_ok item = true)
         (MrFile.parse_mr_file convert lines).
Proof.
  unfold MrFile.parse_mr_file, MrFile.loop.
  assert (H : forall st,
             Forall (fun item => Trace.item_ok item = true) (mr_data st) /\
             forallb Trace.not_bare (header_block st) = true ->
             Forall (fun item => Trace.item_ok item = true)
                    (mr_data (fold_left (MrFile.step convert) lines st)) /\
             forallb Trace.not_bare
               (header_block (fold_left (MrFile.step convert) lines st))
             = true).
  { induction lines as [|line lines IH]; intros st Hst; simpl; [exact Hst|].
    apply IH, step_blocks, Hst. }
  destruct (H (MrState [] [] false)) as [Hd Hp]; [split; [constructor|reflexivity]|].
  unfold MrFile.flush.
  destruct (header_block _) as [|l h] eqn:E; cbn [mr_data]; [exact Hd|].
  apply Forall_app. split; [exact Hd|]. constructor; [|constructor].
  apply block_ok_pending; [discriminate | exact Hp].
Qed.

(** X9. No header block of the parser is empty, and a bare delimiter
    line stands in a block only as its last line: every bare delimiter
    closes the block it is appended to. *)
Theorem header_blocks_end_at_bare_delimiter :
  forall (which : script) (lines : list str) (h : list str),
    In (MrHeader h) (parse_mr_file_of which lines) ->
    exists before last,
      h = before ++ [last] /\
      Forall (fun line => line <> L "!") before.
Proof.
  intros which lines h Hin.
  pose proof (parse_mr_file_blocks (convert_atom_name_of which) lines) as H.
  rewrite List.Forall_forall in H. specialize (H _ Hin).
  cbn [Trace.item_ok] in H. unfold Trace.block_ok in H.
  destruct (rev h) as [|last before] eqn:E; [discriminate|].
  exists (rev before), last. split.
  - apply (f_equal (@rev str)) in E. rewrite rev_involutive in E. exact E.
  - rewrite <- forallb_rev_eq in H. apply List.Forall_forall. intros l Hl.
    rewrite forallb_forall in H. specialize (H l Hl).
    apply negb_true_iff, py_eqb_neq in H. exact H.
Qed.

Lemma header_blocks_end_at_bare_delimiter_witness :
  exists before last,
    [L "! a"; L "!"] = before ++ [last] /\
    Forall (fun line => line <> L "!") before.
Proof.
  apply (header_blocks_end_at_bare_delimiter TestGeneral
           [L "!"; L "! a"; L "!"; L "! b"]).
  vm_compute. auto.
Defined.

(** * What the parser stores *)

Lemma forallb_sub (f : ascii -> bool) (a b : str) :
  (forall x, In x a -> In x b) -> forallb f b = true -> forallb f a = true.
Proof.
  intros Hsub Hb. rewrite forallb_forall in *. auto.
Qed.

Lemma in_drop_while (g : ascii -> bool) (s : str) (x : ascii) :
  In x (Py.drop_while g s) -> In x s.
Proof.
  destruct (drop_while_suffix g s) as [p Hp]. intros H.
  rewrite Hp. apply in_or_app. right. exact H.
Qed.

Lemma in_rstrip_chars (chars s : str) (x : ascii) :
  In x (Py.rstrip_chars chars s) -> In x s.
Proof.
  unfold Py.rstrip_chars, Py.lstrip_chars. intros H.
  apply in_rev in H. apply in_drop_while in H. apply in_rev. exact H.
Qed.

Lemma in_strip_chars (chars s : str) (x : ascii) :
  In x (Py.strip_chars chars s) -> In x s.
Proof.
  unfold Py.strip_chars. intros H. apply in_rstrip_chars in H.
  unfold Py.lstrip_chars in H. apply in_drop_while in H. exact H.
Qed.

Lemma in_drop_last (s : str) (x : ascii) : In x (Py.drop_last s) -> In x s.
Proof.
  unfold Py.drop_last. destruct (snoc_cases s) as [-> | (t & c & ->)].
  - auto.
  - rewrite removelast_last. intros H. apply in_or_app. auto.
Qed.

Lemma endswith_char_in (s : str) (c : ascii) :
  Py.endswith s [c] = true -> In c s.
Proof.
  destruct (snoc_cases s) as [-> | (t & d & ->)]; [discriminate|].
  rewrite endswith_snoc1. intros H. apply ascii_eqb_eq in H. subst d.
  apply in_or_app. right. left. reflexivity.
Qed.

(** The normaliser of either script builds its result from characters of
    the name and apostrophes, H and 5: a name over the class of the
    pattern stays over that class. *)
Lemma convert_name_chars (which : script) (s : str) :
  forallb Re.name_char s = true ->
  forallb Re.name_char (convert_atom_name_of which s) = true.
Proof.
  intros Hs.
  assert (Hstrip : forallb Re.name_char (Py.strip_chars [Py.dquote] s) = true)
    by (eapply forallb_sub; [apply in_strip_chars | exact Hs]).
  set (s' := Py.strip_chars [Py.dquote] s) in *.
  assert (Hlast : forallb Re.name_char (Py.drop_last s') = true)
    by (eapply forallb_sub; [apply in_drop_last | exact Hstrip]).
  assert (Hbase : forallb Re.name_char (Py.rstrip_chars (L "123'") s') = true)
    by (eapply forallb_sub; [apply in_rstrip_chars | exact Hstrip]).
  assert (Hhash : Py.endswith s' (L "#") = false).
  { destruct (Py.endswith s' (L "#")) eqn:E; [|reflexivity].
    apply endswith_char_in in E. rewrite forallb_forall in Hstrip.
    specialize (Hstrip _ E). discriminate Hstrip. }
  destruct which; cbn [convert_atom_name_of];
    unfold Mapper.convert_atom_name, General.convert_atom_name;
    fold s'; cbv zeta; rewrite ?Hhash;
    repeat match goal with
           | |- context [if ?b then _ else _] => destruct b
           end;
    rewrite ?forallb_app, ?Hlast, ?Hbase, ?Hstrip; reflexivity.
Qed.

Lemma in_flatten (mr_data : list mr_item) parts float_values :
  In (MrData parts float_values) mr_data ->
  In (Trace.DataLine parts float_values) (Trace.flatten mr_data).
Proof.
  intros H. unfold Trace.flatten. apply in_flat_map.
  exists (MrData parts float_values). split; [exact H | left; reflexivity].
Qed.

(** A data item of the parser comes from one line of the file. *)
Lemma parsed_data_from_line (which : script) (lines : list str)
    parts float_values :
  In (MrData parts float_values) (parse_mr_file_of which lines) ->
  exists line,
    In line lines /\
    parts = map (fun '(resid, atom_name) =>
                   (resid,
                    convert_atom_name_of which
                      (Py.strip_chars [Py.dquote] atom_name)))
                (Re.findall Re.match_atom_ref (Py.strip line)) /\
    float_values = Re.findall Re.match_float (Py.strip line).
Proof.
  intros H. apply in_flatten in H.
  unfold parse_mr_file_of in H. rewrite parse_mr_file_events in H.
  apply list_elem_of_In, list_elem_of_omap in H as (line & Hin & Hc).
  exists line. split; [apply list_elem_of_In, Hin|].
  unfold Trace.classify in Hc. cbv zeta in Hc.
  destruct (Py.startswith (Py.strip line) (L "!")); [discriminate|].
  destruct (Py.startswith (Py.strip line) (L "assign")); [|discriminate].
  injection Hc as <- <-. auto.
Qed.

Lemma replace_char_absent (a b : ascii) (s : str) :
  Py.mem a s = false -> Py.replace_char a b s = s.
Proof.
  unfold Py.replace_char, Py.mem.
  induction s as [|c s IH]; simpl; [reflexivity|].
  intros H. apply orb_false_iff in H as [Hc Hs].
  rewrite (IH Hs). unfold Py.ascii_eqb in *. rewrite Ascii.eqb_sym, Hc.
  reflexivity.
Qed.

Lemma mem_not_name_char (a : ascii) (s : str) :
  Re.name_char a = false -> forallb Re.name_char s = true ->
  Py.mem a s = false.
Proof.
  intros Ha Hs. unfold Py.mem.
  destruct (existsb (Py.ascii_eqb a) s) eqn:E; [|reflexivity].
  apply existsb_exists in E as (c & Hin & Hc).
  apply ascii_eqb_eq in Hc. subst c.
  rewrite forallb_forall in Hs. rewrite (Hs _ Hin) in Ha. discriminate.
Qed.

(** X10. The atom names that the parser stores are made of word
    characters, apostrophes and double quotes only.  No stored name holds
    a wildcard, asterisk or hash: such a reference does not match the
    pattern and is left out of its record, so the replacement of hash by
    asterisk in the linker of test_general.py never changes a stored
    name. *)
Theorem parsed_names_have_no_wildcard :
  forall (which : script) (lines : list str) (parts : list (str * str))
         (float_values : list str) (resid atom_name : str),
    In (MrData parts float_values) (parse_mr_file_of which lines) ->
    In (resid, atom_name) parts ->
    forallb Re.name_char atom_name = true /\
    Py.mem "*"%char atom_name = false /\
    Py.mem "#"%char atom_name = false /\
    Py.replace_char "#"%char "*"%char atom_name = atom_name.
Proof.
  intros which lines parts float_values resid atom_name Hitem Hpart.
  apply parsed_data_from_line in Hitem as (line & _ & -> & _).
  apply in_map_iff in Hpart as ([r n] & [= <- <-] & Hin).
  assert (Hn : forallb Re.name_char n = true).
  { pose proof (findall_from_Forall
                  (fun p : str * str => forallb Re.name_char p.2 = true)
                  Re.match_atom_ref) as HF.
    assert (Hall : Forall (fun p : str * str => forallb Re.name_char p.2 = true)
                          (Re.findall Re.match_atom_ref (Py.strip line))).
    { apply HF. intros s [r' n'] rest Hm.
      apply match_atom_ref_groups in Hm. tauto. }
    rewrite List.Forall_forall in Hall. apply (Hall _ Hin). }
  assert (Hc : forallb Re.name_char
                 (convert_atom_name_of which (Py.strip_chars [Py.dquote] n))
               = true).
  { apply convert_name_chars.
    eapply forallb_sub; [apply in_strip_chars | exact Hn]. }
  split; [exact Hc|].
  assert (Hhash : Py.mem "#"%char
                    (convert_atom_name_of which (Py.strip_chars [Py.dquote] n))
                  = false)
    by (apply mem_not_name_char; [reflexivity | exact Hc]).
  split; [apply mem_not_name_char; [reflexivity | exact Hc]|].
  split; [exact Hhash|]. apply replace_char_absent, Hhash.
Qed.

Lemma parsed_names_have_no_wildcard_witness :
  forallb Re.name_char (L "H5''") = true /\
  Py.mem "*"%char (L "H5''") = false /\
  Py.mem "#"%char (L "H5''") = false /\
  Py.replace_char "#"%char "*"%char (L "H5''") = L "H5''".
Proof.
  apply (parsed_names_have_no_wildcard TestGeneral [Sample.assign_H5'1]
           [(L "5", L "H5'"); (L "5", L "H5''")]
           [L "3.4"; L "0.5"; L "0.5"] (L "5") (L "H5''")).
  - vm_compute. auto.
  - right. left. reflexivity.
Defined.

(** * Formatting what was parsed and linked *)

Lemma span_app_stop (f : ascii -> bool) (a r : str) :
  forallb f a = true ->
  match r with [] => True | c :: _ => f c = false end ->
  Re.span f (a ++ r) = (a, r).
Proof.
  intros Ha Hr. induction a as [|c a IH]; simpl.
  - destruct r as [|c r]; [reflexivity|]. simpl. rewrite Hr. reflexivity.
  - simpl in Ha. apply andb_true_iff in Ha as [Hc Ha].
    rewrite Hc, (IH Ha). reflexivity.
Qed.

Lemma many1_app_stop (f : ascii -> bool) (a r : str) :
  a <> [] -> forallb f a = true ->
  match r with [] => True | c :: _ => f c = false end ->
  Re.many1 f (a ++ r) = Some (a, r).
Proof.
  intros Hne Ha Hr. unfold Re.many1. rewrite (span_app_stop f a r Ha Hr).
  destruct a; [contradiction | reflexivity].
Qed.

(** Every text that the pattern of the bounds matches is a literal that
    [float] takes. *)
Lemma match_float_accepted (s x rest : str) :
  Re.match_float s = Some (x, rest) -> is_Some (format_bound x).
Proof.
  unfold Re.match_float. intros H.
  destruct (Re.many1 Py.isdecimal s) as [[a s1]|] eqn:Ea;
    cbn [mbind option_bind] in H; [|discriminate H].
  destruct (Re.lit (L ".") s1) as [s2|] eqn:El;
    cbn [mbind option_bind] in H; [|discriminate H].
  destruct (Re.many1 Py.isdecimal s2) as [[b s3]|] eqn:Eb;
    cbn [mbind option_bind] in H; [|discriminate H].
  injection H as <- <-.
  apply many1_all in Ea as (Hane & Ha & _).
  apply many1_all in Eb as (Hbne & Hb & _).
  unfold format_bound, PyFloat.of_literal.
  rewrite (many1_app_stop Py.isdecimal a ("."%char :: b) Hane Ha eq_refl).
  cbn [mbind option_bind].
  change (Re.lit (L ".") ("."%char :: b)) with (Some b).
  cbn [mbind option_bind].
  rewrite <- (app_nil_r b) at 1.
  rewrite (many1_app_stop Py.isdecimal b [] Hbne Hb I).
  cbn [mbind option_bind]. eauto.
Qed.

Lemma parsed_bounds_accepted (which : script) (lines : list str)
    parts float_values :
  In (MrData parts float_values) (parse_mr_file_of which lines) ->
  Forall (is_Some ∘ format_bound) float_values.
Proof.
  intros H. apply parsed_data_from_line in H as (line & _ & _ & ->).
  apply findall_from_Forall. intros s x rest Hm.
  apply match_float_accepted in Hm. exact Hm.
Qed.

Lemma format_output_line_returns indices atom_names float_values include :
  Forall (is_Some ∘ format_bound) float_values ->
  is_Some (format_output_line indices atom_names float_values include).
Proof.
  intros H. apply mapM_is_Some_2 in H as [bounds Hb].
  unfold format_output_line. rewrite Hb. cbn [mbind option_bind]. eauto.
Qed.

Lemma Forall2_in_r {A B} (R : A -> B -> Prop) (l : list A) (k : list B) y :
  Forall2 R l k -> In y k -> exists x, In x l /\ R x y.
Proof.
  induction 1 as [|x y' l k HR _ IH]; intros Hin; [destruct Hin|].
  destruct Hin as [<- | Hin].
  - exists x. split; [left; reflexivity | exact HR].
  - destruct (IH Hin) as (x' & Hx & HR'). exists x'. split; [right|]; auto.
Qed.

Lemma references_flatten (mr_data : list mr_item) :
  Link.references mr_data
  = flat_map Trace.event_references (Trace.flatten mr_data).
Proof.
  unfold Link.references, Trace.flatten.
  induction mr_data as [|item items IH]; [reflexivity|].
  cbn [flat_map]. rewrite flat_map_app, IH. f_equal.
  destruct item as [h | parts float_values].
  - induction h as [|line h IHh]; [reflexivity | exact IHh].
  - symmetry. apply app_nil_r.
Qed.

(** The references of the parsed records are those of the data lines. *)
Lemma parsed_references (which : script) (lines : list str) :
  Link.references (parse_mr_file_of which lines)
  = flat_map Trace.event_references
             (omap (Trace.classify (convert_atom_name_of which)) lines).
Proof.
  rewrite references_flatten. unfold parse_mr_file_of.
  rewrite parse_mr_file_events. reflexivity.
Qed.

(** The references of a file of one line. *)
Lemma one_line_references (which : script) (line : str) :
  Link.references (parse_mr_file_of which [line])
  = if Py.startswith (Py.strip line) (L "!") then []
    else if Py.startswith (Py.strip line) (L "assign") then
      map (fun '(resid, atom_name) =>
             (resid,
              convert_atom_name_of which
                (Py.strip_chars [Py.dquote] atom_name)))
          (Re.findall Re.match_atom_ref (Py.strip line))
    else [].
Proof.
  rewrite parsed_references. cbn [omap list_omap]. unfold Trace.classify.
  destruct (Py.startswith (Py.strip line) (L "!")); [reflexivity|].
  destruct (Py.startswith (Py.strip line) (L "assign")); [|reflexivity].
  cbn [flat_map Trace.event_references]. apply app_nil_r.
Qed.

(** A residue id that [int] refuses makes the linker raise. *)
Lemma link_raises_of_int (which : script) (mr_data : list mr_item)
    (pdb_data : gmap (Z * str) Z) (part : str * str) :
  In part (Link.references mr_data) ->
  Py.int part.1 = None ->
  link_mr_to_pdb_of which mr_data pdb_data = None.
Proof.
  intros Hin Hint.
  destruct (link_mr_to_pdb_of which mr_data pdb_data) as [r|] eqn:E;
    [|reflexivity].
  assert (Hsome : is_Some (link_mr_to_pdb_of which mr_data pdb_data))
    by (rewrite E; eauto).
  apply link_mr_to_pdb_of_returns in Hsome.
  rewrite forallb_forall in Hsome. specialize (Hsome part Hin).
  unfold Link.convertible in Hsome. rewrite Hint in Hsome.
  discriminate Hsome.
Qed.

(** C7, as the claim words it, fails.  The pattern of the parser puts no
    bound on the digits of a residue id: a data line whose id has 4301
    digits is parsed into a record with that id, and neither script links
    that record, the conversion of the id by [int] raising. *)
Lemma link_raises_on_long_residue_id :
  let resid := repeat "1"%char 4301 in
  let line := L "assign (resid " ++ resid ++ L " and name H1) 3.4" in
  Link.references (parse_mr_file_of NmrPdbRestraintMapper [line])
  = [(resid, L "H1")] /\
  Link.references (parse_mr_file_of TestGeneral [line])
  = [(resid, L "H1")] /\
  Py.int resid = None /\
  link_mr_to_pdb_of NmrPdbRestraintMapper
    (parse_mr_file_of NmrPdbRestraintMapper [line])
    (parse_pdb_file_of NmrPdbRestraintMapper [Sample.atom_H5'1]) = None /\
  link_mr_to_pdb_of TestGeneral
    (parse_mr_file_of TestGeneral [line])
    (parse_pdb_file_of TestGeneral [Sample.atom_H5'1]) = None /\
  ~ (forall (which : script) (mr_data : list mr_item)
            (pdb_data : gmap (Z * str) Z),
       exists linked warnings,
         link_mr_to_pdb_of which mr_data pdb_data = Some (linked, warnings) /\
         length linked = length mr_data /\
         Forall2 Link.same_shape mr_data linked).
Proof.
  intros resid line.
  assert (Hrefs : forall which,
             Link.references (parse_mr_file_of which [line])
             = [(resid, L "H1")]).
  { intros which. rewrite one_line_references.
    destruct which; vm_compute; reflexivity. }
  assert (Hint : Py.int resid = None) by (vm_compute; reflexivity).
  assert (Hraise : forall which pdb_data,
             link_mr_to_pdb_of which (parse_mr_file_of which [line]) pdb_data
             = None).
  { intros which pdb_data.
    apply (link_raises_of_int which _ pdb_data (resid, L "H1")); [|exact Hint].
    rewrite Hrefs. left. reflexivity. }
  split; [exact (Hrefs NmrPdbRestraintMapper)|].
  split; [exact (Hrefs TestGeneral)|].
  split; [exact Hint|].
  split; [exact (Hraise NmrPdbRestraintMapper _)|].
  split; [exact (Hraise TestGeneral _)|].
  intros Hclaim.
  destruct (Hclaim NmrPdbRestraintMapper
              (parse_mr_file_of NmrPdbRestraintMapper [line]) ∅)
    as (linked & warnings & H & _).
  rewrite Hraise in H. discriminate H.
Qed.

Lemma digit_value_range (c : ascii) :
  Py.isdecimal c = true -> 0 <= Py.digit_value c <= 9.
Proof.
  unfold Py.isdecimal, Py.in_range, Py.digit_value. intros H.
  apply andb_true_iff in H as [H1 H2].
  apply N.leb_le in H1. apply N.leb_le in H2. lia.
Qed.

(** The value of a literal of [k] characters is below the [k]-th power
    of ten. *)
Lemma digits_value_bound (s : str) :
  forall acc after_digit v,
    0 <= acc ->
    Py.digits_value acc after_digit s = Some v ->
    0 <= v < (acc + 1) * 10 ^ Z.of_nat (length s).
Proof.
  induction s as [|c s IH]; intros acc after_digit v Hacc.
  - cbn [Py.digits_value]. destruct after_digit; [|discriminate].
    intros [= <-]. cbn [length]. rewrite Z.pow_0_r. lia.
  - cbn [Py.digits_value length]. rewrite Nat2Z.inj_succ, Z.pow_succ_r by lia.
    assert (Hpow : 0 < 10 ^ Z.of_nat (length s))
      by (apply Z.pow_pos_nonneg; lia).
    destruct (Py.isdecimal c) eqn:Ec.
    + pose proof (digit_value_range c Ec) as Hd.
      intros H. apply IH in H; [|lia]. nia.
    + destruct (Py.ascii_eqb c "_"%char && after_digit); [|discriminate].
      intros H. apply IH in H; [|lia]. nia.
Qed.

Lemma drop_while_length (f : ascii -> bool) (s : str) :
  (length (Py.drop_while f s) <= length s)%nat.
Proof.
  induction s as [|c s IH]; simpl; [lia|].
  destruct (f c); simpl; lia.
Qed.

Lemma int_digits_bound (s : str) (v : Z) :
  Py.int_digits s = Some v -> 0 <= v < 10 ^ Z.of_nat (length s).
Proof.
  unfold Py.int_digits.
  destruct (Py.max_str_digits <? _); [discriminate|].
  intros H. apply digits_value_bound in H; lia.
Qed.

Lemma int_bound (s : str) (v : Z) :
  Py.int s = Some v -> Z.abs v < 10 ^ Z.of_nat (length s).
Proof.
  unfold Py.int.
  set (body := rev (Py.drop_while Py.int_space
                      (rev (Py.drop_while Py.int_space s)))).
  assert (Hlen : (length body <= length s)%nat).
  { unfold body. rewrite length_rev.
    pose proof (drop_while_length Py.int_space
                  (rev (Py.drop_while Py.int_space s))) as H1.
    rewrite length_rev in H1.
    pose proof (drop_while_length Py.int_space s). lia. }
  assert (Hmono : forall t : str,
             (length t <= length s)%nat ->
             10 ^ Z.of_nat (length t) <= 10 ^ Z.of_nat (length s))
    by (intros t Ht; apply Z.pow_le_mono_r; lia).
  destruct body as [|c s']; [discriminate|]. cbn [length] in Hlen.
  destruct (Py.ascii_eqb c "+"%char);
    [|destruct (Py.ascii_eqb c "-"%char)].
  - intros H. apply int_digits_bound in H.
    assert (Hm := Hmono s'). lia.
  - destruct (Py.int_digits s') as [w|] eqn:E; [|discriminate].
    intros [= <-]. apply int_digits_bound in E.
    assert (Hm := Hmono s'). lia.
  - intros H. apply int_digits_bound in H.
    assert (Hm : 10 ^ Z.of_nat (length (c :: s')) <= 10 ^ Z.of_nat (length s))
      by (apply Hmono; cbn [length]; lia).
    lia.
Qed.

(** Doubling a number in base ten adds one digit at most. *)
Lemma nb_digits_double (d : Decimal.uint) :
  (Decimal.nb_digits (Decimal.Little.double d) <= S (Decimal.nb_digits d))%nat
  /\ (Decimal.nb_digits (Decimal.Little.succ_double d)
      <= S (Decimal.nb_digits d))%nat.
Proof.
  induction d as [|d [IH1 IH2] | d [IH1 IH2] | d [IH1 IH2] | d [IH1 IH2]
                  | d [IH1 IH2] | d [IH1 IH2] | d [IH1 IH2] | d [IH1 IH2]
                  | d [IH1 IH2] | d [IH1 IH2]];
    cbn [Decimal.Little.double Decimal.Little.succ_double Decimal.nb_digits];
    split; lia.
Qed.

(** A number has no more digits in base ten than in base two. *)
Lemma nb_digits_to_little_uint (p : positive) :
  (Decimal.nb_digits (Pos.to_little_uint p) <= Pos.to_nat (Pos.size p))%nat.
Proof.
  induction p as [p IH | p IH |]; cbn [Pos.to_little_uint Pos.size].
  - rewrite Pos2Nat.inj_succ.
    pose proof (proj2 (nb_digits_double (Pos.to_little_uint p))). lia.
  - rewrite Pos2Nat.inj_succ.
    pose proof (proj1 (nb_digits_double (Pos.to_little_uint p))). lia.
  - cbn [Decimal.nb_digits]. lia.
Qed.

Lemma length_string_of_uint (d : Decimal.uint) :
  length (list_ascii_of_string (NilEmpty.string_of_uint d))
  = Decimal.nb_digits d.
Proof.
  induction d; cbn [NilEmpty.string_of_uint list_ascii_of_string length
                    Decimal.nb_digits]; congruence.
Qed.

(** The digits of a number below the [k]-th power of ten. *)
Lemma decimal_length (n k : Z) :
  0 <= k -> Z.abs n < 10 ^ k ->
  Z.of_nat (length (Py.decimal (Z.abs n))) <= Z.max 1 (4 * k).
Proof.
  intros Hk Hn.
  assert (Hpos : forall p : positive,
             Z.pos p < 10 ^ k ->
             Z.of_nat (length (Py.decimal (Z.pos p))) <= 4 * k).
  { intros p Hp. unfold Py.decimal, L.
    cbn [Z.to_int NilZero.string_of_int]. unfold NilZero.string_of_uint.
    assert (Hlen : length (list_ascii_of_string
                             (NilEmpty.string_of_uint (Pos.to_uint p)))
                   = Decimal.nb_digits (Pos.to_little_uint p)).
    { rewrite length_string_of_uint. unfold Pos.to_uint.
      apply DecimalFacts.nb_digits_rev. }
    assert (Hsize : Z.pos (Pos.size p) <= 4 * k).
    { pose proof (Pos.size_le p) as Hle.
      apply Pos2Z.pos_le_pos in Hle.
      rewrite Pos2Z.inj_pow in Hle.
      assert (H16 : 10 ^ k <= 2 ^ (4 * k)).
      { rewrite Z.pow_mul_r by lia. apply Z.pow_le_mono_l. lia. }
      assert (Hlt : 2 ^ Z.pos (Pos.size p) < 2 ^ (4 * k + 1)).
      { rewrite Z.pow_add_r by lia. change (2 ^ 1) with 2. lia. }
      apply Z.pow_lt_mono_r_iff in Hlt; lia. }
    pose proof (nb_digits_to_little_uint p) as Hd.
    destruct (Pos.to_uint p) eqn:E;
      [exfalso; eapply DecimalPos.Unsigned.to_uint_nonnil, E | ..];
      rewrite Hlen; lia. }
  destruct n as [|p|p].
  - change (Z.of_nat (length (Py.decimal (Z.abs 0)))) with 1. lia.
  - change (Z.abs (Z.pos p)) with (Z.pos p) in *.
    specialize (Hpos p Hn). lia.
  - change (Z.abs (Z.neg p)) with (Z.pos p) in *.
    specialize (Hpos p Hn). lia.
Qed.

(** A number read from a field of a few columns can be written back. *)
Lemma int_of_slice_printable (i j : nat) (line : str) (v : Z) :
  4 * Z.of_nat (j - i) <= Py.max_str_digits ->
  1 <= Py.max_str_digits ->
  Py.int (Py.slice i j line) = Some v ->
  is_Some (Py.str_of_int v).
Proof.
  intros Hw H1 H. apply int_bound in H. unfold Py.str_of_int.
  assert (Hlen : (length (Py.slice i j line) <= j - i)%nat)
    by (unfold Py.slice; rewrite length_take; lia).
  apply decimal_length in H; [|lia].
  assert (Hle : (Z.of_nat (length (Py.decimal (Z.abs v)))
                 <=? Py.max_str_digits) = true)
    by (apply Z.leb_le; lia).
  rewrite Hle. eauto.
Qed.

(** [str] takes every value of an index that [parse_pdb_file] built. *)
Lemma parsed_index_printable (which : script) (lines : list str)
    (key : Z * str) (i : Z) :
  parse_pdb_file_of which lines !! key = Some i ->
  is_Some (Py.str_of_int i).
Proof.
  destruct key as [resid name]. intros H.
  unfold parse_pdb_file_of in H.
  rewrite (parse_pdb_file_last_writer _ (pdb_step_of_writes which)) in H.
  apply last_writer_from_line in H as (line & written & _ & Hw & Hl).
  rewrite (pdb_step_of_lookup _ _ _ _ _ Hw) in Hl.
  unfold atom_fields in Hl.
  destruct (is_atom_line line); [|discriminate].
  destruct (Py.int (Py.slice 6 11 line)) as [atom_index|] eqn:Ei;
    cbn [mbind option_bind] in Hl; [|discriminate].
  destruct (Py.int (Py.slice 22 26 line)) as [resid'|];
    cbn [mbind option_bind] in Hl; [|discriminate].
  case_decide; [|discriminate]. injection Hl as <-.
  apply (int_of_slice_printable 6 11 line); [| |exact Ei];
    unfold Py.max_str_digits; simpl; lia.
Qed.

(** Linking the records of an MR file with the index of a PDB file raises
    exactly when a residue id of the MR file is over the limit of
    [int]. *)
Lemma link_of_files_returns (which : script) (mr_lines pdb_lines : list str) :
  is_Some (link_mr_to_pdb_of which (parse_mr_file_of which mr_lines)
             (parse_pdb_file_of which pdb_lines))
  <-> forallb Link.short_id
              (Link.references (parse_mr_file_of which mr_lines)) = true.
Proof.
  apply link_of_parsed_returns. intros key i.
  apply parsed_index_printable.
Qed.

(** X11. On the records of any MR file and the index of any PDB file,
    the linker of either script returns exactly when no residue id
    referenced in the MR file has more than 4300 digits, the only way for
    [int] or [str] to raise there; and [format_output_line] returns a line
    for every data item the linker hands back, in both modes, [float]
    being given literals of the form digits, point, digits only. *)
Theorem parsed_records_link_and_format :
  forall (which : script) (mr_lines pdb_lines : list str),
    let mr_data := parse_mr_file_of which mr_lines in
    let pdb_data := parse_pdb_file_of which pdb_lines in
    (is_Some (link_mr_to_pdb_of which mr_data pdb_data)
     <-> forallb Link.short_id (Link.references mr_data) = true) /\
    (forall linked warnings indices atom_names float_values
            include_atom_names,
       link_mr_to_pdb_of which mr_data pdb_data = Some (linked, warnings) ->
       In (LinkedData indices atom_names float_values) linked ->
       is_Some (format_output_line indices atom_names float_values
                                   include_atom_names)).
Proof.
  intros which mr_lines pdb_lines mr_data pdb_data.
  split; [apply link_of_files_returns|].
  intros linked warnings indices atom_names float_values include H Hin.
  apply link_mr_to_pdb_of_spec in H as (Hall & _ & _).
  destruct (Forall2_in_r _ _ _ _ Hall Hin) as (item & Hitem & Has).
  destruct item as [h | parts fv]; simpl in Has; [contradiction|].
  destruct Has as (_ & _ & ->).
  apply format_output_line_returns.
  eapply parsed_bounds_accepted, Hitem.
Qed.

Lemma parsed_records_link_and_format_witness :
  let long_line :=
    L "assign (resid " ++ repeat "1"%char 4301 ++ L " and name H1) 3.4" in
  is_Some (link_mr_to_pdb_of NmrPdbRestraintMapper
             (parse_mr_file_of NmrPdbRestraintMapper [Sample.assign_H5'1])
             (parse_pdb_file_of NmrPdbRestraintMapper [Sample.atom_H5'1])) /\
  is_Some (link_mr_to_pdb_of TestGeneral
             (parse_mr_file_of TestGeneral [Sample.assign_H5'1])
             (parse_pdb_file_of TestGeneral [Sample.atom_H5'1])) /\
  ~ is_Some (link_mr_to_pdb_of TestGeneral
               (parse_mr_file_of TestGeneral [long_line])
               (parse_pdb_file_of TestGeneral [Sample.atom_H5'1])).
Proof.
  intros long_line. split; [|split].
  - apply (parsed_records_link_and_format NmrPdbRestraintMapper
             [Sample.assign_H5'1] [Sample.atom_H5'1]).
    vm_compute. reflexivity.
  - apply (parsed_records_link_and_format TestGeneral
             [Sample.assign_H5'1] [Sample.atom_H5'1]).
    vm_compute. reflexivity.
  - intros H.
    apply (parsed_records_link_and_format TestGeneral
             [long_line] [Sample.atom_H5'1]) in H.
    rewrite one_line_references in H.
    match type of H with
    | ?b = true =>
        assert (E : b = false) by (vm_compute; reflexivity);
        rewrite E in H
    end.
    discriminate H.
Defined.

(** * The tally of warnings *)

Section Tally.

Variable resolve : gmap (Z * str) Z -> Z -> str -> option Z.
Variable count_warning :
  gmap (str * str) nat -> str * str -> gmap (str * str) nat.
Variable pdb_data : gmap (Z * str) Z.

Hypothesis count_warning_spec : forall warnings key,
  count_warning warnings key
  = <[key := S (default 0%nat (warnings !! key))]> warnings.

Lemma link_parts_positive parts :
  forall indices warnings indices' warnings',
    Loops.link_parts resolve count_warning pdb_data (indices, warnings) parts
    = Some (indices', warnings') ->
    Trace.positive warnings -> Trace.positive warnings'.
Proof.
  induction parts as [|[resid atom_name] parts IH];
    intros indices warnings indices' warnings' H Hpos.
  - simpl in H. injection H as <- <-. exact Hpos.
  - cbn [Loops.link_parts Loops.link_part] in H.
    destruct (Py.int resid) as [n|]; cbn [mbind option_bind] in H;
      [|discriminate H].
    destruct (resolve pdb_data n atom_name) as [i|].
    + destruct (Py.str_of_int i); cbn [mbind option_bind] in H;
        [|discriminate H].
      eapply IH; eauto.
    + cbn [mbind option_bind] in H.
      eapply IH; [exact H|]. rewrite count_warning_spec.
      apply map_Forall_insert_2; [lia | exact Hpos].
Qed.

Lemma link_items_positive items :
  forall linked warnings linked' warnings',
    Loops.link_items resolve count_warning pdb_data (linked, warnings) items
    = Some (linked', warnings') ->
    Trace.positive warnings -> Trace.positive warnings'.
Proof.
  induction items as [|item items IH];
    intros linked warnings linked' warnings' H Hpos.
  - simpl in H. injection H as <- <-. exact Hpos.
  - cbn [Loops.link_items] in H.
    destruct item as [h | parts float_values]; cbn [Loops.link_item] in H.
    + cbn [mbind option_bind] in H. eapply IH; eauto.
    + destruct (Loops.link_parts resolve count_warning pdb_data
                  ([], warnings) parts) as [[indices warnings1]|] eqn:E;
        cbn [mbind option_bind] in H; [|discriminate H].
      eapply IH; [exact H|]. eapply link_parts_positive; eauto.
Qed.

End Tally.

(** X12. A key is in the tally exactly when a reference with that
    residue id and atom name went unresolved, and its count is then the
    number of those references: the tally holds no zero, so its length
    is the number of distinct unresolved references. *)
Theorem tally_keys_are_the_unresolved_references :
  forall (which : script) (mr_data : list mr_item)
         (pdb_data : gmap (Z * str) Z)
         (linked : list linked_item) (warnings : gmap (str * str) nat)
         (key : str * str),
    link_mr_to_pdb_of which mr_data pdb_data = Some (linked, warnings) ->
    let n := Link.occurrences (resolve_of which) pdb_data key
               (Link.references mr_data) in
    warnings !! key = if decide (n = 0%nat) then None else Some n.
Proof.
  intros which mr_data pdb_data linked warnings key H n.
  assert (Hpos : Trace.positive warnings).
  { destruct which; cbn [link_mr_to_pdb_of] in H;
      unfold Mapper.link_mr_to_pdb, General.link_mr_to_pdb,
        Loops.link_mr_to_pdb in H.
    - eapply (link_items_positive _ _ _ mapper_count_warning_spec); eauto.
      apply map_Forall_empty.
    - eapply (link_items_positive _ _ _ general_count_warning_spec); eauto.
      apply map_Forall_empty. }
  apply link_mr_to_pdb_of_spec in H as (_ & Hkey & _).
  specialize (Hkey key). fold n in Hkey.
  destruct (warnings !! key) as [c|] eqn:E; simpl in Hkey.
  - specialize (Hpos _ _ E). simpl in Hpos.
    rewrite decide_False by lia. congruence.
  - rewrite decide_True by lia. reflexivity.
Qed.

Lemma tally_keys_are_the_unresolved_references_witness :
  let mr_data := General.parse_mr_file [Sample.assign_H5'1; Sample.assign_H5'1] in
  let pdb_data := General.parse_pdb_file [Sample.atom_H5'1] in
  let warnings : gmap (str * str) nat := {[ (L "5", L "H5''") := 2%nat ]} in
  let n := Link.occurrences (resolve_of TestGeneral) pdb_data (L "5", L "H5''")
             (Link.references mr_data) in
  warnings !! (L "5", L "H5''") = if decide (n = 0%nat) then None else Some n.
Proof.
  intros mr_data pdb_data warnings.
  assert (H : link_mr_to_pdb_of TestGeneral mr_data pdb_data
              = Some ([LinkedData [L "1"; NA] [L "H5'"; L "H5''"]
                                  [L "3.4"; L "0.5"; L "0.5"];
                       LinkedData [L "1"; NA] [L "H5'"; L "H5''"]
                                  [L "3.4"; L "0.5"; L "0.5"]], warnings))
    by (vm_compute; reflexivity).
  exact (tally_keys_are_the_unresolved_references
           TestGeneral mr_data pdb_data _ warnings (L "5", L "H5''") H).
Defined.

(** * The whole run *)

Lemma header_lines_translate resolve pdb_data include (h : list str) :
  Forall2 (Trace.translates resolve pdb_data include)
          (map Trace.HeaderLine h)
          (map (Py.replace_char "!"%char "#"%char) h).
Proof.
  induction h as [|line h IH]; simpl; constructor; [reflexivity | exact IH].
Qed.

Lemma write_items_translates resolve pdb_data include items linked :
  Forall2 (Link.linked_as resolve pdb_data) items linked ->
  (forall parts float_values,
     In (MrData parts float_values) items ->
     Forall (is_Some ∘ format_bound) float_values) ->
  exists out,
    Main.write_items include linked = (out, true) /\
    Forall2 (Trace.translates resolve pdb_data include)
            (Trace.flatten items) out.
Proof.
  induction 1 as [|item l items linked Has _ IH]; intros Hfmt.
  - exists []. split; [reflexivity | constructor].
  - destruct IH as (out & Hout & Hall).
    { intros parts fv Hin. apply (Hfmt parts fv). right. exact Hin. }
    destruct item as [h | parts fv], l as [h' | indices names fv'];
      simpl in Has; try contradiction.
    + subst h'. exists (map (Py.replace_char "!"%char "#"%char) h ++ out).
      split.
      * cbn [Main.write_items Main.item_lines]. rewrite Hout. reflexivity.
      * unfold Trace.flatten. simpl. apply Forall2_app; [|exact Hall].
        apply header_lines_translate.
    + destruct Has as (Hidx & -> & ->).
      destruct (format_output_line_returns indices (map snd parts) fv include)
        as [line Hline].
      { apply (Hfmt parts fv). left. reflexivity. }
      exists (line :: out). split.
      * cbn [Main.write_items Main.item_lines]. rewrite Hline.
        cbn [mbind option_bind]. rewrite Hout. reflexivity.
      * unfold Trace.flatten. simpl. constructor; [|exact Hall].
        exists indices. auto.
Qed.

Lemma parse_empty_iff (which : script) (lines : list str) :
  parse_mr_file_of which lines = [] <->
  omap (Trace.classify (convert_atom_name_of which)) lines = [].
Proof.
  unfold parse_mr_file_of. rewrite <- parse_mr_file_events.
  pose proof (parse_mr_file_blocks (convert_atom_name_of which) lines) as Hok.
  destruct (MrFile.parse_mr_file _ lines) as [|item items].
  - split; reflexivity.
  - split; [discriminate|]. unfold Trace.flatten. simpl.
    inversion Hok as [|? ? Hitem _]; subst.
    destruct item as [h | parts fv]; simpl; [|discriminate].
    cbn [Trace.item_ok] in Hitem. unfold Trace.block_ok in Hitem.
    destruct h as [|l h]; [discriminate Hitem | discriminate].
Qed.

(** X13. The output file is a translation of the MR file line by line.
    When the MR file has a header or data line, none of its residue ids
    has more than 4300 digits and the index is not empty, the run writes
    all its lines and prints its summary, and the lines written stand, in
    order, for the header and data lines of the MR file: a header line
    trimmed, with every [!] replaced by [#]; a data line formatted from
    the index strings of its references and its bounds.  Nothing else of
    the file, and nothing of the block structure, shows in the output. *)
Theorem main_translates_line_by_line :
  forall (which : script) (include_atom_names : bool)
         (mr_file pdb_file : option (list str)),
    let events :=
      omap (Trace.classify (convert_atom_name_of which))
           (Main.lines_of mr_file) in
    let pdb_data := parse_pdb_file_of which (Main.lines_of pdb_file) in
    events <> [] ->
    forallb Link.short_id (flat_map Trace.event_references events) = true ->
    pdb_data <> ∅ ->
    exists out total unique,
      Main.main which include_atom_names mr_file pdb_file
      = Main.Written out true total unique /\
      Forall2 (Trace.translates (resolve_of which) pdb_data include_atom_names)
              events out.
Proof.
  intros which include mr_file pdb_file events pdb_data Hev Hshort Hpdb.
  unfold Main.main. fold pdb_data.
  assert (Hne : parse_mr_file_of which (Main.lines_of mr_file) <> [])
    by (rewrite parse_empty_iff; exact Hev).
  unfold events in Hshort. rewrite <- parsed_references in Hshort.
  apply (link_of_files_returns which _ (Main.lines_of pdb_file)) in Hshort
    as [[linked warnings] Hlink].
  fold pdb_data in Hlink.
  destruct (parse_mr_file_of which (Main.lines_of mr_file))
    as [|item items] eqn:Eparse; [contradiction|].
  rewrite decide_False by exact Hpdb.
  rewrite Hlink.
  pose proof Hlink as Hspec.
  apply link_mr_to_pdb_of_spec in Hspec as (Hall & _ & _).
  destruct (write_items_translates _ _ include _ _ Hall) as (out & Hout & Htr).
  { intros parts fv Hin. rewrite <- Eparse in Hin.
    eapply parsed_bounds_accepted, Hin. }
  rewrite Hout. exists out, (total_warnings warnings), (size warnings).
  split; [reflexivity|].
  unfold events. rewrite <- parse_mr_file_events.
  unfold parse_mr_file_of in Eparse. rewrite Eparse. exact Htr.
Qed.

Lemma main_translates_line_by_line_witness :
  (exists out total unique,
     Main.main TestGeneral false
       (Some [L "!"; L "! a!b"; L "!"; Sample.assign_H5'1; L ""])
       (Some [Sample.atom_H5'1])
     = Main.Written out true total unique /\
     length out = 4%nat) /\
  (exists out total unique,
     Main.main NmrPdbRestraintMapper true
       (Some [L "!"; L "! a!b"; L "!"; Sample.assign_H5'1; L ""])
       (Some [Sample.atom_H5'1])
     = Main.Written out true total unique /\
     length out = 4%nat).
Proof.
  split.
  - destruct (main_translates_line_by_line TestGeneral false
                (Some [L "!"; L "! a!b"; L "!"; Sample.assign_H5'1; L ""])
                (Some [Sample.atom_H5'1]))
      as (out & total & unique & Hmain & Hall).
    + vm_compute. discriminate.
    + vm_compute. reflexivity.
    + intros H. apply (f_equal (fun m => m !! (5, L "H5'"))) in H.
      vm_compute in H. discriminate H.
    + exists out, total, unique. split; [exact Hmain|].
      apply Forall2_length in Hall. rewrite <- Hall. vm_compute. reflexivity.
  - destruct (main_translates_line_by_line NmrPdbRestraintMapper true
                (Some [L "!"; L "! a!b"; L "!"; Sample.assign_H5'1; L ""])
                (Some [Sample.atom_H5'1]))
      as (out & total & unique & Hmain & Hall).
    + vm_compute. discriminate.
    + vm_compute. reflexivity.
    + intros H. apply (f_equal (fun m => m !! (5, L "H5'"))) in H.
      vm_compute in H. discriminate H.
    + exists out, total, unique. split; [exact Hmain|].
      apply Forall2_length in Hall. rewrite <- Hall. vm_compute. reflexivity.
Defined.

(** X14. The two ways a run is given up.  No MR data is reported
    exactly when no line of the MR file, trimmed, starts with the
    delimiter or the keyword, a missing file included; no PDB data is
    reported exactly when there are such lines and the index is empty. *)
Theorem main_gives_up_iff :
  forall (which : script) (include_atom_names : bool)
         (mr_file pdb_file : option (list str)),
    let events :=
      omap (Trace.classify (convert_atom_name_of which))
           (Main.lines_of mr_file) in
    let pdb_data := parse_pdb_file_of which (Main.lines_of pdb_file) in
    (Main.main which include_atom_names mr_file pdb_file = Main.NoMrData
     <-> events = []) /\
    (Main.main which include_atom_names mr_file pdb_file = Main.NoPdbData
     <-> events <> [] /\ pdb_data = ∅).
Proof.
  intros which include mr_file pdb_file events pdb_data.
  pose proof (parse_empty_iff which (Main.lines_of mr_file)) as Hiff.
  fold events in Hiff. unfold Main.main. fold pdb_data.
  destruct (parse_mr_file_of which (Main.lines_of mr_file))
    as [|item items] eqn:Eparse.
  - assert (events = []) as Hev by (apply Hiff; reflexivity).
    split; [tauto|]. split; [discriminate | tauto].
  - assert (events <> []) as Hev
      by (intros H; apply Hiff in H; discriminate H).
    destruct (decide (pdb_data = ∅)) as [Hempty|Hne].
    + split; [split; [discriminate | tauto] | tauto].
    + destruct (link_mr_to_pdb_of which (item :: items) pdb_data)
        as [[linked warnings]|];
        [destruct (Main.write_items include linked)|];
        (split; split; try discriminate; tauto).
Qed.

(** X18. The run that the linker ends.  [link_mr_to_pdb] is called
    outside any [try], so an exception of the linker ends the run before
    the output file is opened; this happens exactly when the MR file has a
    header or data line, the index is not empty, and some residue id
    referenced in the MR file has more than 4300 digits. *)
Theorem main_raises_iff :
  forall (which : script) (include_atom_names : bool)
         (mr_file pdb_file : option (list str)),
    let events :=
      omap (Trace.classify (convert_atom_name_of which))
           (Main.lines_of mr_file) in
    let pdb_data := parse_pdb_file_of which (Main.lines_of pdb_file) in
    Main.main which include_atom_names mr_file pdb_file = Main.LinkRaised
    <-> events <> [] /\ pdb_data <> ∅ /\
        forallb Link.short_id (flat_map Trace.event_references events)
        = false.
Proof.
  intros which include mr_file pdb_file events pdb_data.
  pose proof (parse_empty_iff which (Main.lines_of mr_file)) as Hiff.
  pose proof (link_of_files_returns which (Main.lines_of mr_file)
                (Main.lines_of pdb_file)) as Hret.
  rewrite parsed_references in Hret.
  fold events in Hiff, Hret. fold pdb_data in Hret.
  unfold Main.main. fold pdb_data.
  destruct (parse_mr_file_of which (Main.lines_of mr_file))
    as [|item items] eqn:Eparse.
  - assert (events = []) as Hev by (apply Hiff; reflexivity).
    split; [discriminate | tauto].
  - assert (events <> []) as Hev
      by (intros H; apply Hiff in H; discriminate H).
    destruct (decide (pdb_data = ∅)) as [Hempty|Hne];
      [split; [discriminate | tauto]|].
    destruct (link_mr_to_pdb_of which (item :: items) pdb_data)
      as [[linked warnings]|].
    + assert (Hshort : forallb Link.short_id
                         (flat_map Trace.event_references events) = true)
        by (apply Hret; eauto).
      destruct (Main.write_items include linked).
      split; [discriminate|]. rewrite Hshort. intros (_ & _ & H).
      discriminate H.
    + split; [|reflexivity]. intros _. split; [exact Hev|].
      split; [exact Hne|].
      destruct (forallb Link.short_id
                  (flat_map Trace.event_references events)); [|reflexivity].
      destruct (proj2 Hret eq_refl) as [x Hx]. discriminate Hx.
Qed.

(** * Further properties of the normaliser *)

Lemma drop_while_app (f : ascii -> bool) (x y : str) :
  Py.drop_while f (x ++ y)
  = if forallb f x then Py.drop_while f y else Py.drop_while f x ++ y.
Proof.
  induction x as [|c x IH]; simpl; [reflexivity|].
  destruct (f c); simpl; [exact IH | reflexivity].
Qed.

Lemma drop_while_all (f : ascii -> bool) (x : str) :
  forallb f x = true -> Py.drop_while f x = [].
Proof.
  induction x as [|c x IH]; simpl; [reflexivity|].
  destruct (f c); simpl; [exact IH | discriminate].
Qed.

Lemma strip_chars_quoted (x : str) :
  Py.strip_chars [Py.dquote] (Py.dquote :: x ++ [Py.dquote])
  = Py.strip_chars [Py.dquote] x.
Proof.
  unfold Py.strip_chars, Py.lstrip_chars at 1.
  change (Py.drop_while _ (Py.dquote :: x ++ [Py.dquote]))
    with (Py.lstrip_chars [Py.dquote] (x ++ [Py.dquote])).
  unfold Py.lstrip_chars. rewrite drop_while_app.
  destruct (forallb _ x) eqn:E.
  - rewrite (drop_while_all _ x E). reflexivity.
  - rewrite rstrip_chars_snoc. reflexivity.
Qed.

Lemma convert_of_strip (which : script) (x : str) :
  convert_atom_name_of which (Py.strip_chars [Py.dquote] x)
  = convert_atom_name_of which x.
Proof.
  destruct which; [apply mapper_convert_strip | apply general_convert_strip].
Qed.

(** X15. Double quotes around a name do not count: in both scripts a
    name, the name between double quotes and the name with its
    surrounding double quotes removed are converted to the same name. *)
Theorem convert_ignores_surrounding_quotes :
  forall (which : script) (x : str),
    convert_atom_name_of which (Py.dquote :: x ++ [Py.dquote])
    = convert_atom_name_of which x /\
    convert_atom_name_of which (Py.strip_chars [Py.dquote] x)
    = convert_atom_name_of which x.
Proof.
  intros which x. split; [|apply convert_of_strip].
  rewrite <- (convert_of_strip which (Py.dquote :: x ++ [Py.dquote])).
  rewrite strip_chars_quoted. apply convert_of_strip.
Qed.

Lemma startswith_primed (u : str) (d : ascii) :
  Py.startswith ((u ++ ["'"%char]) ++ [d]) (L "H5'")
  = Py.startswith (u ++ ["'"%char]) (L "H5'").
Proof.
  destruct u as [|a [|b u]]; unfold L; cbn [list_ascii_of_string app];
    cbn [Py.startswith].
  - reflexivity.
  - ground_bools. reflexivity.
  - destruct u; reflexivity.
Qed.

Lemma strip_chars_primed (b : str) (d : ascii) :
  Py.mem d [Py.dquote] = false ->
  Py.strip_chars [Py.dquote] (b ++ ["'"%char; d])
  = (Py.lstrip_chars [Py.dquote] b ++ ["'"%char]) ++ [d].
Proof.
  intros Hd.
  assert (Hl : Py.lstrip_chars [Py.dquote] (b ++ ["'"%char; d])
               = (Py.lstrip_chars [Py.dquote] b ++ ["'"%char]) ++ [d]).
  { unfold Py.lstrip_chars. rewrite drop_while_app.
    destruct (forallb _ b) eqn:E.
    - rewrite (drop_while_all _ b E). reflexivity.
    - rewrite <- app_assoc. reflexivity. }
  unfold Py.strip_chars. rewrite Hl, rstrip_chars_snoc, Hd. reflexivity.
Qed.

(** X16. The two protons of a pair never fall together: for every name
    [b], in both scripts, the name [b'2] is converted to what [b'1] is
    converted to, followed by one more apostrophe. *)
Theorem pair_names_differ_by_one_prime :
  forall (which : script) (b : str),
    convert_atom_name_of which (b ++ L "'2")
    = convert_atom_name_of which (b ++ L "'1") ++ L "'".
Proof.
  intros which b.
  pose proof (strip_chars_primed b "1"%char eq_refl) as H1.
  pose proof (strip_chars_primed b "2"%char eq_refl) as H2.
  set (u := Py.lstrip_chars [Py.dquote] b) in *.
  pose proof (startswith_primed u "1"%char) as S1.
  pose proof (startswith_primed u "2"%char) as S2.
  unfold L in *. cbn [list_ascii_of_string] in *.
  destruct which; cbn [convert_atom_name_of];
    unfold Mapper.convert_atom_name, General.convert_atom_name;
    rewrite H1, H2; cbv zeta; snoc_norm; rewrite ?rstrip_chars_snoc;
    rewrite S1, S2; ground_bools.
  - destruct (Py.startswith (u ++ ["'"%char]) _); [reflexivity|].
    rewrite <- app_assoc. reflexivity.
  - destruct (Py.startswith (u ++ ["'"%char]) _).
    + destruct (Py.eqb _ _) eqn:E; [|reflexivity].
      apply py_eqb_eq in E. apply (f_equal (@rev ascii)) in E.
      rewrite !rev_app_distr in E. simpl in E. discriminate E.
    + rewrite <- app_assoc. reflexivity.
Qed.

Lemma startswith_has_apostrophe (s : str) :
  Py.startswith s (L "H5'") = true -> Py.mem "'"%char s = true.
Proof.
  destruct s as [|a [|b [|c s]]]; unfold L; cbn [list_ascii_of_string];
    cbn [Py.startswith]; rewrite ?andb_false_r; try discriminate.
  intros H. apply andb_true_iff in H as [_ H].
  apply andb_true_iff in H as [_ H]. apply andb_true_iff in H as [H _].
  apply ascii_eqb_eq in H. subst c. unfold Py.mem. simpl.
  rewrite !orb_true_r. reflexivity.
Qed.

Lemma mem_strip_chars (a : ascii) (chars s : str) :
  Py.mem a s = false -> Py.mem a (Py.strip_chars chars s) = false.
Proof.
  unfold Py.mem. intros H.
  destruct (existsb _ (Py.strip_chars chars s)) eqn:E; [|reflexivity].
  apply existsb_exists in E as (c & Hin & Hc).
  apply in_strip_chars in Hin.
  assert (existsb (Py.ascii_eqb a) s = true)
    by (apply existsb_exists; eauto).
  congruence.
Qed.

(** X17. A name without an apostrophe is only stripped of its
    surrounding double quotes; in test_general.py a final hash is then
    replaced by an asterisk. *)
Theorem unprimed_names_pass_through :
  forall x : str,
    Py.mem "'"%char x = false ->
    let s := Py.strip_chars [Py.dquote] x in
    Mapper.convert_atom_name x = s /\
    General.convert_atom_name x
    = if Py.endswith s (L "#") then Py.drop_last s ++ L "*" else s.
Proof.
  intros x Hx s.
  assert (Hs : Py.mem "'"%char s = false) by (apply mem_strip_chars, Hx).
  assert (Hstart : Py.startswith s (L "H5'") = false).
  { destruct (Py.startswith s (L "H5'")) eqn:E; [|reflexivity].
    apply startswith_has_apostrophe in E. congruence. }
  unfold Mapper.convert_atom_name, General.convert_atom_name.
  fold s. cbv zeta. rewrite Hstart, Hs. simpl. split; reflexivity.
Qed.

Lemma unprimed_names_pass_through_witness :
  Mapper.convert_atom_name (L "N1") = L "N1" /\
  General.convert_atom_name (L "H6#") = L "H6*".
Proof.
  split.
  - exact (proj1 (unprimed_names_pass_through (L "N1") eq_refl)).
  - exact (proj2 (unprimed_names_pass_through (L "H6#") eq_refl)).
Defined.
